(** * A circuit-breaker-protected checkout gateway and its metrics aggregator

    Shallow embedding of [fail-fast/api-service/main.go]: the [ReadyToTrip]
    policy, [callPaymentService], [handleCheckout], [updateMetrics],
    [handleMetrics] and [calculatePercentile], together with the part of the
    imported breaker library ([github.com/sony/gobreaker]) the handlers call.

    Conventions.
    - Go's [int], [int64] and [time.Duration] are 64-bit two's-complement
      integers: a [Z] kept in range by [wrap64]. [uint32] and [uint64] are
      kept in range by [wrap32] and [wrapu64].
    - Go's [float64] is IEEE 754 binary64: [spec_float] with the operations of
      [SpecFloat] at precision 53 and maximal exponent 1024.
    - A slice is a pointer into a store of backing arrays, [nil] being [None].
    - [time.Now()] readings are inputs of the handlers.

    The rest of the repository follows: the remaining endpoints of [main]
    and the server as a whole, the same gateway without the breaker
    ([crash!/api-service/main.go]), and the payment service both gateways
    call ([crash!/flaky-service/main.go]), whose [float32] is [spec_float]
    at precision 24 and maximal exponent 128. *)

From Stdlib Require Import ZArith QArith Lia Bool List String.
From Stdlib Require Import Floats.SpecFloat.
From Stdlib Require Import Sorting.Sorted Sorting.Permutation.
From stdpp Require Import base option list strings gmap sorting.

Local Open Scope Z_scope.

(** ** Machine integers *)

Module GoInt.

Definition maxInt64 : Z := 2 ^ 63 - 1.
Definition minInt64 : Z := - 2 ^ 63.

(** Two's-complement wrap-around of a 64-bit signed integer. *)
Definition wrap64 (z : Z) : Z := (z + 2 ^ 63) mod 2 ^ 64 - 2 ^ 63.

(** Wrap-around of [uint32] and [uint64]. *)
Definition wrap32 (z : Z) : Z := z mod 2 ^ 32.
Definition wrapu64 (z : Z) : Z := z mod 2 ^ 64.

Definition in_int64 (z : Z) : Prop := minInt64 <= z <= maxInt64.
Definition in_uint32 (z : Z) : Prop := 0 <= z < 2 ^ 32.

(** [a / b] on [int64]: truncated towards zero. *)
Definition div64 (a b : Z) : Z := wrap64 (Z.quot a b).

End GoInt.

(** ** IEEE 754 binary64 *)

Module Float64.

Definition prec : Z := 53.
Definition emax : Z := 1024.

Definition float64 : Type := spec_float.

(** [float64(n)] for an integer [n]: rounded to nearest, ties to even. *)
Definition of_int (n : Z) : float64 := binary_normalize prec emax n 0 false.

Definition mul (x y : float64) : float64 := SFmul prec emax x y.
Definition div (x y : float64) : float64 := SFdiv prec emax x y.
Definition sub (x y : float64) : float64 := SFsub prec emax x y.

(** [x >= y]: false as soon as one side is NaN. *)
Definition geb (x y : float64) : bool := SFleb y x.

(** [int(x)]: the fraction is discarded (truncation towards zero). Outside
    [int64], and for NaN and the infinities, the conversion is left
    implementation-specific by the language; amd64 yields the smallest
    [int64]. *)
Definition to_int (x : float64) : Z :=
  match x with
  | S754_zero _ => 0
  | S754_finite s m e =>
      let a := match e with
               | Z0 => Zpos m
               | Zpos k => Zpos m * 2 ^ Zpos k
               | Zneg k => Zpos m / 2 ^ Zpos k
               end in
      let v := if s then - a else a in
      if (GoInt.minInt64 <=? v) && (v <=? GoInt.maxInt64) then v
      else GoInt.minInt64
  | _ => GoInt.minInt64
  end.

(** The literals of the program. A literal denotes the binary64 nearest to
    its decimal value: [0.5], [0.50] and [100] are exact,
    [0.95 = 8556839292003942 / 2^53] and [0.99 = 8917127262193582 / 2^53]
    are the nearest ones below. *)
Definition lit_0_5 : float64 := S754_finite false 4503599627370496 (-53).
Definition lit_0_50 : float64 := lit_0_5.
Definition lit_0_95 : float64 := S754_finite false 8556839292003942 (-53).
Definition lit_0_99 : float64 := S754_finite false 8917127262193582 (-53).
Definition lit_100 : float64 := S754_finite false 7036874417766400 (-46).
Definition lit_0 : float64 := S754_zero false.

Definition is_nan (x : float64) : bool :=
  match x with S754_nan => true | _ => false end.

End Float64.

(** ** Errors and time *)

(** The [error] values that reach the handlers: the breaker's two sentinel
    errors, a transport failure of [client.Get] (connection refused, the
    3 s client timeout, ...) and the error [callPaymentService] builds for a
    response whose status is not 200. A [nil] error is [None]. *)
Inductive error : Type :=
  | ErrOpenState
  | ErrTooManyRequests
  | TransportError (msg : string)
  | ServiceError (StatusCode : Z) (Status : string).

Definition error_eqb (a b : error) : bool :=
  match a, b with
  | ErrOpenState, ErrOpenState => true
  | ErrTooManyRequests, ErrTooManyRequests => true
  | TransportError x, TransportError y => String.eqb x y
  | ServiceError c s, ServiceError d t => (c =? d) && String.eqb s t
  | _, _ => false
  end.

(** [time.Time] as nanoseconds on the monotonic clock (the zero [Time],
    where the library tests for it, is the [None] of an [option Time]);
    [time.Duration] is a number of nanoseconds. *)
Definition Time : Type := Z.
Definition Duration : Type := Z.
Definition Second : Duration := 1000000000.

(** ** The breaker library *)

(** The handlers call the imported library [github.com/sony/gobreaker],
    whose source is not part of the repository. The module embeds, from the
    library's [gobreaker.go] (release v0.5.0, the first with [Counts()]),
    what [NewCircuitBreaker], [Execute], [State] and [Counts] run:
    [Counts.onRequest], [onSuccess], [onFailure] and [clear],
    [beforeRequest], [afterRequest], [onSuccess], [onFailure],
    [currentState], [setState] and [toNewGeneration], and the two errors
    [ErrOpenState] and [ErrTooManyRequests]. The mutex is left out: the model
    is sequential, one critical section after the other; [beforeRequest] and
    [afterRequest] are separate steps, so requests in flight can be
    described. *)
Module gobreaker.

Inductive State : Type := StateClosed | StateHalfOpen | StateOpen.

Definition State_eqb (a b : State) : bool :=
  match a, b with
  | StateClosed, StateClosed => true
  | StateHalfOpen, StateHalfOpen => true
  | StateOpen, StateOpen => true
  | _, _ => false
  end.

(** All five counters are [uint32]. *)
Record Counts : Type := mkCounts {
  Requests : Z;
  TotalSuccesses : Z;
  TotalFailures : Z;
  ConsecutiveSuccesses : Z;
  ConsecutiveFailures : Z
}.

Definition zeroCounts : Counts := mkCounts 0 0 0 0 0.

Definition Counts_onRequest (c : Counts) : Counts :=
  mkCounts (GoInt.wrap32 (Requests c + 1)) (TotalSuccesses c) (TotalFailures c)
           (ConsecutiveSuccesses c) (ConsecutiveFailures c).

Definition Counts_onSuccess (c : Counts) : Counts :=
  mkCounts (Requests c) (GoInt.wrap32 (TotalSuccesses c + 1)) (TotalFailures c)
           (GoInt.wrap32 (ConsecutiveSuccesses c + 1)) 0.

Definition Counts_onFailure (c : Counts) : Counts :=
  mkCounts (Requests c) (TotalSuccesses c) (GoInt.wrap32 (TotalFailures c + 1))
           0 (GoInt.wrap32 (ConsecutiveFailures c + 1)).

Definition Counts_clear (c : Counts) : Counts := zeroCounts.

(** The fields of [Settings] the program sets ([Name] only labels the
    notifications). [OnStateChange] is recorded in the breaker as the list of
    its invocations. *)
Record Settings : Type := mkSettings {
  MaxRequests : Z;
  Interval : Duration;
  Timeout : Duration;
  ReadyToTrip : option (Counts -> bool)
}.

Record CircuitBreaker : Type := mkCircuitBreaker {
  maxRequests : Z;
  interval : Duration;
  timeout : Duration;
  readyToTrip : Counts -> bool;
  state : State;
  generation : Z;
  counts : Counts;
  expiry : option Time;
  (** the calls of [onStateChange] made so far, oldest first: (from, to) *)
  notified : list (State * State)
}.

Definition defaultInterval : Duration := 0.
Definition defaultTimeout : Duration := 60 * Second.

Definition defaultReadyToTrip (c : Counts) : bool := 5 <? ConsecutiveFailures c.

(** [defaultIsSuccessful]: the program sets no [IsSuccessful]. *)
Definition isSuccessful (err : option error) : bool :=
  match err with None => true | Some _ => false end.

Definition toNewGeneration (cb : CircuitBreaker) (now : Time) : CircuitBreaker :=
  let expiry' :=
    match state cb with
    | StateClosed =>
        if interval cb =? 0 then None else Some (now + interval cb)
    | StateOpen => Some (now + timeout cb)
    | StateHalfOpen => None
    end in
  mkCircuitBreaker (maxRequests cb) (interval cb) (timeout cb) (readyToTrip cb)
    (state cb) (GoInt.wrapu64 (generation cb + 1)) (Counts_clear (counts cb))
    expiry' (notified cb).

Definition setState (cb : CircuitBreaker) (st : State) (now : Time)
  : CircuitBreaker :=
  if State_eqb (state cb) st then cb
  else
    let prev := state cb in
    let cb1 :=
      mkCircuitBreaker (maxRequests cb) (interval cb) (timeout cb)
        (readyToTrip cb) st (generation cb) (counts cb) (expiry cb)
        (notified cb) in
    let cb2 := toNewGeneration cb1 now in
    mkCircuitBreaker (maxRequests cb2) (interval cb2) (timeout cb2)
      (readyToTrip cb2) (state cb2) (generation cb2) (counts cb2) (expiry cb2)
      (notified cb2 ++ [(prev, st)]).

(** [t.Before(now)]; the zero [Time] is before every clock reading. *)
Definition Before (t : option Time) (now : Time) : bool :=
  match t with None => true | Some e => e <? now end.

Definition IsZero (t : option Time) : bool :=
  match t with None => true | Some _ => false end.

Definition currentState (cb : CircuitBreaker) (now : Time)
  : CircuitBreaker * (State * Z) :=
  let cb' :=
    match state cb with
    | StateClosed =>
        if negb (IsZero (expiry cb)) && Before (expiry cb) now
        then toNewGeneration cb now else cb
    | StateOpen =>
        if Before (expiry cb) now then setState cb StateHalfOpen now else cb
    | StateHalfOpen => cb
    end in
  (cb', (state cb', generation cb')).

Definition with_counts (cb : CircuitBreaker) (c : Counts) : CircuitBreaker :=
  mkCircuitBreaker (maxRequests cb) (interval cb) (timeout cb) (readyToTrip cb)
    (state cb) (generation cb) c (expiry cb) (notified cb).

Definition beforeRequest (cb : CircuitBreaker) (now : Time)
  : CircuitBreaker * (Z * option error) :=
  let '(cb1, (st, gen)) := currentState cb now in
  match st with
  | StateOpen => (cb1, (gen, Some ErrOpenState))
  | StateHalfOpen =>
      if maxRequests cb1 <=? Requests (counts cb1)
      then (cb1, (gen, Some ErrTooManyRequests))
      else (with_counts cb1 (Counts_onRequest (counts cb1)), (gen, None))
  | StateClosed =>
      (with_counts cb1 (Counts_onRequest (counts cb1)), (gen, None))
  end.

Definition onSuccess (cb : CircuitBreaker) (st : State) (now : Time)
  : CircuitBreaker :=
  match st with
  | StateClosed => with_counts cb (Counts_onSuccess (counts cb))
  | StateHalfOpen =>
      let cb1 := with_counts cb (Counts_onSuccess (counts cb)) in
      if maxRequests cb1 <=? ConsecutiveSuccesses (counts cb1)
      then setState cb1 StateClosed now else cb1
  | StateOpen => cb
  end.

Definition onFailure (cb : CircuitBreaker) (st : State) (now : Time)
  : CircuitBreaker :=
  match st with
  | StateClosed =>
      let cb1 := with_counts cb (Counts_onFailure (counts cb)) in
      if readyToTrip cb1 (counts cb1) then setState cb1 StateOpen now else cb1
  | StateHalfOpen => setState cb StateOpen now
  | StateOpen => cb
  end.

Definition afterRequest (cb : CircuitBreaker) (before : Z) (success : bool)
  (now : Time) : CircuitBreaker :=
  let '(cb1, (st, gen)) := currentState cb now in
  if negb (gen =? before) then cb1
  else if success then onSuccess cb1 st now else onFailure cb1 st now.

(** [Execute]: [req] runs on a state of its own (it does not reach the
    breaker); [tb] and [ta] are the clock readings of [beforeRequest] and
    [afterRequest]. A [req] that panics is not modelled: the program's
    request does not. *)
Definition Execute {S R : Type}
  (cb : CircuitBreaker) (req : S -> (option R * option error) * S)
  (tb ta : Time) (s : S)
  : (option R * option error) * CircuitBreaker * S :=
  let '(cb1, (gen, err)) := beforeRequest cb tb in
  match err with
  | Some e => ((None, Some e), cb1, s)
  | None =>
      let '((result, err'), s') := req s in
      ((result, err'), afterRequest cb1 gen (isSuccessful err') ta, s')
  end.

(** The method [State()]: it evaluates the timers like a request does. *)
Definition CircuitBreaker_State (cb : CircuitBreaker) (now : Time)
  : CircuitBreaker * State :=
  let '(cb1, (st, _)) := currentState cb now in (cb1, st).

(** The method [Counts()]: a plain read. *)
Definition CircuitBreaker_Counts (cb : CircuitBreaker) : Counts := counts cb.

Definition NewCircuitBreaker (st : Settings) (now : Time) : CircuitBreaker :=
  let cb :=
    mkCircuitBreaker
      (if MaxRequests st =? 0 then 1 else MaxRequests st)
      (if Interval st <=? 0 then defaultInterval else Interval st)
      (if Timeout st <=? 0 then defaultTimeout else Timeout st)
      (match ReadyToTrip st with
       | None => defaultReadyToTrip
       | Some f => f
       end)
      StateClosed 0 zeroCounts None [] in
  toNewGeneration cb now.

End gobreaker.

(** ** Slices over a store of backing arrays *)

Definition loc : Type := positive.

(** A slice of [time.Duration]: [nil], or a pointer to its backing array.
    The array holds exactly the slice's elements; spare capacity is not
    modelled, so [append] grows the array where it is. The program never
    holds a second slice over the history's array, which makes the
    reallocation [append] may perform unobservable. *)
Definition Slice : Type := option loc.

Definition elems (h : gmap loc (list Z)) (s : Slice) : list Z :=
  match s with
  | None => []
  | Some p => default [] (h !! p)
  end.

Definition len (h : gmap loc (list Z)) (s : Slice) : Z :=
  Z.of_nat (length (elems h s)).

(** [make([]time.Duration, n)]: a fresh zeroed array. *)
Definition make (h : gmap loc (list Z)) (n : Z) : gmap loc (list Z) * Slice :=
  let p := fresh (dom h) in
  (<[p := replicate (Z.to_nat n) 0]> h, Some p).

(** [copy(dst, src)]: overwrites the first [min(len(dst), len(src))]
    elements of [dst]. *)
Definition copy (h : gmap loc (list Z)) (dst src : Slice) : gmap loc (list Z) :=
  match dst with
  | None => h
  | Some p =>
      let d := elems h dst in
      let s := elems h src in
      let k := Nat.min (length d) (length s) in
      <[p := take k s ++ drop k d]> h
  end.

(** [append(s, x)]. *)
Definition append (h : gmap loc (list Z)) (s : Slice) (x : Z)
  : gmap loc (list Z) * Slice :=
  match s with
  | None => let p := fresh (dom h) in (<[p := [x]]> h, Some p)
  | Some p => (<[p := elems h s ++ [x]]> h, Some p)
  end.

(** [s[i]]; an index out of range panics in Go and reads 0 here
    ([index_in_range] shows the program never does it). *)
Definition index (h : gmap loc (list Z)) (s : Slice) (i : Z) : Z :=
  if (0 <=? i) && (i <? len h s) then nth (Z.to_nat i) (elems h s) 0 else 0.

(** [sort.Slice(s, less)] with [less(i, j) = s[i] < s[j]] rearranges the
    array in place in ascending order. Which permutation of equal elements
    the library picks cannot be told apart on integers, so insertion in
    order stands for it ([sorted_unique] makes this precise). *)
Fixpoint insert_sorted (x : Z) (l : list Z) : list Z :=
  match l with
  | [] => [x]
  | y :: l' => if x <=? y then x :: y :: l' else y :: insert_sorted x l'
  end.

Fixpoint sorted_list (l : list Z) : list Z :=
  match l with
  | [] => []
  | x :: l' => insert_sorted x (sorted_list l')
  end.

Definition sort_Slice (h : gmap loc (list Z)) (s : Slice) : gmap loc (list Z) :=
  match s with
  | None => h
  | Some p => <[p := sorted_list (elems h s)]> h
  end.

(** ** The program: [fail-fast/api-service/main.go] *)

Record CheckoutRequest : Type := mkCheckoutRequest {
  Item : string;
  Price : Float64.float64
}.

(** [Metrics] without its mutex. *)
Record Metrics : Type := mkMetrics {
  TotalRequests : Z;
  SuccessfulRequests : Z;
  FailedRequests : Z;
  CircuitOpenRejects : Z;
  TotalLatency : Duration;
  LatencyHistory : Slice
}.

(** [&Metrics{}] *)
Definition zeroMetrics : Metrics := mkMetrics 0 0 0 0 0 None.

(** The [ReadyToTrip] closure of [main]. *)
Definition ReadyToTrip (counts : gobreaker.Counts) : bool :=
  if 3 <=? gobreaker.ConsecutiveFailures counts then true
  else if 5 <=? gobreaker.Requests counts then
    let failureRatio :=
      Float64.div (Float64.of_int (gobreaker.TotalFailures counts))
                  (Float64.of_int (gobreaker.Requests counts)) in
    Float64.geb failureRatio Float64.lit_0_5
  else false.

(** The [gobreaker.Settings] of [main]. *)
Definition settings : gobreaker.Settings :=
  gobreaker.mkSettings 2 (20 * Second) (10 * Second) (Some ReadyToTrip).

(** The process state: the store, the two globals [metrics] and [cb], and
    the number of requests [client.Get] has sent to the payment service. *)
Record World : Type := mkWorld {
  heap : gmap loc (list Z);
  metrics : Metrics;
  cb : gobreaker.CircuitBreaker;
  calls : Z
}.

(** [main] up to the point where the server listens. *)
Definition initWorld (now : Time) : World :=
  mkWorld ∅ zeroMetrics (gobreaker.NewCircuitBreaker settings now) 0.

(** What [client.Get] comes back with: a transport error, or a response
    with its status code and status line. *)
Inductive GetResult : Type :=
  | GetError (msg : string)
  | GetResponse (StatusCode : Z) (Status : string).

Definition StatusOK : Z := 200.
Definition StatusBadRequest : Z := 400.
Definition StatusBadGateway : Z := 502.
Definition StatusServiceUnavailable : Z := 503.

(** [callPaymentService]: [get] is the outcome of the GET it sends; the
    state it runs on is the count of requests sent. The value returned with
    a [nil] error is the response. *)
Definition callPaymentService (get : GetResult) (sent : Z)
  : (option GetResult * option error) * Z :=
  let sent' := sent + 1 in
  match get with
  | GetError msg => ((None, Some (TransportError msg)), sent')
  | GetResponse code status =>
      if negb (code =? StatusOK)
      then ((None, Some (ServiceError code status)), sent')
      else ((Some get, None), sent')
  end.

Definition updateMetrics (err : option error) (latency : Duration)
  (st : gobreaker.State) (h : gmap loc (list Z)) (m : Metrics)
  : gmap loc (list Z) * Metrics :=
  let total := GoInt.wrap64 (TotalRequests m + 1) in
  let lat := GoInt.wrap64 (TotalLatency m + latency) in
  let '(h', hist) := append h (LatencyHistory m) latency in
  match err with
  | Some _ =>
      let failed := GoInt.wrap64 (FailedRequests m + 1) in
      let rejects :=
        if gobreaker.State_eqb st gobreaker.StateOpen
        then GoInt.wrap64 (CircuitOpenRejects m + 1)
        else CircuitOpenRejects m in
      (h', mkMetrics total (SuccessfulRequests m) failed rejects lat hist)
  | None =>
      (h', mkMetrics total (GoInt.wrap64 (SuccessfulRequests m + 1))
                     (FailedRequests m) (CircuitOpenRejects m) lat hist)
  end.

(** What [handleCheckout] writes: the status code and the body. *)
Inductive Reply : Type :=
  | InvalidRequest
  | FastFail (latency : Duration)
  | PaymentFailed (root_cause : error) (latency : Duration)
  | Confirmed (item : string) (charged : Float64.float64) (latency : Duration).

Definition statusCode (r : Reply) : Z :=
  match r with
  | InvalidRequest => StatusBadRequest
  | FastFail _ => StatusServiceUnavailable
  | PaymentFailed _ _ => StatusBadGateway
  | Confirmed _ _ _ => StatusOK
  end.

(** The clock readings of one run of [handleCheckout]: [t_before] and
    [t_after] inside [Execute], [elapsed = time.Since(start)], and
    [t_state] inside the [cb.State()] passed to [updateMetrics]. *)
Record Clock : Type := mkClock {
  t_before : Time;
  t_after : Time;
  elapsed : Duration;
  t_state : Time
}.

(** [handleCheckout]: [body] is the decoded request ([None] when the JSON
    is malformed), [get] what the payment service would answer. *)
Definition handleCheckout (body : option CheckoutRequest) (get : GetResult)
  (clk : Clock) (w : World) : Reply * World :=
  match body with
  | None => (InvalidRequest, w)
  | Some req =>
      let '((result, err), cb1, sent) :=
        gobreaker.Execute (cb w) (callPaymentService get)
          (t_before clk) (t_after clk) (calls w) in
      let duration := elapsed clk in
      let '(cb2, st) := gobreaker.CircuitBreaker_State cb1 (t_state clk) in
      let '(h', m') := updateMetrics err duration st (heap w) (metrics w) in
      let w' := mkWorld h' m' cb2 sent in
      match err with
      | Some e =>
          if error_eqb e ErrOpenState then (FastFail duration, w')
          else (PaymentFailed e duration, w')
      | None => (Confirmed (Item req) (Price req) duration, w')
      end
  end.

Definition calculatePercentile (h : gmap loc (list Z)) (latencies : Slice)
  (percentile : Float64.float64) : Duration * gmap loc (list Z) :=
  if len h latencies =? 0 then (0, h)
  else
    let '(h1, sorted) := make h (len h latencies) in
    let h2 := copy h1 sorted latencies in
    let h3 := sort_Slice h2 sorted in
    let index0 :=
      Float64.to_int (Float64.mul (Float64.of_int (len h3 sorted)) percentile) in
    let index1 := if len h3 sorted <=? index0 then len h3 sorted - 1 else index0 in
    (index h3 sorted index1, h3).

(** The body [handleMetrics] encodes. The latencies are kept as durations:
    [String()] only formats them. *)
Record MetricsResponse : Type := mkMetricsResponse {
  CircuitState : gobreaker.State;
  CircuitCounts : gobreaker.Counts;
  r_TotalRequests : Z;
  SuccessCount : Z;
  FailureCount : Z;
  FastFails : Z;
  SuccessRate : Float64.float64;
  ErrorRate : Float64.float64;
  AvgLatency : Duration;
  MedianLatency : Duration;
  P95Latency : Duration;
  P99Latency : Duration
}.

(** [handleMetrics]; [now] is the clock reading inside [cb.State()]. *)
Definition handleMetrics (now : Time) (w : World) : MetricsResponse * World :=
  let m := metrics w in
  let '(avgLatency, successRate, errorRate) :=
    if 0 <? TotalRequests m then
      let successRate :=
        Float64.mul
          (Float64.div (Float64.of_int (SuccessfulRequests m))
                       (Float64.of_int (TotalRequests m)))
          Float64.lit_100 in
      (GoInt.div64 (TotalLatency m) (TotalRequests m),
       successRate,
       Float64.sub Float64.lit_100 successRate)
    else (0, Float64.lit_0, Float64.lit_0) in
  let '(p50, h1) := calculatePercentile (heap w) (LatencyHistory m) Float64.lit_0_50 in
  let '(p95, h2) := calculatePercentile h1 (LatencyHistory m) Float64.lit_0_95 in
  let '(p99, h3) := calculatePercentile h2 (LatencyHistory m) Float64.lit_0_99 in
  let currentCounts := gobreaker.CircuitBreaker_Counts (cb w) in
  let '(cb', currentState) := gobreaker.CircuitBreaker_State (cb w) now in
  (mkMetricsResponse currentState currentCounts (TotalRequests m)
     (SuccessfulRequests m) (FailedRequests m) (CircuitOpenRejects m)
     successRate errorRate avgLatency p50 p95 p99,
   mkWorld h3 m cb' (calls w)).

(** ** Definitions the statements use *)

(** *** Rounding to binary64, in integers *)

(** [m / 2^k] rounded to the nearest integer, ties to even. *)
Definition rne (m k : Z) : Z :=
  let q := m / 2 ^ k in
  match 2 * (m mod 2 ^ k) ?= 2 ^ k with
  | Lt => q
  | Eq => if Z.even q then q else q + 1
  | Gt => q + 1
  end.

(** A mantissa that rounding carried to [2^53] moves to the next exponent. *)
Definition renorm (sx : bool) (m1 e1 : Z) : spec_float :=
  if m1 =? 2 ^ 53 then S754_finite sx (Z.to_pos (2 ^ 52)) (e1 + 1)
  else S754_finite sx (Z.to_pos m1) e1.

(** The 53-digit mantissa of the binary64 of a positive integer of at most
    53 digits. *)
Definition norm_m (n : Z) : Z := n * 2 ^ (53 - Zdigits2 n).

(** [int(float64(n) * x)] for [x = md / 2^53] in [[1/2, 1)], in integers. *)
Definition mul_index (n md : Z) : Z :=
  let M := norm_m n * md in
  let k := Zdigits2 M - 53 in
  rne M k / 2 ^ (106 - Zdigits2 n - k).

(** *** The trip condition as the specification words it *)



(** *** Feeding outcomes to the breaker *)





(** A timer of the breaker is due at [now]: the next [currentState] opens a
    new generation. *)
Definition due (b : gobreaker.CircuitBreaker) (now : Time) : bool :=
  match gobreaker.state b with
  | gobreaker.StateClosed =>
      negb (gobreaker.IsZero (gobreaker.expiry b)) &&
      gobreaker.Before (gobreaker.expiry b) now
  | gobreaker.StateOpen => gobreaker.Before (gobreaker.expiry b) now
  | gobreaker.StateHalfOpen => false
  end.

(** *** Recorded attempts *)

(** The arguments of one call of [updateMetrics]. *)
Record Attempt : Type := mkAttempt {
  a_err : option error;
  a_latency : Duration;
  a_state : gobreaker.State
}.

Definition record (hm : gmap loc (list Z) * Metrics) (a : Attempt)
  : gmap loc (list Z) * Metrics :=
  updateMetrics (a_err a) (a_latency a) (a_state a) hm.1 hm.2.

(** The metrics after the attempts [rs], from [&Metrics{}]. *)
Definition recorded (rs : list Attempt) : gmap loc (list Z) * Metrics :=
  fold_left record rs (∅, zeroMetrics).

Definition is_success (a : Attempt) : bool :=
  match a_err a with None => true | Some _ => false end.

Definition is_failure (a : Attempt) : bool := negb (is_success a).

(** A failure reported while the breaker says it is open. *)
Definition is_reject (a : Attempt) : bool :=
  is_failure a && gobreaker.State_eqb (a_state a) gobreaker.StateOpen.

Definition count (f : Attempt -> bool) (rs : list Attempt) : Z :=
  Z.of_nat (length (filter (fun a => f a = true) rs)).

Definition latencies (rs : list Attempt) : list Z := map a_latency rs.

Definition sum (l : list Z) : Z := fold_right Z.add 0 l.

(** The invariant of [metrics] and its history. *)
Definition MetricsInv (h : gmap loc (list Z)) (m : Metrics) : Prop :=
  0 <= SuccessfulRequests m /\ 0 <= FailedRequests m /\
  0 <= CircuitOpenRejects m /\
  TotalRequests m = SuccessfulRequests m + FailedRequests m /\
  len h (LatencyHistory m) = TotalRequests m /\
  CircuitOpenRejects m <= FailedRequests m.

(** *** Percentiles as the specification words them *)

(** Sort ascending, take the index [floor(count * p / 100)] clamped to
    [count - 1], return the value there; 0 on an empty history. *)
Definition percentile_spec (p : Z) (history : list Z) : Z :=
  match history with
  | [] => 0
  | _ =>
      let count := Z.of_nat (length history) in
      let i := Z.min (count * p / 100) (count - 1) in
      nth (Z.to_nat i) (sorted_list history) 0
  end.

(** The value [calculatePercentile] returns, as a function of the slice's
    elements. *)
Definition percentile_of (percentile : Float64.float64) (l : list Z) : Z :=
  if Z.of_nat (length l) =? 0 then 0
  else
    let n := Z.of_nat (length l) in
    let i0 := Float64.to_int (Float64.mul (Float64.of_int n) percentile) in
    let i1 := if n <=? i0 then n - 1 else i0 in
    if (0 <=? i1) && (i1 <? n) then nth (Z.to_nat i1) (sorted_list l) 0 else 0.

(** The fields of the [/metrics] body computed from [metrics]. *)
Definition derived (r : MetricsResponse)
  : Z * Z * Z * Z * Float64.float64 * Float64.float64 *
    Duration * Duration * Duration * Duration :=
  (r_TotalRequests r, SuccessCount r, FailureCount r, FastFails r,
   SuccessRate r, ErrorRate r, AvgLatency r, MedianLatency r, P95Latency r,
   P99Latency r).

(** A length no [[]time.Duration] reaches on amd64: the runtime refuses an
    allocation above its [2^48]-byte heap arena, and an element takes 8
    bytes. *)
Definition maxLen : Z := 2 ^ 45.

(** *** The percentiles the program asks for *)

(** The binary64 literal [handleMetrics] passes for the percentile [p]. *)
Definition percentile_literal (p : Z) : option Float64.float64 :=
  if p =? 50 then Some Float64.lit_0_50
  else if p =? 95 then Some Float64.lit_0_95
  else if p =? 99 then Some Float64.lit_0_99
  else None.

Definition Millisecond : Duration := 1000000.

(** *** The breaker of [main] while closed *)

(** The counts a request leaves in a closed breaker. *)
Definition counts_after (ok : bool) (c : gobreaker.Counts) : gobreaker.Counts :=
  if ok then gobreaker.Counts_onSuccess (gobreaker.Counts_onRequest c)
  else gobreaker.Counts_onFailure (gobreaker.Counts_onRequest c).


(** *** The snapshot as a function of [metrics] *)

(** The history-derived fields of the [/metrics] body, from [metrics] and
    the elements of its history. *)
Definition view (m : Metrics) (history : list Z)
  : Z * Z * Z * Z * Float64.float64 * Float64.float64 *
    Duration * Duration * Duration * Duration :=
  let successRate :=
    Float64.mul
      (Float64.div (Float64.of_int (SuccessfulRequests m))
                   (Float64.of_int (TotalRequests m)))
      Float64.lit_100 in
  (TotalRequests m, SuccessfulRequests m, FailedRequests m, CircuitOpenRejects m,
   (if 0 <? TotalRequests m then successRate else Float64.lit_0),
   (if 0 <? TotalRequests m then Float64.sub Float64.lit_100 successRate
    else Float64.lit_0),
   (if 0 <? TotalRequests m then GoInt.div64 (TotalLatency m) (TotalRequests m)
    else 0),
   percentile_of Float64.lit_0_50 history,
   percentile_of Float64.lit_0_95 history,
   percentile_of Float64.lit_0_99 history).

(** The store after the three percentile computations of [handleMetrics]. *)
Definition after_percentiles (h : gmap loc (list Z)) (s : Slice)
  : gmap loc (list Z) :=
  (calculatePercentile
     (calculatePercentile
        (calculatePercentile h s Float64.lit_0_50).2 s Float64.lit_0_95).2
     s Float64.lit_0_99).2.

(** *** Serving checkouts in sequence *)

(** The server handling decoded checkouts one after the other. *)
Fixpoint serve (l : list (CheckoutRequest * GetResult * Clock)) (w : World)
  : list Reply * World :=
  match l with
  | [] => ([], w)
  | (req, get, clk) :: l' =>
      let '(r, w1) := handleCheckout (Some req) get clk w in
      let '(rs, w2) := serve l' w1 in
      (r :: rs, w2)
  end.

(** *** Example runs *)

Definition a_request : CheckoutRequest :=
  mkCheckoutRequest "book" (S754_finite false 5629499534213120 (-49)).

Definition failing : GetResult := GetResponse 500 "500 Internal Server Error".
Definition healthy : GetResult := GetResponse 200 "200 OK".

(** A request handled at [t]: admitted at [t], answered one millisecond
    later, five milliseconds in all. *)
Definition clock_at (t : Time) : Clock :=
  mkClock t (t + Millisecond) (5 * Millisecond) (t + 2 * Millisecond).

(** The server started at 0 and three checkouts failed, one second apart:
    the third tripped the breaker. *)
Definition tripped_world : World :=
  (handleCheckout (Some a_request) failing (clock_at (3 * Second))
     (handleCheckout (Some a_request) failing (clock_at (2 * Second))
        (handleCheckout (Some a_request) failing (clock_at (1 * Second))
           (initWorld 0)).2).2).2.

(** Eleven seconds later the timeout has elapsed and two probes have been
    admitted; neither has answered yet. *)
Definition probing_world : World :=
  mkWorld (heap tripped_world) (metrics tripped_world)
    (gobreaker.beforeRequest
       (gobreaker.beforeRequest (cb tripped_world) (14 * Second)).1
       (14 * Second + 1)).1
    (calls tripped_world).

(** A store whose array 1 holds five latencies, and a world over it. *)
Definition example_store : gmap loc (list Z) :=
  {[ 1%positive := map (Z.mul Millisecond) [50; 10; 40; 20; 30] ]}.

Definition example_world : World :=
  mkWorld example_store
    (mkMetrics 5 4 1 0 (150 * Millisecond) (Some 1%positive))
    (gobreaker.NewCircuitBreaker settings 0) 5.

(** One rejected attempt; one success and one failure. *)
Definition one_rejection : list Attempt :=
  [mkAttempt (Some ErrOpenState) 5 gobreaker.StateOpen].

Definition two_attempts : list Attempt :=
  [mkAttempt None (10 * Millisecond) gobreaker.StateClosed;
   mkAttempt (Some (ServiceError 500 "500 Internal Server Error"))
             (25 * Millisecond) gobreaker.StateClosed].

(** ** The rest of [main]: configuration, logging and the other endpoints *)

(** [os.Getenv]: the value of the variable, the empty string when it is not
    set. *)
Definition Getenv (env : gmap string string) (key : string) : string :=
  default EmptyString (env !! key).

(** [getFlakyServiceURL]; the two API services have the same text. *)
Definition getFlakyServiceURL (env : gmap string string) : string :=
  let url := Getenv env "FLAKY_SERVICE_URL" in
  if negb (String.eqb url EmptyString) then url
  else "http://flaky-service:8081".

(** The lines the [OnStateChange] closure of [main] prints. *)
Inductive LogLine : Type :=
  | StateChange (from to : gobreaker.State)
  | AttemptingRecovery.

Definition OnStateChange (from to : gobreaker.State) : list LogLine :=
  StateChange from to ::
  (if gobreaker.State_eqb to gobreaker.StateHalfOpen
   then [AttemptingRecovery] else []).

(** What the breaker has had the closure print so far. *)
Definition state_log (b : gobreaker.CircuitBreaker) : list LogLine :=
  flat_map (fun ft => OnStateChange ft.1 ft.2) (gobreaker.notified b).

(** The body of [/circuit-state]. *)
Record StateInfo : Type := mkStateInfo {
  State : gobreaker.State;
  Counts : gobreaker.Counts
}.

(** The closure [main] registers at [/circuit-state]: it reads the counts,
    then the state; [now] is the clock reading inside [cb.State()]. *)
Definition handleCircuitState (now : Time) (w : World) : StateInfo * World :=
  let currentCounts := gobreaker.CircuitBreaker_Counts (cb w) in
  let '(cb', st) := gobreaker.CircuitBreaker_State (cb w) now in
  (mkStateInfo st currentCounts, mkWorld (heap w) (metrics w) cb' (calls w)).

(** The requests the server of [main] answers, by the handler they reach,
    each with the inputs of that handler: [/] (the static page, which is
    also what every unregistered path gets), [/api/checkout], [/metrics],
    [/circuit-state] and [/health]. *)
Inductive Request : Type :=
  | ReqIndex
  | ReqCheckout (body : option CheckoutRequest) (get : GetResult) (clk : Clock)
  | ReqMetrics (now : Time)
  | ReqCircuitState (now : Time)
  | ReqHealth.

Inductive Response : Type :=
  | StaticPage
  | CheckoutReply (r : Reply)
  | MetricsBody (r : MetricsResponse)
  | CircuitStateBody (r : StateInfo)
  | Healthy.

(** One request through the handler registered for it. *)
Definition route (rq : Request) (w : World) : Response * World :=
  match rq with
  | ReqIndex => (StaticPage, w)
  | ReqCheckout body get clk =>
      let '(r, w') := handleCheckout body get clk w in (CheckoutReply r, w')
  | ReqMetrics now =>
      let '(r, w') := handleMetrics now w in (MetricsBody r, w')
  | ReqCircuitState now =>
      let '(r, w') := handleCircuitState now w in (CircuitStateBody r, w')
  | ReqHealth => (Healthy, w)
  end.

(** The server answering requests one after the other. *)
Fixpoint run (l : list Request) (w : World) : list Response * World :=
  match l with
  | [] => ([], w)
  | rq :: l' =>
      let '(r, w1) := route rq w in
      let '(rs, w2) := run l' w1 in
      (r :: rs, w2)
  end.

(** The checkout replies among the responses, in order. *)
Definition checkout_replies (rs : list Response) : list Reply :=
  flat_map (fun r => match r with CheckoutReply x => [x] | _ => [] end) rs.

(** The latency a reply reports; the reply to a malformed request has none. *)
Definition reply_latency (r : Reply) : list Duration :=
  match r with
  | InvalidRequest => []
  | FastFail d => [d]
  | PaymentFailed _ d => [d]
  | Confirmed _ _ d => [d]
  end.

(** The reply tells whether the payment service was called: it was for a
    confirmation and for a failure that is not one of the breaker's own
    errors. *)
Definition reached_downstream (r : Reply) : bool :=
  match r with
  | Confirmed _ _ _ => true
  | PaymentFailed e _ =>
      negb (error_eqb e ErrOpenState) && negb (error_eqb e ErrTooManyRequests)
  | _ => false
  end.

Definition count_status (code : Z) (rs : list Reply) : Z :=
  Z.of_nat (length (filter (fun r => statusCode r = code) rs)).

(** The settings of [main], as every breaker of the program carries them. *)
Definition configured (b : gobreaker.CircuitBreaker) : Prop :=
  gobreaker.maxRequests b = 2 /\
  gobreaker.interval b = 20 * Second /\
  gobreaker.timeout b = 10 * Second /\
  gobreaker.readyToTrip b = ReadyToTrip.

(** The state changes the library makes. *)
Definition allowed (ft : gobreaker.State * gobreaker.State) : bool :=
  match ft with
  | (gobreaker.StateClosed, gobreaker.StateOpen) => true
  | (gobreaker.StateOpen, gobreaker.StateHalfOpen) => true
  | (gobreaker.StateHalfOpen, gobreaker.StateClosed) => true
  | (gobreaker.StateHalfOpen, gobreaker.StateOpen) => true
  | _ => false
  end.

(** Where a sequence of state changes leads from [s], each change starting
    where the one before ended. *)
Fixpoint follows (s : gobreaker.State)
  (l : list (gobreaker.State * gobreaker.State)) : option gobreaker.State :=
  match l with
  | [] => Some s
  | (f, t) :: l' => if gobreaker.State_eqb f s then follows t l' else None
  end.

(** What holds of the breaker of [main] between two requests, when requests
    are served one after the other: it carries the settings of [main]; the
    state changes it has notified lead from CLOSED to its state, each an
    allowed one; its counts are zero while OPEN; and while HALF_OPEN it has
    seen no probe yet, or one probe that succeeded. *)
Definition BreakerInv (b : gobreaker.CircuitBreaker) : Prop :=
  configured b /\
  follows gobreaker.StateClosed (gobreaker.notified b)
    = Some (gobreaker.state b) /\
  forallb allowed (gobreaker.notified b) = true /\
  (gobreaker.state b = gobreaker.StateOpen ->
   gobreaker.counts b = gobreaker.zeroCounts) /\
  (gobreaker.state b = gobreaker.StateHalfOpen ->
   gobreaker.counts b = gobreaker.zeroCounts \/
   gobreaker.counts b = gobreaker.mkCounts 1 1 0 1 0).

(** ** The unprotected service: [crash!/api-service/main.go] *)

(** The same gateway without the breaker. [callPaymentService],
    [getFlakyServiceURL] and [calculatePercentile] have the same text as in
    the protected service and are not repeated; [CheckoutRequest] and the
    replies are shared too (this service never sends [FastFail]). The
    constant fields of the [/metrics] body ([system_status], [version],
    [warning]) are left out. *)
Module Unprotected.

Record Metrics : Type := mkMetrics {
  TotalRequests : Z;
  SuccessfulRequests : Z;
  FailedRequests : Z;
  TotalLatency : Duration;
  LatencyHistory : Slice
}.

Definition zeroMetrics : Metrics := mkMetrics 0 0 0 0 None.

(** The store, the global [metrics] and the number of requests sent to the
    payment service. *)
Record World : Type := mkWorld {
  heap : gmap loc (list Z);
  metrics : Metrics;
  calls : Z
}.

Definition initWorld : World := mkWorld ∅ zeroMetrics 0.

Definition updateMetrics (err : option error) (latency : Duration)
  (h : gmap loc (list Z)) (m : Metrics) : gmap loc (list Z) * Metrics :=
  let total := GoInt.wrap64 (TotalRequests m + 1) in
  let lat := GoInt.wrap64 (TotalLatency m + latency) in
  let '(h', hist) := append h (LatencyHistory m) latency in
  match err with
  | Some _ =>
      (h', mkMetrics total (SuccessfulRequests m)
                     (GoInt.wrap64 (FailedRequests m + 1)) lat hist)
  | None =>
      (h', mkMetrics total (GoInt.wrap64 (SuccessfulRequests m + 1))
                     (FailedRequests m) lat hist)
  end.

(** [handleCheckout]: [duration] is [time.Since(start)]. *)
Definition handleCheckout (body : option CheckoutRequest) (get : GetResult)
  (duration : Duration) (w : World) : Reply * World :=
  match body with
  | None => (InvalidRequest, w)
  | Some req =>
      let '((resp, err), sent) := callPaymentService get (calls w) in
      let '(h', m') := updateMetrics err duration (heap w) (metrics w) in
      let w' := mkWorld h' m' sent in
      match err with
      | Some e => (PaymentFailed e duration, w')
      | None => (Confirmed (Item req) (Price req) duration, w')
      end
  end.

Record MetricsResponse : Type := mkMetricsResponse {
  r_TotalRequests : Z;
  SuccessCount : Z;
  FailureCount : Z;
  SuccessRate : Float64.float64;
  ErrorRate : Float64.float64;
  AvgLatency : Duration;
  MedianLatency : Duration;
  P95Latency : Duration;
  P99Latency : Duration
}.

Definition handleMetrics (w : World) : MetricsResponse * World :=
  let m := metrics w in
  let '(avgLatency, successRate, errorRate) :=
    if 0 <? TotalRequests m then
      let successRate :=
        Float64.mul
          (Float64.div (Float64.of_int (SuccessfulRequests m))
                       (Float64.of_int (TotalRequests m)))
          Float64.lit_100 in
      (GoInt.div64 (TotalLatency m) (TotalRequests m),
       successRate,
       Float64.sub Float64.lit_100 successRate)
    else (0, Float64.lit_0, Float64.lit_0) in
  let '(p50, h1) := calculatePercentile (heap w) (LatencyHistory m) Float64.lit_0_50 in
  let '(p95, h2) := calculatePercentile h1 (LatencyHistory m) Float64.lit_0_95 in
  let '(p99, h3) := calculatePercentile h2 (LatencyHistory m) Float64.lit_0_99 in
  (mkMetricsResponse (TotalRequests m) (SuccessfulRequests m) (FailedRequests m)
     successRate errorRate avgLatency p50 p95 p99,
   mkWorld h3 m (calls w)).

(** The server handling checkouts one after the other. *)
Fixpoint serve (l : list (option CheckoutRequest * GetResult * Duration))
  (w : World) : list Reply * World :=
  match l with
  | [] => ([], w)
  | (body, get, d) :: l' =>
      let '(r, w1) := handleCheckout body get d w in
      let '(rs, w2) := serve l' w1 in
      (r :: rs, w2)
  end.

End Unprotected.

(** What the unprotected service keeps of the protected service's state:
    everything but the count of rejections and the breaker. *)
Definition without_rejects (m : Metrics) : Unprotected.Metrics :=
  Unprotected.mkMetrics (TotalRequests m) (SuccessfulRequests m)
    (FailedRequests m) (TotalLatency m) (LatencyHistory m).

Definition without_breaker (w : World) : Unprotected.World :=
  Unprotected.mkWorld (heap w) (without_rejects (metrics w)) (calls w).

(** The fields the two [/metrics] bodies share. *)
Definition shared_fields (r : MetricsResponse)
  : Z * Z * Z * Float64.float64 * Float64.float64 *
    Duration * Duration * Duration * Duration :=
  (r_TotalRequests r, SuccessCount r, FailureCount r, SuccessRate r,
   ErrorRate r, AvgLatency r, MedianLatency r, P95Latency r, P99Latency r).

Definition unprotected_fields (r : Unprotected.MetricsResponse)
  : Z * Z * Z * Float64.float64 * Float64.float64 *
    Duration * Duration * Duration * Duration :=
  (Unprotected.r_TotalRequests r, Unprotected.SuccessCount r,
   Unprotected.FailureCount r, Unprotected.SuccessRate r,
   Unprotected.ErrorRate r, Unprotected.AvgLatency r,
   Unprotected.MedianLatency r, Unprotected.P95Latency r,
   Unprotected.P99Latency r).

(** ** The payment service: [crash!/flaky-service/main.go] *)

Module Flaky.

(** Go's [float32] is IEEE 754 binary32: [spec_float] at precision 24 and
    maximal exponent 128. [x < y] is false as soon as one side is NaN. *)
Definition float32 : Type := spec_float.

Definition ltb (x y : float32) : bool := SFltb x y.

(** The constants [0.3] and [0.5] as [float32]: [0.5] is exact, [0.3] is
    [10066330 / 2^25], the nearest binary32, just above three tenths. *)
Definition lit_0_3 : float32 := S754_finite false 10066330 (-25).
Definition lit_0_5 : float32 := S754_finite false 8388608 (-24).

Definition StatusInternalServerError : Z := 500.

(** What the handler does with a request: how long it sleeps before it
    answers, the status code and the body. *)
Record Served : Type := mkServed {
  slept : Duration;
  StatusCode : Z;
  Body : string
}.

(** The rational number a finite [float32] stands for. *)
Definition value (x : float32) : Q :=
  match x with
  | S754_finite s m e =>
      let a := if s then Zneg m else Zpos m in
      if 0 <=? e then inject_Z (a * 2 ^ e) else a # Z.to_pos (2 ^ (- e))
  | _ => 0%Q
  end.

(** What [rand.Float32()] returns: a [float32] that is a number, not
    negative. *)
Definition random (x : float32) : Prop :=
  valid_binary 24 128 x = true /\
  match x with
  | S754_zero _ => True
  | S754_finite s _ _ => s = false
  | _ => False
  end.

(** The handler of [/process]; [randomValue] is what [rand.Float32()]
    returned. *)
Definition process (randomValue : float32) : Served :=
  if ltb randomValue lit_0_3
  then mkServed (5 * Second) StatusInternalServerError "Service overloaded!"
  else if ltb randomValue lit_0_5
  then mkServed 0 StatusInternalServerError "Payment processor error!"
  else mkServed 0 StatusOK "Payment successful!".

End Flaky.

(** *** The gateway calling the payment service *)

(** The [Timeout] of the client [callPaymentService] builds. *)
Definition clientTimeout : Duration := 3 * Second.

(** [resp.Status] for the two codes the payment service sends. *)
Definition statusLine (code : Z) : string :=
  if code =? 200 then "200 OK" else "500 Internal Server Error".

(** [client.Get] against the handler of [/process]: [network] is the time
    the request and the response headers spend on the way, the handler's
    sleep comes on top, and the client gives up with a transport error once
    its timeout is exceeded. *)
Definition client_Get (network : Duration) (r : Flaky.Served) : GetResult :=
  if clientTimeout <? network + Flaky.slept r
  then GetError "context deadline exceeded (Client.Timeout exceeded while awaiting headers)"
  else GetResponse (Flaky.StatusCode r) (statusLine (Flaky.StatusCode r)).

(** *** Percentiles, further *)

(** The index [calculatePercentile] reads in the sorted copy of [n]
    latencies. *)
Definition percentile_index (n : Z) (percentile : Float64.float64) : Z :=
  let index0 := Float64.to_int (Float64.mul (Float64.of_int n) percentile) in
  if n <=? index0 then n - 1 else index0.

(** How many of the latencies are at most, or at least, [v]. *)
Definition count_le (v : Z) (l : list Z) : Z :=
  Z.of_nat (length (filter (fun x => x <= v) l)).

Definition count_ge (v : Z) (l : list Z) : Z :=
  Z.of_nat (length (filter (fun x => v <= x) l)).

(** *** Rates, further *)

(** A number made like the success rate is at most [100]: a smaller
    exponent, or the same one and a mantissa that is not larger. *)
Definition at_most_100 (lo : Z) (x : spec_float) : Prop :=
  match x with
  | S754_zero false => True
  | S754_finite false m e =>
      2 ^ 52 <= Zpos m < 2 ^ 53 /\ lo <= e /\
      (e < -46 \/ e = -46 /\ Zpos m <= 25 * 2 ^ 48)
  | _ => False
  end.

(** *** Further example runs *)

(** Seven requests to the protected gateway: a health check, a confirmed
    checkout, a malformed one, a snapshot, a failed checkout, a look at the
    breaker and the static page. *)
Definition example_requests : list Request :=
  [ReqHealth;
   ReqCheckout (Some a_request) healthy (clock_at (1 * Second));
   ReqCheckout None healthy (clock_at (2 * Second));
   ReqMetrics (3 * Second);
   ReqCheckout (Some a_request) failing (clock_at (4 * Second));
   ReqCircuitState (5 * Second);
   ReqIndex].

(** Three checkouts to the unprotected gateway: confirmed, malformed,
    failed. *)
Definition example_checkouts
  : list (option CheckoutRequest * GetResult * Duration) :=
  [(Some a_request, healthy, 5 * Millisecond);
   (None, healthy, 0);
   (Some a_request, failing, 7 * Millisecond)].

(** The server started at 0 and two checkouts failed, one second apart: one
    more failure trips the breaker. *)
Definition two_failures_world : World :=
  (handleCheckout (Some a_request) failing (clock_at (2 * Second))
     (handleCheckout (Some a_request) failing (clock_at (1 * Second))
        (initWorld 0)).2).2.

(** When the breaker of [tripped_world] stops rejecting: ten seconds after
    the third failure came back. *)
Definition tripped_until : Time := 3 * Second + Millisecond + 10 * Second.

(** A request that asks for admission just before [tripped_until] and whose
    handler reads the state of the breaker a second later. *)
Definition edge_clock : Clock :=
  mkClock (13 * Second) (13 * Second + Millisecond) (5 * Millisecond)
          (14 * Second).

(** The five latencies of [example_store] with the first two swapped, in
    another array. *)
Definition swapped_store : gmap loc (list Z) :=
  {[ 2%positive := map (Z.mul Millisecond) [10; 50; 40; 20; 30] ]}.

(** A quarter, as [float32]. *)
Definition a_quarter : Flaky.float32 := S754_finite false 8388608 (-25).


(** * Facts *)

(** ** Binary64 arithmetic on integers *)

Lemma digits2_pos_bounds (p : positive) :
  2 ^ (Zpos (digits2_pos p) - 1) <= Zpos p < 2 ^ Zpos (digits2_pos p).
Proof.
  induction p as [p IH | p IH |]; cbn [digits2_pos].
  - rewrite Pos2Z.inj_succ.
    replace (Z.succ (Zpos (digits2_pos p)) - 1) with (Z.succ (Zpos (digits2_pos p) - 1)) by lia.
    rewrite !Z.pow_succ_r by lia. lia.
  - rewrite Pos2Z.inj_succ.
    replace (Z.succ (Zpos (digits2_pos p)) - 1) with (Z.succ (Zpos (digits2_pos p) - 1)) by lia.
    rewrite !Z.pow_succ_r by lia. lia.
  - cbn. lia.
Qed.

(** A number lies between two consecutive powers of two in one way. *)
Lemma pow2_interval_unique (m a b : Z) :
  0 <= a -> 0 <= b ->
  2 ^ a <= m < 2 ^ (a + 1) -> 2 ^ b <= m < 2 ^ (b + 1) -> a = b.
Proof.
  intros Ha Hb [H1 H2] [H3 H4].
  destruct (Z.lt_trichotomy a b) as [Hlt | [Heq | Hgt]]; [exfalso | exact Heq | exfalso].
  - assert (2 ^ (a + 1) <= 2 ^ b) by (apply Z.pow_le_mono_r; lia). lia.
  - assert (2 ^ (b + 1) <= 2 ^ a) by (apply Z.pow_le_mono_r; lia). lia.
Qed.

(** The digit count, from bounds. *)
Lemma Zdigits2_unique (m d : Z) :
  0 < d -> 2 ^ (d - 1) <= m < 2 ^ d -> Zdigits2 m = d.
Proof.
  intros Hd Hm.
  assert (0 < m) by (pose proof (Z.pow_pos_nonneg 2 (d - 1)); lia).
  destruct m as [| p | p]; try lia.
  cbn [Zdigits2].
  pose proof (digits2_pos_bounds p) as Hp.
  assert (Zpos (digits2_pos p) - 1 = d - 1); [| lia].
  apply (pow2_interval_unique (Zpos p)); try lia.
  - replace (Zpos (digits2_pos p) - 1 + 1) with (Zpos (digits2_pos p)) by lia. exact Hp.
  - replace (d - 1 + 1) with d by lia. exact Hm.
Qed.

(** [iter_pos] iterates [Pos.to_nat p] times. *)
Lemma iter_pos_nat {A : Type} (f : A -> A) (p : positive) (x : A) :
  SpecFloat.iter_pos f p x = Nat.iter (Pos.to_nat p) f x.
Proof.
  revert x. induction p as [p IH | p IH |]; intros x; cbn [SpecFloat.iter_pos].
  - rewrite !IH. rewrite Pos2Nat.inj_xI.
    replace (S (2 * Pos.to_nat p))%nat with (Pos.to_nat p + (Pos.to_nat p + 1))%nat by lia.
    rewrite !Nat.iter_add. reflexivity.
  - rewrite !IH. rewrite Pos2Nat.inj_xO.
    replace (2 * Pos.to_nat p)%nat with (Pos.to_nat p + Pos.to_nat p)%nat by lia.
    rewrite Nat.iter_add. reflexivity.
  - reflexivity.
Qed.

(** One right shift of a non-negative mantissa. *)
Lemma shr_1_nonneg (m : Z) (r s : bool) :
  0 <= m ->
  shr_1 (Build_shr_record m r s) = Build_shr_record (m / 2) (Z.odd m) (r || s).
Proof.
  intros Hm. destruct m as [| p | p]; try lia.
  - reflexivity.
  - destruct p as [p | p |]; cbn [shr_1].
    + f_equal. rewrite Pos2Z.inj_xI. Z.div_mod_to_equations; lia.
    + f_equal. rewrite Pos2Z.inj_xO. Z.div_mod_to_equations; lia.
    + reflexivity.
Qed.

(** [lia], the quotients and remainders replaced by their equations. *)
Ltac zdiv := Z.div_mod_to_equations; lia.

(** The remainder modulo [2^(k+1)]: bit [k], then the remainder modulo
    [2^k]. *)
Lemma mod_pow2_succ (m : Z) (k : Z) :
  0 <= k ->
  m mod 2 ^ (k + 1) = 2 ^ k * ((m / 2 ^ k) mod 2) + m mod 2 ^ k.
Proof.
  intros Hk. rewrite Z.pow_add_r by lia. rewrite Z.pow_1_r.
  assert (0 < 2 ^ k) by (apply Z.pow_pos_nonneg; lia).
  rewrite Z.rem_mul_r by lia. lia.
Qed.

(** [k + 1] right shifts of an exact mantissa leave the quotient, the last
    bit shifted out (round bit) and whether anything else was (sticky
    bit). *)
Lemma shr_iter (k : nat) (m : Z) :
  0 <= m ->
  Nat.iter (S k) shr_1 (Build_shr_record m false false) =
  Build_shr_record (m / 2 ^ (Z.of_nat k + 1)) (Z.odd (m / 2 ^ Z.of_nat k))
                   (negb (m mod 2 ^ Z.of_nat k =? 0)).
Proof.
  intros Hm. induction k as [| k IH].
  - cbn [Nat.iter]. rewrite shr_1_nonneg by lia. cbn [Z.of_nat].
    rewrite Z.pow_0_r, Z.div_1_r, Z.mod_1_r. reflexivity.
  - change (Nat.iter (S (S k)) shr_1 ?x) with (shr_1 (Nat.iter (S k) shr_1 x)).
    rewrite IH. clear IH.
    assert (0 < 2 ^ Z.of_nat k) by (apply Z.pow_pos_nonneg; lia).
    assert (0 < 2 ^ (Z.of_nat k + 1)) by (apply Z.pow_pos_nonneg; lia).
    rewrite shr_1_nonneg by (apply Z.div_pos; lia).
    replace (Z.of_nat (S k)) with (Z.of_nat k + 1) by lia.
    f_equal.
    + rewrite Z.div_div by lia.
      rewrite (Z.pow_add_r 2 (Z.of_nat k + 1) 1) by lia. reflexivity.
    + rewrite (mod_pow2_succ m (Z.of_nat k)) by lia.
      rewrite Zmod_odd.
      pose proof (Z.mod_pos_bound m (2 ^ Z.of_nat k) ltac:(lia)) as Hb.
      destruct (Z.odd (m / 2 ^ Z.of_nat k)); cbn [orb].
      * symmetry. apply negb_true_iff. apply Z.eqb_neq. lia.
      * rewrite Z.mul_0_r, Z.add_0_l. reflexivity.
Qed.

(** After [k + 1] shifts of an exact mantissa, rounding to nearest even is
    [rne]. *)
Lemma round_shr_iter (k : nat) (m : Z) :
  0 <= m ->
  let mrs := Nat.iter (S k) shr_1 (Build_shr_record m false false) in
  round_nearest_even (shr_m mrs) (loc_of_shr_record mrs) = rne m (Z.of_nat k + 1).
Proof.
  intros Hm mrs. subst mrs. rewrite shr_iter by exact Hm.
  cbn [shr_m loc_of_shr_record]. unfold rne.
  assert (0 < 2 ^ Z.of_nat k) by (apply Z.pow_pos_nonneg; lia).
  rewrite (mod_pow2_succ m (Z.of_nat k)) by lia.
  rewrite (Z.pow_add_r 2 (Z.of_nat k) 1) by lia. rewrite Z.pow_1_r.
  rewrite Zmod_odd.
  pose proof (Z.mod_pos_bound m (2 ^ Z.of_nat k) ltac:(lia)) as Hb.
  destruct (Z.odd (m / 2 ^ Z.of_nat k)) eqn:Hodd;
    destruct (m mod 2 ^ Z.of_nat k =? 0) eqn:Hz; cbn [negb round_nearest_even];
    [apply Z.eqb_eq in Hz | apply Z.eqb_neq in Hz | apply Z.eqb_eq in Hz | apply Z.eqb_neq in Hz].
  - replace (2 * (2 ^ Z.of_nat k * 1 + m mod 2 ^ Z.of_nat k) ?= 2 ^ Z.of_nat k * 2) with Eq
      by (symmetry; apply Z.compare_eq_iff; lia).
    reflexivity.
  - replace (2 * (2 ^ Z.of_nat k * 1 + m mod 2 ^ Z.of_nat k) ?= 2 ^ Z.of_nat k * 2) with Gt
      by (symmetry; apply Z.compare_gt_iff; lia).
    reflexivity.
  - replace (2 * (2 ^ Z.of_nat k * 0 + m mod 2 ^ Z.of_nat k) ?= 2 ^ Z.of_nat k * 2) with Lt
      by (symmetry; apply Z.compare_lt_iff; lia).
    reflexivity.
  - replace (2 * (2 ^ Z.of_nat k * 0 + m mod 2 ^ Z.of_nat k) ?= 2 ^ Z.of_nat k * 2) with Lt
      by (symmetry; apply Z.compare_lt_iff; lia).
    reflexivity.
Qed.

(** Rounding moves the quotient up by one at most. *)
Lemma rne_bounds (m k : Z) :
  0 <= k -> m / 2 ^ k <= rne m k <= m / 2 ^ k + 1.
Proof.
  intros Hk. unfold rne.
  destruct (2 * (m mod 2 ^ k) ?= 2 ^ k); [destruct (Z.even _) | |]; lia.
Qed.

(** Above the subnormal range a number of magnitude [2^x] keeps 53
    digits. *)
Lemma fexp_normal (x : Z) : -1021 <= x -> fexp 53 1024 x = x - 53.
Proof. intros Hx. unfold fexp, emin. lia. Qed.

(** The second rounding stage of [binary_round_aux], on a mantissa of 53
    digits or on [2^53]. *)
Lemma second_stage (sx : bool) (m1 e1 : Z) :
  2 ^ 52 <= m1 <= 2 ^ 53 -> -1074 <= e1 -> e1 + 1 <= 971 ->
  (let '(mrs'', e'') := shr_fexp 53 1024 m1 e1 loc_Exact in
   match shr_m mrs'' with
   | Z0 => S754_zero sx
   | Zpos m => if e'' <=? 1024 - 53 then S754_finite sx m e'' else S754_infinity sx
   | Zneg _ => S754_nan
   end) = renorm sx m1 e1.
Proof.
  intros Hm He1 He2. unfold renorm, shr_fexp.
  destruct (Z.eqb_spec m1 (2 ^ 53)) as [-> | Hne].
  - rewrite (Zdigits2_unique (2 ^ 53) 54) by (cbn; lia).
    rewrite fexp_normal by lia.
    replace (54 + e1 - 53 - e1) with 1 by lia.
    cbn [shr shr_record_of_loc SpecFloat.iter_pos].
    rewrite shr_1_nonneg by (cbn; lia).
    cbn [shr_m]. change (2 ^ 53 / 2) with (Zpos (Z.to_pos (2 ^ 52))).
    cbv iota beta.
    replace (e1 + 1 <=? 1024 - 53) with true by (symmetry; apply Z.leb_le; lia).
    reflexivity.
  - rewrite (Zdigits2_unique m1 53) by (cbn in *; lia).
    rewrite fexp_normal by lia.
    replace (53 + e1 - 53 - e1) with 0 by lia.
    cbn [shr shr_record_of_loc shr_m].
    destruct m1 as [| p | p]; try (cbn in Hm; lia).
    replace (e1 <=? 1024 - 53) with true by (symmetry; apply Z.leb_le; lia).
    reflexivity.
Qed.

(** Nothing to round when no digit is dropped. *)
Lemma rne_0 (m : Z) : rne m 0 = m.
Proof. unfold rne. rewrite Z.pow_0_r, Z.mod_1_r, Z.div_1_r. reflexivity. Qed.

(** Dropping [k] of the [d] digits of [m]. *)
Lemma div_pow2_range (m d k : Z) :
  0 <= k -> k < d -> 2 ^ (d - 1) <= m < 2 ^ d ->
  2 ^ (d - 1 - k) <= m / 2 ^ k < 2 ^ (d - k).
Proof.
  intros Hk Hd [Hlo Hhi].
  assert (0 < 2 ^ k) by (apply Z.pow_pos_nonneg; lia).
  split.
  - apply Z.div_le_lower_bound; [lia |].
    rewrite <- Z.pow_add_r by lia. replace (k + (d - 1 - k)) with (d - 1) by lia. exact Hlo.
  - apply Z.div_lt_upper_bound; [lia |].
    rewrite <- Z.pow_add_r by lia. replace (k + (d - k)) with d by lia. exact Hhi.
Qed.

(** The digit count of a positive number, as bounds. *)
Lemma Zdigits2_bounds (m : Z) :
  0 < m -> 0 < Zdigits2 m /\ 2 ^ (Zdigits2 m - 1) <= m < 2 ^ Zdigits2 m.
Proof.
  intros Hm. destruct m as [| p | p]; try lia.
  cbn [Zdigits2]. split; [lia | apply digits2_pos_bounds].
Qed.

(** Rounding an exact positive mantissa of at least 53 digits, in the normal
    range. *)
Lemma binary_round_aux_exact (sx : bool) (m e : Z) :
  0 < m -> 53 <= Zdigits2 m ->
  -1074 <= e + (Zdigits2 m - 53) -> e + (Zdigits2 m - 53) + 1 <= 971 ->
  binary_round_aux 53 1024 sx m e loc_Exact =
  renorm sx (rne m (Zdigits2 m - 53)) (e + (Zdigits2 m - 53)).
Proof.
  intros Hm Hd Hlo Hhi.
  destruct (Zdigits2_bounds m Hm) as [_ Hb].
  set (d := Zdigits2 m) in *.
  unfold binary_round_aux.
  destruct (Z.eq_dec d 53) as [Hd53 | Hd53].
  - unfold shr_fexp at 1. fold d. rewrite fexp_normal by lia.
    replace (d + e - 53 - e) with 0 by lia.
    cbn [shr shr_record_of_loc shr_m loc_of_shr_record round_nearest_even].
    replace (d - 53) with 0 by lia. rewrite rne_0, Z.add_0_r.
    apply second_stage; [rewrite Hd53 in Hb; cbn in Hb |-*; lia | lia | lia].
  - unfold shr_fexp at 1. fold d. rewrite fexp_normal by lia.
    replace (d + e - 53 - e) with (d - 53) by lia.
    destruct (d - 53) as [| p | p] eqn:Hk; try lia.
    cbn [shr shr_record_of_loc]. rewrite iter_pos_nat.
    destruct (Pos.to_nat p) as [| n] eqn:Hn; [lia |].
    rewrite (round_shr_iter n m) by lia.
    replace (Z.of_nat n + 1) with (Z.pos p) by lia.
    apply second_stage; [| lia | lia].
    pose proof (rne_bounds m (Z.pos p) ltac:(lia)) as Hr.
    pose proof (div_pow2_range m d (Z.pos p) ltac:(lia) ltac:(lia) Hb) as Hq.
    replace (d - 1 - Z.pos p) with 52 in Hq by lia.
    replace (d - Z.pos p) with 53 in Hq by lia. lia.
Qed.

(** Shifting a mantissa left. *)
Lemma iter_xO (p k : positive) : Zpos (Pos.iter xO p k) = Zpos p * 2 ^ Zpos k.
Proof.
  induction k as [| k IH] using Pos.peano_ind.
  - cbn [Pos.iter]. rewrite Z.pow_1_r. lia.
  - rewrite Pos.iter_succ, Pos2Z.inj_xO, IH, Pos2Z.inj_succ, Z.pow_succ_r by lia. lia.
Qed.

(** The normalised mantissa has 53 digits. *)
Lemma norm_m_range (n : Z) :
  0 < n -> Zdigits2 n <= 53 -> 2 ^ 52 <= norm_m n < 2 ^ 53.
Proof.
  intros Hn Hd. destruct (Zdigits2_bounds n Hn) as [Hd0 [Hlo Hhi]].
  unfold norm_m. set (d := Zdigits2 n) in *.
  assert (0 < 2 ^ (53 - d)) by (apply Z.pow_pos_nonneg; lia).
  split.
  - replace 52 with ((d - 1) + (53 - d)) by lia. rewrite Z.pow_add_r by lia.
    apply Z.mul_le_mono_nonneg_r; lia.
  - replace 53 with (d + (53 - d)) at 2 by lia. rewrite Z.pow_add_r by lia.
    apply Z.mul_lt_mono_pos_r; lia.
Qed.

(** [float64(n)] is exact for a positive [n] of at most 53 digits: the
    normalised mantissa, with the exponent that restores [n]. *)
Lemma of_int_pos (n : Z) :
  0 < n -> Zdigits2 n <= 53 ->
  Float64.of_int n = S754_finite false (Z.to_pos (norm_m n)) (Zdigits2 n - 53).
Proof.
  intros Hn Hd.
  pose proof (norm_m_range n Hn Hd) as Hr.
  destruct (Zdigits2_bounds n Hn) as [Hd0 _].
  unfold Float64.of_int, binary_normalize, norm_m in *.
  destruct n as [| p | p]; try lia.
  cbn [Zdigits2] in *. unfold binary_round.
  rewrite Z.add_0_r, fexp_normal by lia.
  unfold shl_align, Float64.prec. rewrite Z.sub_0_r.
  destruct (Z.pos (digits2_pos p) - 53) as [| k | k] eqn:Hk; try lia.
  - replace (53 - Z.pos (digits2_pos p)) with 0 in * by lia.
    rewrite Z.pow_0_r, Z.mul_1_r in *.
    rewrite binary_round_aux_exact; cbn [Zdigits2]; try lia.
    rewrite Hk, rne_0, Z.add_0_r. unfold renorm.
    replace (Z.pos p =? 2 ^ 53) with false by (symmetry; apply Z.eqb_neq; lia).
    reflexivity.
  - replace (53 - Z.pos (digits2_pos p)) with (Z.pos k) in * by lia.
    rewrite <- iter_xO in *.
    assert (Hdig : Zdigits2 (Z.pos (Pos.iter xO p k)) = 53)
      by (apply Zdigits2_unique; [lia | cbn in Hr |- *; lia]).
    rewrite binary_round_aux_exact; rewrite ?Hdig; try lia.
    rewrite Z.sub_diag, rne_0, Z.add_0_r. unfold renorm.
    replace (Z.pos (Pos.iter xO p k) =? 2 ^ 53) with false by (symmetry; apply Z.eqb_neq; lia).
    reflexivity.
Qed.

Lemma of_int_0 : Float64.of_int 0 = S754_zero false.
Proof. reflexivity. Qed.

(** The product of two positive normalised binary64 numbers. *)
Lemma mul_finite (mx my : positive) (ex ey : Z) :
  2 ^ 52 <= Zpos mx < 2 ^ 53 -> 2 ^ 52 <= Zpos my < 2 ^ 53 ->
  -900 <= ex + ey <= 800 ->
  let M := Zpos mx * Zpos my in
  let k := Zdigits2 M - 53 in
  Float64.mul (S754_finite false mx ex) (S754_finite false my ey) =
  renorm false (rne M k) (ex + ey + k).
Proof.
  intros Hx Hy He M k. unfold Float64.mul, SFmul. cbn [xorb].
  change (Z.pos (mx * my)) with M.
  assert (HM : 2 ^ 104 <= M < 2 ^ 106).
  { subst M. split.
    - change (2 ^ 104) with (2 ^ 52 * 2 ^ 52). apply Z.mul_le_mono_nonneg; lia.
    - change (2 ^ 106) with (2 ^ 53 * 2 ^ 53). apply Z.mul_lt_mono_nonneg; lia. }
  assert (Hd : Zdigits2 M = 105 \/ Zdigits2 M = 106).
  { destruct (Z.lt_ge_cases M (2 ^ 105)).
    - left. apply Zdigits2_unique; [lia | cbn in *; lia].
    - right. apply Zdigits2_unique; [lia | cbn in *; lia]. }
  unfold Float64.prec, Float64.emax.
  rewrite binary_round_aux_exact by (cbn in HM; lia).
  reflexivity.
Qed.

(** The range test of [to_int] passes on an [int64]. *)
Lemma clamp_in_range (v : Z) :
  GoInt.minInt64 <= v <= GoInt.maxInt64 ->
  (if (GoInt.minInt64 <=? v) && (v <=? GoInt.maxInt64) then v else GoInt.minInt64) = v.
Proof.
  intros [H1 H2]. apply Z.leb_le in H1, H2. rewrite H1, H2. reflexivity.
Qed.

(** Truncation of a positive normalised number below [2^53]. *)
Lemma to_int_renorm (m1 e1 : Z) :
  0 < m1 <= 2 ^ 53 -> e1 <= -2 ->
  Float64.to_int (renorm false m1 e1) = m1 / 2 ^ (- e1).
Proof.
  intros Hm He. unfold renorm.
  assert (Hp : 0 < 2 ^ (- e1)) by (apply Z.pow_pos_nonneg; lia).
  assert (Hq : 0 <= m1 / 2 ^ (- e1) <= m1).
  { split; [apply Z.div_pos; lia |].
    apply Z.div_le_upper_bound; [lia |]. nia. }
  destruct (Z.eqb_spec m1 (2 ^ 53)) as [-> | Hne]; unfold Float64.to_int.
  - destruct (e1 + 1) as [| p | p] eqn:Hp1; try lia.
    change (Z.pos (Z.to_pos (2 ^ 52))) with (2 ^ 52).
    assert (Heq : 2 ^ 52 / 2 ^ Z.pos p = 2 ^ 53 / 2 ^ (- e1)).
    { replace (- e1) with (Z.pos p + 1) by lia. rewrite Z.pow_add_r by lia.
      rewrite Z.pow_1_r. change (2 ^ 53) with (2 ^ 52 * 2).
      rewrite Z.div_mul_cancel_r; [reflexivity | | lia].
      pose proof (Z.pow_pos_nonneg 2 (Z.pos p)); lia. }
    rewrite Heq. apply clamp_in_range.
    unfold GoInt.minInt64, GoInt.maxInt64. cbn in *; lia.
  - destruct e1 as [| p | p] eqn:He1; try lia.
    rewrite Z2Pos.id by lia. change (- Z.neg p) with (Z.pos p) in *.
    apply clamp_in_range.
    unfold GoInt.minInt64, GoInt.maxInt64. cbn in *; lia.
Qed.

(** [int(float64(n) * x)] for [x = md / 2^53], in integers. *)
Lemma to_int_mul (n : Z) (md : positive) :
  0 < n -> Zdigits2 n <= 51 -> 2 ^ 52 <= Zpos md < 2 ^ 53 ->
  Float64.to_int (Float64.mul (Float64.of_int n) (S754_finite false md (-53))) =
  mul_index n (Zpos md).
Proof.
  intros Hn Hd Hmd.
  pose proof (norm_m_range n Hn ltac:(lia)) as Hr.
  destruct (Zdigits2_bounds n Hn) as [Hd0 _].
  rewrite of_int_pos by lia.
  rewrite mul_finite; rewrite ?Z2Pos.id; try lia.
  set (M := norm_m n * Z.pos md).
  assert (HM : 2 ^ 104 <= M < 2 ^ 106).
  { subst M. split.
    - change (2 ^ 104) with (2 ^ 52 * 2 ^ 52). apply Z.mul_le_mono_nonneg; lia.
    - change (2 ^ 106) with (2 ^ 53 * 2 ^ 53). apply Z.mul_lt_mono_nonneg; lia. }
  assert (HdM : Zdigits2 M = 105 \/ Zdigits2 M = 106).
  { destruct (Z.lt_ge_cases M (2 ^ 105)).
    - left. apply Zdigits2_unique; [lia | cbn in *; lia].
    - right. apply Zdigits2_unique; [lia | cbn in *; lia]. }
  set (k := Zdigits2 M - 53) in *.
  pose proof (rne_bounds M k ltac:(lia)) as Hb.
  pose proof (Zdigits2_bounds M ltac:(cbn in HM; lia)) as [_ HbM].
  pose proof (div_pow2_range M (Zdigits2 M) k ltac:(lia) ltac:(lia) HbM) as Hq.
  replace (Zdigits2 M - 1 - k) with 52 in Hq by lia.
  replace (Zdigits2 M - k) with 53 in Hq by lia.
  rewrite to_int_renorm by (cbn in Hq |- *; lia).
  unfold mul_index. fold M. fold k. f_equal. f_equal. lia.
Qed.

Ltac is_pos_const p :=
  lazymatch p with
  | xH => idtac
  | xO ?q => is_pos_const q
  | xI ?q => is_pos_const q
  end.

Ltac is_Z_const z :=
  lazymatch z with
  | Z0 => idtac
  | Zpos ?p => is_pos_const p
  | Zneg ?p => is_pos_const p
  end.

(** Replaces the powers of two with a closed exponent by their value. *)
Ltac eval_pow :=
  repeat match goal with
  | |- context [2 ^ ?e] =>
      let v := eval vm_compute in (2 ^ e) in
      is_Z_const v; progress change (2 ^ e) with v
  | H : context [2 ^ ?e] |- _ =>
      let v := eval vm_compute in (2 ^ e) in
      is_Z_const v; progress change (2 ^ e) with v in H
  end.

(** A number below [2^b] has at most [b] digits. *)
Lemma Zdigits2_le (n b : Z) : 0 < n -> 0 <= b -> n < 2 ^ b -> Zdigits2 n <= b.
Proof.
  intros Hn Hb Hlt. destruct (Zdigits2_bounds n Hn) as [Hd [Hlo _]].
  destruct (Z.le_gt_cases (Zdigits2 n) b) as [Hle | Hgt]; [exact Hle | exfalso].
  assert (2 ^ b <= 2 ^ (Zdigits2 n - 1)) by (apply Z.pow_le_mono_r; lia). lia.
Qed.

(** One digit count at a time, the index is linear arithmetic over
    constants. *)
Ltac index_case n :=
  match goal with
  | Hk : ?k = Z.to_nat (Zdigits2 n), Hb : _ <= n < _ |- _ =>
      let d := eval vm_compute in (Z.of_nat k) in
      assert (Hd : Zdigits2 n = d) by lia;
      clear Hk; rewrite Hd in Hb |- *; clear Hd;
      eval_pow;
      match goal with
      | |- context [Zdigits2 ?M] =>
          destruct (Z.lt_ge_cases M (2 ^ 105)) as [HM | HM];
          [ rewrite (Zdigits2_unique M 105) by (cbn in HM |- *; lia)
          | rewrite (Zdigits2_unique M 106) by (cbn in HM |- *; lia) ]
      end;
      unfold rne; eval_pow;
      match goal with
      | |- context [?a ?= ?b] =>
          destruct (Z.compare_spec a b); [destruct (Z.even _) | |]
      end; zdiv
  end.

Ltac index_cases n :=
  intros Hn;
  pose proof (Zdigits2_le n 45 ltac:(lia) ltac:(lia) ltac:(lia)) as Hle;
  destruct (Zdigits2_bounds n ltac:(lia)) as [Hd0 Hb];
  unfold mul_index, norm_m;
  remember (Z.to_nat (Zdigits2 n)) as k eqn:Hk;
  destruct k as [| k]; [lia |];
  do 45 (destruct k as [| k]; [index_case n |]);
  lia.

(** For each of the three literals the index computed in binary64 is the
    exact floor, on every length below [2^45]. *)
Lemma mul_index_0_50 (n : Z) :
  0 < n < 2 ^ 45 -> mul_index n 4503599627370496 = n * 50 / 100.
Proof. index_cases n. Qed.

Lemma mul_index_0_95 (n : Z) :
  0 < n < 2 ^ 45 -> mul_index n 8556839292003942 = n * 95 / 100.
Proof. index_cases n. Qed.

Lemma mul_index_0_99 (n : Z) :
  0 < n < 2 ^ 45 -> mul_index n 8917127262193582 = n * 99 / 100.
Proof. index_cases n. Qed.

(** Rounding to nearest picks the mantissa or its successor. *)
Lemma round_nearest_even_bounds (m : Z) (l : location) :
  m <= round_nearest_even m l <= m + 1.
Proof.
  destruct l as [| []]; cbn [round_nearest_even]; try lia.
  destruct (Z.even m); lia.
Qed.

(** Rounding a 53-digit mantissa that rounding up cannot carry. *)
Lemma binary_round_aux_53 (m e : Z) (l : location) :
  2 ^ 52 <= m <= 2 ^ 53 - 2 -> -1074 <= e -> e + 1 <= 971 ->
  exists m' : positive,
    binary_round_aux 53 1024 false m e l = S754_finite false m' e /\
    2 ^ 52 <= Zpos m' < 2 ^ 53.
Proof.
  intros Hm Hlo Hhi.
  unfold binary_round_aux, shr_fexp at 1.
  rewrite (Zdigits2_unique m 53) by (cbn in *; lia).
  rewrite fexp_normal by lia. replace (53 + e - 53 - e) with 0 by lia.
  cbn [shr].
  assert (Hl : shr_m (shr_record_of_loc m l) = m /\
               loc_of_shr_record (shr_record_of_loc m l) = l)
    by (destruct l as [| []]; split; reflexivity).
  destruct Hl as [-> ->].
  pose proof (round_nearest_even_bounds m l) as Hb.
  rewrite second_stage by (cbn in *; lia).
  unfold renorm.
  replace (round_nearest_even m l =? 2 ^ 53) with false
    by (symmetry; apply Z.eqb_neq; cbn in *; lia).
  exists (Z.to_pos (round_nearest_even m l)). split; [reflexivity |].
  rewrite Z2Pos.id by (cbn in *; lia). cbn in *; lia.
Qed.

(** Rounding a 54-digit mantissa below [2^54 - 1]. *)
Lemma binary_round_aux_54 (m e : Z) (l : location) :
  2 ^ 53 <= m <= 2 ^ 54 - 2 -> -1075 <= e -> e + 2 <= 971 ->
  exists m' : positive,
    binary_round_aux 53 1024 false m e l = S754_finite false m' (e + 1) /\
    2 ^ 52 <= Zpos m' < 2 ^ 53.
Proof.
  intros Hm Hlo Hhi.
  unfold binary_round_aux, shr_fexp at 1.
  rewrite (Zdigits2_unique m 54) by (cbn in *; lia).
  rewrite fexp_normal by lia. replace (54 + e - 53 - e) with 1 by lia.
  cbn [shr SpecFloat.iter_pos].
  set (mrs := shr_1 (shr_record_of_loc m l)).
  assert (Hmrs : shr_m mrs = m / 2 /\
                 (Z.odd m = false ->
                  round_nearest_even (shr_m mrs) (loc_of_shr_record mrs) = m / 2)).
  { subst mrs. destruct l as [| []]; cbn [shr_record_of_loc];
      rewrite shr_1_nonneg by (cbn in *; lia); cbn [shr_m];
      (split; [reflexivity | intros ->; reflexivity]). }
  destruct Hmrs as [Hq Heven].
  pose proof (round_nearest_even_bounds (shr_m mrs) (loc_of_shr_record mrs)) as Hb.
  assert (Hr : 2 ^ 52 <= round_nearest_even (shr_m mrs) (loc_of_shr_record mrs) < 2 ^ 53).
  { destruct (Z.odd m) eqn:Hodd.
    - assert (m <> 2 ^ 54 - 2) by (intros ->; discriminate Hodd).
      clear Heven. Z.div_mod_to_equations. lia.
    - rewrite Heven by reflexivity. clear Heven Hq Hb. Z.div_mod_to_equations. lia. }
  rewrite second_stage by (cbn in *; lia).
  unfold renorm.
  replace (round_nearest_even (shr_m mrs) (loc_of_shr_record mrs) =? 2 ^ 53) with false
    by (symmetry; apply Z.eqb_neq; cbn in *; lia).
  exists (Z.to_pos (round_nearest_even (shr_m mrs) (loc_of_shr_record mrs))).
  split; [reflexivity |].
  rewrite Z2Pos.id by (cbn in *; lia). cbn in *; lia.
Qed.

(** The quotient of two positive normalised numbers: its exponent tells on
    which side of the mantissas' order the operands are. *)
Lemma div_finite (m1 m2 : positive) (e1 e2 : Z) :
  2 ^ 52 <= Zpos m1 < 2 ^ 53 -> 2 ^ 52 <= Zpos m2 < 2 ^ 53 ->
  -900 <= e1 - e2 <= 900 ->
  exists m' : positive,
    Float64.div (S754_finite false m1 e1) (S754_finite false m2 e2) =
    S754_finite false m'
      (if Zpos m2 <=? Zpos m1 then e1 - e2 - 52 else e1 - e2 - 53) /\
    2 ^ 52 <= Zpos m' < 2 ^ 53.
Proof.
  intros H1 H2 He.
  unfold Float64.div, SFdiv, SFdiv_core_binary. cbn [xorb].
  rewrite (Zdigits2_unique (Zpos m1) 53) by (cbn in *; lia).
  rewrite (Zdigits2_unique (Zpos m2) 53) by (cbn in *; lia).
  unfold Float64.prec, Float64.emax.
  rewrite fexp_normal by lia.
  replace (Z.min (53 + e1 - (53 + e2) - 53) (e1 - e2)) with (e1 - e2 - 53) by lia.
  replace (e1 - e2 - (e1 - e2 - 53)) with 53 by lia.
  cbv iota beta. rewrite Z.shiftl_mul_pow2 by lia.
  pose proof (Z.div_eucl_eq (Zpos m1 * 2 ^ 53) (Zpos m2) ltac:(lia)) as Heq.
  pose proof (Z.mod_pos_bound (Zpos m1 * 2 ^ 53) (Zpos m2) ltac:(lia)) as Hmod.
  unfold Z.modulo in Hmod.
  destruct (Z.div_eucl (Zpos m1 * 2 ^ 53) (Zpos m2)) as [q r].
  destruct (Z.leb_spec (Zpos m2) (Zpos m1)) as [Hle | Hlt].
  - destruct (binary_round_aux_54 q (e1 - e2 - 53) (new_location (Zpos m2) r))
      as [m' [Hm' Hr]]; [cbn in *; nia | lia | lia |].
    exists m'. rewrite Hm'. split; [f_equal; lia | exact Hr].
  - destruct (binary_round_aux_53 q (e1 - e2 - 53) (new_location (Zpos m2) r))
      as [m' [Hm' Hr]]; [cbn in *; nia | lia | lia |].
    exists m'. rewrite Hm'. split; [reflexivity | exact Hr].
Qed.




(** ** Sorting *)

Lemma insert_sorted_perm (x : Z) (l : list Z) :
  Permutation (insert_sorted x l) (x :: l).
Proof.
  induction l as [| y l IH]; cbn [insert_sorted].
  - reflexivity.
  - destruct (x <=? y); [reflexivity |].
    rewrite IH. apply perm_swap.
Qed.

Lemma sorted_list_perm (l : list Z) : Permutation (sorted_list l) l.
Proof.
  induction l as [| x l IH]; cbn [sorted_list].
  - reflexivity.
  - rewrite insert_sorted_perm. constructor. exact IH.
Qed.

Lemma sorted_list_length (l : list Z) : length (sorted_list l) = length l.
Proof. apply Permutation_length, sorted_list_perm. Qed.

Lemma insert_sorted_hd (x a : Z) (l : list Z) :
  a <= x -> HdRel Z.le a l -> HdRel Z.le a (insert_sorted x l).
Proof.
  intros Hax Hl. destruct l as [| y l]; cbn [insert_sorted].
  - constructor. exact Hax.
  - destruct (x <=? y); constructor; [exact Hax |].
    inversion Hl; assumption.
Qed.

Lemma insert_sorted_sorted (x : Z) (l : list Z) :
  Sorted Z.le l -> Sorted Z.le (insert_sorted x l).
Proof.
  induction 1 as [| y l Hs IH Hhd]; cbn [insert_sorted].
  - repeat constructor.
  - destruct (Z.leb_spec x y) as [Hle | Hgt].
    + constructor; [constructor; assumption | constructor; exact Hle].
    + constructor; [exact IH |]. apply insert_sorted_hd; [lia | exact Hhd].
Qed.

Lemma sorted_list_sorted (l : list Z) : Sorted Z.le (sorted_list l).
Proof.
  induction l as [| x l IH]; cbn [sorted_list].
  - constructor.
  - apply insert_sorted_sorted, IH.
Qed.

(** An ascending arrangement of integers is unique: whatever [sort.Slice]
    does to equal elements, the array it leaves is [sorted_list]. *)
Lemma sorted_unique (l l' : list Z) :
  Sorted Z.le l' -> Permutation l' l -> l' = sorted_list l.
Proof.
  intros Hs Hp.
  apply (Sorted_unique Z.le); [exact Hs | apply sorted_list_sorted |].
  rewrite Hp. symmetry. apply sorted_list_perm.
Qed.

(** ** The store *)

Lemma fresh_lookup (h : gmap loc (list Z)) : h !! fresh (dom h) = None.
Proof. apply not_elem_of_dom, is_fresh. Qed.

Lemma elems_nonempty_lookup (h : gmap loc (list Z)) (s : Slice) :
  elems h s <> [] -> exists p, s = Some p /\ h !! p = Some (elems h s).
Proof.
  destruct s as [p |]; cbn [elems]; [| congruence].
  destruct (h !! p) as [l |] eqn:Hp; cbn; [eauto | congruence].
Qed.

Lemma elems_insert_ne (h : gmap loc (list Z)) (s : Slice) (q : loc) (l : list Z) :
  h !! q = None -> elems h s <> [] -> elems (<[q := l]> h) s = elems h s.
Proof.
  intros Hq Hne. destruct (elems_nonempty_lookup h s Hne) as [p [-> Hp]].
  cbn [elems]. rewrite lookup_insert_ne by congruence. reflexivity.
Qed.

Lemma len_0_elems (h : gmap loc (list Z)) (s : Slice) :
  (len h s =? 0) = true -> elems h s = [].
Proof.
  unfold len. intros H. apply Z.eqb_eq in H.
  destruct (elems h s); [reflexivity | cbn in H; lia].
Qed.

Lemma elems_insert_eq (h : gmap loc (list Z)) (q : loc) (l : list Z) :
  elems (<[q := l]> h) (Some q) = l.
Proof. unfold elems. rewrite lookup_insert_eq. reflexivity. Qed.

Lemma len_insert_eq (h : gmap loc (list Z)) (q : loc) (l : list Z) :
  len (<[q := l]> h) (Some q) = Z.of_nat (length l).
Proof. unfold len. rewrite elems_insert_eq. reflexivity. Qed.

(** The copy made by [make] and [copy], then sorted in place. *)
Lemma sorted_copy (h : gmap loc (list Z)) (s : Slice) :
  elems h s <> [] ->
  let q := fresh (dom h) in
  sort_Slice (copy (make h (len h s)).1 (Some q) s) (Some q) =
  <[q := sorted_list (elems h s)]> h.
Proof.
  intros Hne q.
  assert (Hq : h !! q = None) by apply fresh_lookup.
  unfold make, copy, sort_Slice. cbn [fst]. fold q.
  rewrite !elems_insert_eq, elems_insert_ne by assumption.
  unfold len. rewrite Nat2Z.id, length_replicate, Nat.min_id.
  rewrite firstn_all, drop_replicate, Nat.sub_diag. cbn [replicate].
  rewrite app_nil_r, !insert_insert_eq. reflexivity.
Qed.

(** What [calculatePercentile] does to the store: it adds one array, the
    sorted copy, at a fresh address. *)
Lemma calculatePercentile_store (h : gmap loc (list Z)) (s : Slice)
  (percentile : Float64.float64) :
  (calculatePercentile h s percentile).2 =
  if len h s =? 0 then h
  else <[fresh (dom h) := sorted_list (elems h s)]> h.
Proof.
  unfold calculatePercentile.
  destruct (len h s =? 0) eqn:Hlen; [reflexivity |].
  assert (Hne : elems h s <> []).
  { intros He. unfold len in Hlen. rewrite He in Hlen. discriminate. }
  pose proof (sorted_copy h s Hne) as Hc. cbv zeta in Hc.
  unfold make in *. cbn [fst snd] in *. rewrite Hc. reflexivity.
Qed.

Lemma calculatePercentile_value (h : gmap loc (list Z)) (s : Slice)
  (percentile : Float64.float64) :
  (calculatePercentile h s percentile).1 = percentile_of percentile (elems h s).
Proof.
  unfold calculatePercentile, percentile_of. fold (len h s).
  destruct (len h s =? 0) eqn:Hlen; [reflexivity |].
  assert (Hne : elems h s <> []).
  { intros He. unfold len in Hlen. rewrite He in Hlen. discriminate. }
  pose proof (sorted_copy h s Hne) as Hc. cbv zeta in Hc.
  unfold make in *. cbn [fst snd] in *. rewrite Hc.
  unfold index. rewrite !len_insert_eq, elems_insert_eq, sorted_list_length.
  reflexivity.
Qed.

(** The arrays that exist before the call are the same after it. *)
Lemma calculatePercentile_frame (h : gmap loc (list Z)) (s : Slice)
  (percentile : Float64.float64) (p : loc) :
  is_Some (h !! p) -> (calculatePercentile h s percentile).2 !! p = h !! p.
Proof.
  intros Hp. rewrite calculatePercentile_store.
  destruct (len h s =? 0); [reflexivity |].
  apply lookup_insert_ne. intros <-. rewrite fresh_lookup in Hp.
  destruct Hp; discriminate.
Qed.

Lemma calculatePercentile_elems (h : gmap loc (list Z)) (s : Slice)
  (percentile : Float64.float64) :
  elems (calculatePercentile h s percentile).2 s = elems h s.
Proof.
  rewrite calculatePercentile_store.
  destruct (len h s =? 0) eqn:Hlen; [reflexivity |].
  apply elems_insert_ne; [apply fresh_lookup |].
  intros He. unfold len in Hlen. rewrite He in Hlen. discriminate.
Qed.

(** ** Percentiles *)

(** The index the program computes in binary64 is the exact
    [floor(n * p / 100)]. *)
Lemma index_exact (n p : Z) (lit : Float64.float64) :
  percentile_literal p = Some lit -> 0 < n < maxLen ->
  Float64.to_int (Float64.mul (Float64.of_int n) lit) = n * p / 100.
Proof.
  intros Hlit Hn. unfold maxLen in Hn.
  pose proof (Zdigits2_le n 45 ltac:(lia) ltac:(lia) ltac:(lia)) as Hd.
  unfold percentile_literal in Hlit.
  destruct (Z.eqb_spec p 50) as [-> | _];
    [| destruct (Z.eqb_spec p 95) as [-> | _];
       [| destruct (Z.eqb_spec p 99) as [-> | _]; [| discriminate]]];
    injection Hlit as <-.
  - unfold Float64.lit_0_50, Float64.lit_0_5.
    rewrite to_int_mul by (cbn; lia). apply mul_index_0_50. exact Hn.
  - unfold Float64.lit_0_95.
    rewrite to_int_mul by (cbn; lia). apply mul_index_0_95. exact Hn.
  - unfold Float64.lit_0_99.
    rewrite to_int_mul by (cbn; lia). apply mul_index_0_99. exact Hn.
Qed.

Lemma percentile_literal_range (p : Z) (lit : Float64.float64) :
  percentile_literal p = Some lit -> 0 < p < 100.
Proof.
  unfold percentile_literal.
  destruct (Z.eqb_spec p 50); [lia |].
  destruct (Z.eqb_spec p 95); [lia |].
  destruct (Z.eqb_spec p 99); [lia | discriminate].
Qed.

Lemma percentile_of_spec (p : Z) (lit : Float64.float64) (l : list Z) :
  percentile_literal p = Some lit -> Z.of_nat (length l) < maxLen ->
  percentile_of lit l = percentile_spec p l.
Proof.
  intros Hlit Hlen. unfold percentile_of, percentile_spec.
  destruct l as [| x l]; [reflexivity |].
  set (n := Z.of_nat (length (x :: l))) in *.
  assert (Hn : 0 < n) by (subst n; cbn [length]; lia).
  replace (n =? 0) with false by (symmetry; apply Z.eqb_neq; lia).
  rewrite (index_exact n p lit Hlit) by lia.
  pose proof (percentile_literal_range p lit Hlit) as Hp.
  assert (Hi : 0 <= n * p / 100 < n) by (Z.div_mod_to_equations; nia).
  replace (n <=? n * p / 100) with false by (symmetry; apply Z.leb_gt; lia).
  replace (0 <=? n * p / 100) with true by (symmetry; apply Z.leb_le; lia).
  replace (n * p / 100 <? n) with true by (symmetry; apply Z.ltb_lt; lia).
  cbn [andb]. rewrite Z.min_l by lia. reflexivity.
Qed.

(** C5. For a history of fewer than [maxLen] latencies and each of the
    three percentiles the program asks for (50, 95, 99, passed as the
    binary64 literals 0.50, 0.95, 0.99), [calculatePercentile] returns what
    the specification describes: the element of the ascending arrangement of
    the latencies at index [floor(count * p / 100)] clamped to [count - 1],
    and 0 on an empty history. The arrangement is ascending and a
    permutation of the history. On [10, 20, 30, 40, 50] ms the 50th
    percentile is 30 ms and the 95th is 50 ms. *)
Theorem calculatePercentile_nearest_rank
  (h : gmap loc (list Z)) (history : Slice) (p : Z) (lit : Float64.float64) :
  percentile_literal p = Some lit ->
  len h history < maxLen ->
  (calculatePercentile h history lit).1 = percentile_spec p (elems h history) /\
  (elems h history = [] -> (calculatePercentile h history lit).1 = 0) /\
  Sorted Z.le (sorted_list (elems h history)) /\
  Permutation (sorted_list (elems h history)) (elems h history) /\
  (elems h history = map (Z.mul Millisecond) [10; 20; 30; 40; 50] ->
   (p = 50 -> (calculatePercentile h history lit).1 = 30 * Millisecond) /\
   (p = 95 -> (calculatePercentile h history lit).1 = 50 * Millisecond)).
Proof.
  intros Hlit Hlen.
  assert (Hv : (calculatePercentile h history lit).1
               = percentile_spec p (elems h history)).
  { rewrite calculatePercentile_value. apply percentile_of_spec; assumption. }
  split; [exact Hv |].
  split; [intros He; rewrite Hv, He; reflexivity |].
  split; [apply sorted_list_sorted |].
  split; [apply sorted_list_perm |].
  intros He. rewrite Hv, He. split; intros ->; reflexivity.
Qed.

Lemma calculatePercentile_nearest_rank_witness :
  (calculatePercentile example_store (Some 1%positive) Float64.lit_0_95).1
  = 50 * Millisecond.
Proof.
  assert (Hlen : len example_store (Some 1%positive) < maxLen)
    by (vm_compute; reflexivity).
  destruct (calculatePercentile_nearest_rank example_store (Some 1%positive) 95
              Float64.lit_0_95 eq_refl Hlen) as [Hv _].
  rewrite Hv. vm_compute. reflexivity.
Defined.

(** ** The breaker *)

Lemma currentState_not_due (b : gobreaker.CircuitBreaker) (now : Time) :
  due b now = false -> gobreaker.currentState b now = (b, (gobreaker.state b, gobreaker.generation b)).
Proof.
  unfold due, gobreaker.currentState. intros Hd.
  destruct (gobreaker.state b) eqn:Hs; rewrite ?Hd; rewrite ?Hs; reflexivity.
Qed.

Lemma due_with_counts (b : gobreaker.CircuitBreaker) (c : gobreaker.Counts) (now : Time) :
  due (gobreaker.with_counts b c) now = due b now.
Proof. reflexivity. Qed.


(** A request to an open breaker whose timeout has not elapsed. *)
Lemma Execute_open {S R : Type} (b : gobreaker.CircuitBreaker)
  (req : S -> (option R * option error) * S) (tb ta : Time) (s : S) :
  gobreaker.state b = gobreaker.StateOpen -> due b tb = false ->
  gobreaker.Execute b req tb ta s = ((None, Some ErrOpenState), b, s).
Proof.
  intros Hs Hb. unfold gobreaker.Execute, gobreaker.beforeRequest.
  rewrite currentState_not_due by exact Hb. rewrite Hs. reflexivity.
Qed.

Lemma State_not_due (b : gobreaker.CircuitBreaker) (now : Time) :
  due b now = false -> gobreaker.CircuitBreaker_State b now = (b, gobreaker.state b).
Proof.
  intros Hd. unfold gobreaker.CircuitBreaker_State.
  rewrite currentState_not_due by exact Hd. reflexivity.
Qed.

Lemma due_open (b : gobreaker.CircuitBreaker) (e now : Time) :
  gobreaker.state b = gobreaker.StateOpen -> gobreaker.expiry b = Some e -> now <= e -> due b now = false.
Proof.
  intros Hs He Hle. unfold due. rewrite Hs, He. cbn [gobreaker.Before].
  apply Z.ltb_ge. exact Hle.
Qed.

Lemma due_closed (b : gobreaker.CircuitBreaker) (e now : Time) :
  gobreaker.state b = gobreaker.StateClosed -> gobreaker.expiry b = Some e -> now <= e -> due b now = false.
Proof.
  intros Hs He Hle. unfold due. rewrite Hs, He. cbn [gobreaker.Before gobreaker.IsZero negb andb].
  apply Z.ltb_ge. exact Hle.
Qed.

(** ** The trip condition *)










(** ** Recording attempts *)

Lemma wrap64_small (z : Z) : GoInt.in_int64 z -> GoInt.wrap64 z = z.
Proof.
  unfold GoInt.in_int64, GoInt.minInt64, GoInt.maxInt64, GoInt.wrap64.
  intros H. rewrite Z.mod_small by lia. lia.
Qed.

Lemma wrap64_add_l (a b : Z) :
  GoInt.wrap64 (GoInt.wrap64 a + b) = GoInt.wrap64 (a + b).
Proof.
  unfold GoInt.wrap64.
  replace ((a + 2 ^ 63) mod 2 ^ 64 - 2 ^ 63 + b + 2 ^ 63)
    with ((a + 2 ^ 63) mod 2 ^ 64 + b) by lia.
  rewrite Zplus_mod_idemp_l. f_equal. f_equal. lia.
Qed.

Lemma append_elems (h : gmap loc (list Z)) (s : Slice) (x : Z) :
  elems (append h s x).1 (append h s x).2 = elems h s ++ [x].
Proof.
  destruct s as [p |]; cbn [append fst snd]; rewrite elems_insert_eq; reflexivity.
Qed.

(** The effect of one [updateMetrics], field by field. *)
Lemma updateMetrics_fields (err : option error) (latency : Duration)
  (st : gobreaker.State) (h : gmap loc (list Z)) (m : Metrics) :
  let a := mkAttempt err latency st in
  let hm := updateMetrics err latency st h m in
  TotalRequests hm.2 = GoInt.wrap64 (TotalRequests m + 1) /\
  SuccessfulRequests hm.2 =
    (if is_success a then GoInt.wrap64 (SuccessfulRequests m + 1)
     else SuccessfulRequests m) /\
  FailedRequests hm.2 =
    (if is_failure a then GoInt.wrap64 (FailedRequests m + 1)
     else FailedRequests m) /\
  CircuitOpenRejects hm.2 =
    (if is_reject a then GoInt.wrap64 (CircuitOpenRejects m + 1)
     else CircuitOpenRejects m) /\
  TotalLatency hm.2 = GoInt.wrap64 (TotalLatency m + latency) /\
  elems hm.1 (LatencyHistory hm.2) = elems h (LatencyHistory m) ++ [latency].
Proof.
  intros a hm. subst a hm. unfold updateMetrics.
  pose proof (append_elems h (LatencyHistory m) latency) as Ha.
  destruct (append h (LatencyHistory m) latency) as [h' hist].
  unfold is_reject, is_failure, is_success. cbn [a_err a_state].
  destruct err as [e |]; cbn [fst snd negb andb TotalRequests SuccessfulRequests
    FailedRequests CircuitOpenRejects TotalLatency LatencyHistory] in *;
    repeat split; try reflexivity; exact Ha.
Qed.

Lemma count_app (f : Attempt -> bool) (rs : list Attempt) (a : Attempt) :
  count f (rs ++ [a]) = count f rs + (if f a then 1 else 0).
Proof.
  unfold count. rewrite filter_app, length_app, Nat2Z.inj_add. f_equal.
  rewrite filter_cons, filter_nil.
  destruct (f a); [rewrite decide_True by reflexivity
                  | rewrite decide_False by discriminate]; reflexivity.
Qed.

Lemma count_bounds (f : Attempt -> bool) (rs : list Attempt) :
  0 <= count f rs <= Z.of_nat (length rs).
Proof.
  unfold count. pose proof (length_filter (fun a => f a = true) rs). lia.
Qed.

Lemma count_nil (f : Attempt -> bool) : count f [] = 0.
Proof. reflexivity. Qed.

Lemma sum_app (l : list Z) (x : Z) : sum (l ++ [x]) = sum l + x.
Proof.
  unfold sum. induction l as [| y l IH]; cbn [app fold_right]; lia.
Qed.

Lemma recorded_app (rs : list Attempt) (a : Attempt) :
  recorded (rs ++ [a]) = record (recorded rs) a.
Proof. unfold recorded. apply fold_left_app. Qed.

Lemma reject_is_failure (a : Attempt) :
  is_reject a = true -> is_failure a = true.
Proof. unfold is_reject. intros H. apply andb_true_iff in H. tauto. Qed.

Lemma success_or_failure (a : Attempt) :
  (if is_success a then 1 else 0) + (if is_failure a then 1 else 0) = 1.
Proof. unfold is_failure. destruct (is_success a); reflexivity. Qed.

(** What [metrics] holds after the attempts [rs], as long as their number
    fits an [int]. *)
Lemma recorded_counts (rs : list Attempt) :
  Z.of_nat (length rs) <= GoInt.maxInt64 ->
  let hm := recorded rs in
  TotalRequests hm.2 = Z.of_nat (length rs) /\
  SuccessfulRequests hm.2 = count is_success rs /\
  FailedRequests hm.2 = count is_failure rs /\
  CircuitOpenRejects hm.2 = count is_reject rs /\
  TotalLatency hm.2 = GoInt.wrap64 (sum (latencies rs)) /\
  elems hm.1 (LatencyHistory hm.2) = latencies rs.
Proof.
  induction rs as [| a rs IH] using rev_ind; intros Hlen hm; subst hm.
  - unfold recorded. cbn. repeat split; reflexivity.
  - rewrite length_app in Hlen. cbn [length] in Hlen.
    destruct IH as (HT & HS & HF & HR & HL & HE); [lia |].
    rewrite recorded_app. unfold record.
    destruct (updateMetrics_fields (a_err a) (a_latency a) (a_state a)
                (recorded rs).1 (recorded rs).2)
      as (HT' & HS' & HF' & HR' & HL' & HE').
    replace (mkAttempt (a_err a) (a_latency a) (a_state a)) with a in *
      by (destruct a; reflexivity).
    rewrite HT', HS', HF', HR', HL', HE', HT, HS, HF, HR, HL, HE.
    rewrite !count_app, length_app. cbn [length].
    pose proof (count_bounds is_success rs).
    pose proof (count_bounds is_failure rs).
    pose proof (count_bounds is_reject rs).
    unfold latencies. rewrite map_app. cbn [map]. rewrite sum_app, wrap64_add_l.
    assert (Hw : forall z, 0 <= z <= Z.of_nat (length rs) -> GoInt.wrap64 (z + 1) = z + 1).
    { intros z Hz. apply wrap64_small. unfold GoInt.in_int64, GoInt.minInt64, GoInt.maxInt64 in *. lia. }
    repeat split.
    + rewrite Hw by lia. lia.
    + destruct (is_success a); [apply Hw; lia | lia].
    + destruct (is_failure a); [apply Hw; lia | lia].
    + destruct (is_reject a); [apply Hw; lia | lia].
Qed.

Lemma count_reject_le (rs : list Attempt) :
  count is_reject rs <= count is_failure rs.
Proof.
  induction rs as [| a rs IH] using rev_ind; [reflexivity |].
  rewrite !count_app. pose proof (reject_is_failure a).
  destruct (is_reject a), (is_failure a); try lia; discriminate (H eq_refl).
Qed.

Lemma count_success_failure (rs : list Attempt) :
  count is_success rs + count is_failure rs = Z.of_nat (length rs).
Proof.
  induction rs as [| a rs IH] using rev_ind; [reflexivity |].
  rewrite !count_app, length_app. cbn [length].
  pose proof (success_or_failure a). lia.
Qed.

(** ** Metrics *)

Lemma len_append (h : gmap loc (list Z)) (s : Slice) (x : Z) :
  len (append h s x).1 (append h s x).2 = len h s + 1.
Proof. unfold len. rewrite append_elems, length_app. cbn [length]. lia. Qed.

(** C10. [updateMetrics] keeps [TotalRequests = SuccessfulRequests +
    FailedRequests], [len(LatencyHistory) = TotalRequests] and
    [CircuitOpenRejects <= FailedRequests] (with the three counters
    non-negative), whatever error, latency and breaker state it is given, as
    long as the history is shorter than the largest [int]; and they hold of
    the zero-valued [Metrics]. *)
Theorem updateMetrics_preserves_invariants
  (err : option error) (latency : Duration) (st : gobreaker.State)
  (h : gmap loc (list Z)) (m : Metrics) :
  MetricsInv h m ->
  len h (LatencyHistory m) < GoInt.maxInt64 ->
  MetricsInv (updateMetrics err latency st h m).1
             (updateMetrics err latency st h m).2 /\
  MetricsInv ∅ zeroMetrics.
Proof.
  intros (HS & HF & HR & HT & HL & HRF) Hlen.
  split; [| unfold MetricsInv, len, zeroMetrics; cbn; lia].
  destruct (updateMetrics_fields err latency st h m)
    as (HT' & HS' & HF' & HR' & _ & HE').
  unfold MetricsInv, len in *. rewrite HT', HS', HF', HR', HE', length_app.
  cbn [length]. rewrite Nat2Z.inj_add. change (Z.of_nat 1) with 1.
  assert (Hw : forall z, 0 <= z <= TotalRequests m -> GoInt.wrap64 (z + 1) = z + 1).
  { intros z Hz. apply wrap64_small.
    unfold GoInt.in_int64, GoInt.minInt64, GoInt.maxInt64 in *. lia. }
  pose proof (reject_is_failure (mkAttempt err latency st)) as Hrf.
  pose proof (success_or_failure (mkAttempt err latency st)) as Hsf.
  rewrite (Hw (TotalRequests m)) by lia.
  destruct (is_success _), (is_failure _), (is_reject _); cbn in Hsf;
    try discriminate (Hrf eq_refl); try discriminate Hsf;
    rewrite ?Hw by lia; repeat split; lia.
Qed.

Lemma updateMetrics_preserves_invariants_witness :
  MetricsInv
    (updateMetrics (Some ErrOpenState) 5 gobreaker.StateOpen ∅ zeroMetrics).1
    (updateMetrics (Some ErrOpenState) 5 gobreaker.StateOpen ∅ zeroMetrics).2.
Proof.
  apply (updateMetrics_preserves_invariants (Some ErrOpenState) 5
           gobreaker.StateOpen ∅ zeroMetrics).
  - unfold MetricsInv, len, zeroMetrics. cbn. lia.
  - reflexivity.
Defined.

(** C2, as the program has it. After any sequence of fewer than [2^63]
    recorded attempts, [TotalRequests] is their number, [SuccessfulRequests]
    counts the attempts with a [nil] error, [FailedRequests] counts all the
    others, circuit-open rejections included, and [CircuitOpenRejects]
    counts the failed attempts recorded while the breaker reported OPEN; so
    successes and failures add up to the total, and the rejections are a part
    of the failures. *)
Theorem recorded_partition (rs : list Attempt) :
  Z.of_nat (length rs) <= GoInt.maxInt64 ->
  TotalRequests (recorded rs).2 = Z.of_nat (length rs) /\
  SuccessfulRequests (recorded rs).2 = count is_success rs /\
  FailedRequests (recorded rs).2 = count is_failure rs /\
  CircuitOpenRejects (recorded rs).2 = count is_reject rs /\
  SuccessfulRequests (recorded rs).2 + FailedRequests (recorded rs).2
    = TotalRequests (recorded rs).2 /\
  CircuitOpenRejects (recorded rs).2 <= FailedRequests (recorded rs).2.
Proof.
  intros Hlen.
  destruct (recorded_counts rs Hlen) as (HT & HS & HF & HR & _ & _).
  rewrite HT, HS, HF, HR.
  pose proof (count_success_failure rs). pose proof (count_reject_le rs).
  repeat split; lia.
Qed.

Lemma recorded_partition_witness :
  SuccessfulRequests (recorded one_rejection).2
  + FailedRequests (recorded one_rejection).2
  = TotalRequests (recorded one_rejection).2.
Proof.
  apply (recorded_partition one_rejection). vm_compute. discriminate.
Defined.

(** C2 as stated fails: one circuit-open rejection is counted as a failure
    and as a rejection, and the three counts add up to 2 for 1 attempt. *)
Lemma rejection_counted_twice :
  FailedRequests (recorded one_rejection).2 = 1 /\
  CircuitOpenRejects (recorded one_rejection).2 = 1 /\
  SuccessfulRequests (recorded one_rejection).2
  + FailedRequests (recorded one_rejection).2
  + CircuitOpenRejects (recorded one_rejection).2
  <> TotalRequests (recorded one_rejection).2.
Proof. vm_compute. repeat split; discriminate. Qed.

(** ** The metrics snapshot *)

Lemma handleMetrics_unfold (now : Time) (w : World) :
  handleMetrics now w =
  (let v := view (metrics w) (elems (heap w) (LatencyHistory (metrics w))) in
   let '(tr, sc, fc, ff, sr, er, avg, p50, p95, p99) := v in
   mkMetricsResponse (gobreaker.CircuitBreaker_State (cb w) now).2
     (gobreaker.CircuitBreaker_Counts (cb w)) tr sc fc ff sr er avg p50 p95 p99,
   mkWorld (after_percentiles (heap w) (LatencyHistory (metrics w)))
     (metrics w) (gobreaker.CircuitBreaker_State (cb w) now).1 (calls w)).
Proof.
  unfold handleMetrics, view, after_percentiles.
  set (s := LatencyHistory (metrics w)).
  pose proof (calculatePercentile_value (heap w) s Float64.lit_0_50) as V1.
  pose proof (calculatePercentile_elems (heap w) s Float64.lit_0_50) as E1.
  destruct (calculatePercentile (heap w) s Float64.lit_0_50) as [p50 h1].
  cbn [fst snd] in *.
  pose proof (calculatePercentile_value h1 s Float64.lit_0_95) as V2.
  pose proof (calculatePercentile_elems h1 s Float64.lit_0_95) as E2.
  destruct (calculatePercentile h1 s Float64.lit_0_95) as [p95 h2].
  cbn [fst snd] in *.
  pose proof (calculatePercentile_value h2 s Float64.lit_0_99) as V3.
  destruct (calculatePercentile h2 s Float64.lit_0_99) as [p99 h3].
  cbn [fst snd] in *.
  rewrite E2, E1 in V3. rewrite E1 in V2. subst p50 p95 p99.
  destruct (gobreaker.CircuitBreaker_State (cb w) now) as [cb' st].
  cbn [fst snd].
  destruct (0 <? TotalRequests (metrics w)); reflexivity.
Qed.

Lemma handleMetrics_derived (now : Time) (w : World) :
  derived (handleMetrics now w).1 =
  view (metrics w) (elems (heap w) (LatencyHistory (metrics w))).
Proof.
  rewrite handleMetrics_unfold. cbv zeta.
  destruct (view _ _) as [[[[[[[[[tr sc] fc] ff] sr] er] avg] p50] p95] p99].
  reflexivity.
Qed.

Lemma after_percentiles_frame (h : gmap loc (list Z)) (s : Slice) (p : loc) :
  is_Some (h !! p) -> after_percentiles h s !! p = h !! p.
Proof.
  intros Hp. unfold after_percentiles.
  assert (H1 : (calculatePercentile h s Float64.lit_0_50).2 !! p = h !! p)
    by (apply calculatePercentile_frame; exact Hp).
  assert (H2 : (calculatePercentile (calculatePercentile h s Float64.lit_0_50).2
                  s Float64.lit_0_95).2 !! p = h !! p).
  { rewrite calculatePercentile_frame; [exact H1 | rewrite H1; exact Hp]. }
  rewrite calculatePercentile_frame; [exact H2 | rewrite H2; exact Hp].
Qed.

Lemma after_percentiles_elems (h : gmap loc (list Z)) (s : Slice) :
  elems (after_percentiles h s) s = elems h s.
Proof.
  unfold after_percentiles. rewrite !calculatePercentile_elems. reflexivity.
Qed.

Lemma handleMetrics_world (now : Time) (w : World) :
  (handleMetrics now w).2 =
  mkWorld (after_percentiles (heap w) (LatencyHistory (metrics w)))
    (metrics w) (gobreaker.CircuitBreaker_State (cb w) now).1 (calls w).
Proof.
  rewrite handleMetrics_unfold. cbv zeta.
  destruct (view _ _) as [[[[[[[[[tr sc] fc] ff] sr] er] avg] p50] p95] p99].
  reflexivity.
Qed.

(** The body is a function of the history-derived fields and of what the
    breaker reports. *)
Lemma handleMetrics_body (now : Time) (w : World) (r : MetricsResponse) :
  derived r = view (metrics w) (elems (heap w) (LatencyHistory (metrics w))) ->
  CircuitState r = (gobreaker.CircuitBreaker_State (cb w) now).2 ->
  CircuitCounts r = gobreaker.CircuitBreaker_Counts (cb w) ->
  (handleMetrics now w).1 = r.
Proof.
  intros Hd Hs Hc. rewrite handleMetrics_unfold. cbv zeta. rewrite <- Hd, <- Hs, <- Hc.
  destruct r. reflexivity.
Qed.

(** C9, as the program has it. Two snapshots in a row, with no
    [updateMetrics] between them and whatever the clock and the breaker do
    meanwhile, agree on every field computed from [metrics] (totals, counts,
    rates, average, percentiles); a snapshot leaves [metrics], the request
    counter and every array of the store as they were, the latency history
    included: the percentile computation sorts a fresh copy. When no timer
    of the breaker is due at either reading, the two bodies are equal in
    full and the breaker is unchanged as well. *)
Theorem handleMetrics_idempotent (now1 now2 : Time) (w : World) :
  let r1 := (handleMetrics now1 w).1 in
  let w1 := (handleMetrics now1 w).2 in
  let r2 := (handleMetrics now2 w1).1 in
  let w2 := (handleMetrics now2 w1).2 in
  derived r2 = derived r1 /\
  metrics w1 = metrics w /\ metrics w2 = metrics w /\
  calls w1 = calls w /\
  (forall p, is_Some (heap w !! p) -> heap w1 !! p = heap w !! p) /\
  elems (heap w1) (LatencyHistory (metrics w1))
    = elems (heap w) (LatencyHistory (metrics w)) /\
  (due (cb w) now1 = false -> due (cb w) now2 = false ->
   r2 = r1 /\ cb w2 = cb w).
Proof.
  intros r1 w1 r2 w2. subst r1 w1 r2 w2.
  rewrite !handleMetrics_derived, !handleMetrics_world.
  cbn [metrics heap calls cb]. rewrite after_percentiles_elems.
  split; [reflexivity |].
  split; [reflexivity |].
  split; [reflexivity |].
  split; [reflexivity |].
  split; [intros p Hp; apply after_percentiles_frame; exact Hp |].
  split; [reflexivity |].
  intros H1 H2. rewrite (State_not_due _ _ H1). cbn [fst].
  rewrite (State_not_due _ _ H2). cbn [fst]. split; [| reflexivity].
  apply handleMetrics_body; cbn [metrics heap cb].
  - rewrite after_percentiles_elems. apply handleMetrics_derived.
  - rewrite handleMetrics_unfold. cbv zeta.
    destruct (view _ _) as [[[[[[[[[tr sc] fc] ff] sr] er] avg] p50] p95] p99].
    cbn [fst CircuitState]. rewrite (State_not_due _ _ H1), (State_not_due _ _ H2).
    reflexivity.
  - rewrite handleMetrics_unfold. cbv zeta.
    destruct (view _ _) as [[[[[[[[[tr sc] fc] ff] sr] er] avg] p50] p95] p99].
    reflexivity.
Qed.

Lemma handleMetrics_idempotent_witness :
  (handleMetrics 2 (handleMetrics 1 example_world).2).1
  = (handleMetrics 1 example_world).1.
Proof.
  destruct (handleMetrics_idempotent 1 2 example_world)
    as (_ & _ & _ & _ & _ & _ & H).
  apply H; reflexivity.
Defined.

(** C9 as stated fails: the snapshot reads [cb.Counts()] and then
    [cb.State()], and the second read rolls a counting window that has
    expired. Thirty seconds after start-up, with two failures counted in the
    first window, a snapshot reports these counts and clears them; a second
    snapshot at the same clock reading, with nothing recorded in between,
    reports zero counts. *)
Lemma snapshot_rolls_expired_window :
  CircuitCounts (handleMetrics (30 * Second) two_failures_world).1
    = gobreaker.mkCounts 2 0 2 0 2 /\
  CircuitCounts
    (handleMetrics (30 * Second)
       (handleMetrics (30 * Second) two_failures_world).2).1
    = gobreaker.zeroCounts /\
  metrics (handleMetrics (30 * Second) two_failures_world).2
    = metrics two_failures_world /\
  gobreaker.counts (cb two_failures_world) = gobreaker.mkCounts 2 0 2 0 2 /\
  gobreaker.counts (cb (handleMetrics (30 * Second) two_failures_world).2)
    = gobreaker.zeroCounts.
Proof. vm_compute. repeat split. Qed.

(** The success rate of [s] successes out of [t > 0] attempts is a number. *)
Lemma success_rate_not_nan (s t : Z) :
  0 <= s < 2 ^ 53 -> 0 < t < 2 ^ 53 ->
  Float64.is_nan
    (Float64.mul (Float64.div (Float64.of_int s) (Float64.of_int t))
                 Float64.lit_100) = false.
Proof.
  intros Hs Ht.
  pose proof (Zdigits2_le t 53 ltac:(lia) ltac:(lia) ltac:(lia)) as Hdt.
  destruct (Zdigits2_bounds t ltac:(lia)) as [Hdt0 _].
  pose proof (norm_m_range t ltac:(lia) ltac:(lia)) as Hnt.
  rewrite (of_int_pos t) by lia.
  destruct (Z.eq_dec s 0) as [-> | Hs0]; [reflexivity |].
  pose proof (Zdigits2_le s 53 ltac:(lia) ltac:(lia) ltac:(lia)) as Hds.
  destruct (Zdigits2_bounds s ltac:(lia)) as [Hds0 _].
  pose proof (norm_m_range s ltac:(lia) ltac:(lia)) as Hns.
  rewrite (of_int_pos s) by lia.
  destruct (div_finite (Z.to_pos (norm_m s)) (Z.to_pos (norm_m t))
              (Zdigits2 s - 53) (Zdigits2 t - 53))
    as [m' [Heq Hm']]; rewrite ?Z2Pos.id; try lia.
  rewrite Heq. unfold Float64.lit_100.
  rewrite mul_finite; [| exact Hm' | cbn; lia |].
  - unfold renorm. destruct (_ =? _); reflexivity.
  - destruct (_ <=? _); lia.
Qed.

Lemma quot_in_int64 (a b : Z) :
  GoInt.in_int64 a -> 0 < b -> GoInt.div64 a b = Z.quot a b.
Proof.
  intros Ha Hb. unfold GoInt.div64. apply wrap64_small.
  unfold GoInt.in_int64, GoInt.minInt64, GoInt.maxInt64 in *.
  Z.quot_rem_to_equations. nia.
Qed.

(** C8. After no attempt at all the snapshot reports a success rate of
    exactly 0 and an average latency of 0. After [n > 0] attempts
    ([n < maxLen]) it reports the binary64 value of
    [float64(successes) / float64(n) * 100], which is a number and never
    NaN, and, the sum of the latencies fitting a [time.Duration], the
    average [sum / n] (integer division). *)
Theorem handleMetrics_rates (rs : list Attempt) (now : Time)
  (b : gobreaker.CircuitBreaker) (sent : Z) :
  Z.of_nat (length rs) < maxLen ->
  let r := (handleMetrics now (mkWorld (recorded rs).1 (recorded rs).2 b sent)).1 in
  r_TotalRequests r = Z.of_nat (length rs) /\
  SuccessCount r = count is_success rs /\
  (rs = [] -> SuccessRate r = Float64.lit_0 /\ AvgLatency r = 0) /\
  (rs <> [] ->
   SuccessRate r =
     Float64.mul (Float64.div (Float64.of_int (count is_success rs))
                              (Float64.of_int (Z.of_nat (length rs))))
                 Float64.lit_100 /\
   Float64.is_nan (SuccessRate r) = false /\
   (GoInt.in_int64 (sum (latencies rs)) ->
    AvgLatency r = Z.quot (sum (latencies rs)) (Z.of_nat (length rs)))).
Proof.
  intros Hlen r.
  assert (Hmax : Z.of_nat (length rs) <= GoInt.maxInt64)
    by (unfold maxLen, GoInt.maxInt64 in *; lia).
  destruct (recorded_counts rs Hmax) as (HT & HS & _ & _ & HL & _).
  pose proof (handleMetrics_derived now
                (mkWorld (recorded rs).1 (recorded rs).2 b sent)) as Hd.
  fold r in Hd. unfold derived, view in Hd. cbn [metrics heap] in Hd.
  rewrite HT, HS, HL in Hd. injection Hd as Htr Hsc _ _ Hsr _ Havg _ _ _.
  pose proof (count_bounds is_success rs) as Hc.
  split; [exact Htr |]. split; [exact Hsc |]. split.
  - intros ->. rewrite Hsr, Havg. split; reflexivity.
  - intros Hne.
    assert (Hpos : 0 < Z.of_nat (length rs)) by (destruct rs; [congruence | cbn; lia]).
    apply Z.ltb_lt in Hpos as Hpos'. rewrite Hpos' in Hsr, Havg.
    rewrite Hsr, Havg. split; [reflexivity |]. split.
    + apply success_rate_not_nan; unfold maxLen in Hlen; lia.
    + intros Hsum. rewrite (wrap64_small _ Hsum). apply quot_in_int64; assumption.
Qed.

(** One success of 10 ms and one failure of 25 ms: the average is 17.5 ms. *)
Lemma handleMetrics_rates_witness :
  AvgLatency
    (handleMetrics 1 (mkWorld (recorded two_attempts).1 (recorded two_attempts).2
                        (gobreaker.NewCircuitBreaker settings 0) 2)).1
  = 17500000.
Proof.
  assert (Hlen : Z.of_nat (length two_attempts) < maxLen)
    by (vm_compute; reflexivity).
  destruct (handleMetrics_rates two_attempts 1
              (gobreaker.NewCircuitBreaker settings 0) 2 Hlen)
    as (_ & _ & _ & Hne).
  destruct (Hne ltac:(discriminate)) as (_ & _ & Havg).
  rewrite Havg; [reflexivity |].
  vm_compute. split; discriminate.
Defined.

(** ** The checkout handler *)

Lemma currentState_state (b : gobreaker.CircuitBreaker) (now : Time) :
  (gobreaker.currentState b now).2 =
  (gobreaker.state (gobreaker.currentState b now).1,
   gobreaker.generation (gobreaker.currentState b now).1).
Proof. reflexivity. Qed.

(** Admission is denied in two ways, each with its own error. *)
Lemma beforeRequest_denied (b b1 : gobreaker.CircuitBreaker) (now : Time)
  (gen : Z) (e : error) :
  gobreaker.beforeRequest b now = (b1, (gen, Some e)) ->
  (gobreaker.state b1 = gobreaker.StateOpen /\ e = ErrOpenState) \/
  (gobreaker.state b1 = gobreaker.StateHalfOpen /\
   gobreaker.maxRequests b1 <= gobreaker.Requests (gobreaker.counts b1) /\
   e = ErrTooManyRequests).
Proof.
  unfold gobreaker.beforeRequest.
  pose proof (currentState_state b now) as Hc.
  destruct (gobreaker.currentState b now) as [b' [st g]]. cbn [fst snd] in Hc.
  injection Hc as -> ->.
  destruct (gobreaker.state b') eqn:Hs.
  - discriminate.
  - destruct (Z.leb_spec (gobreaker.maxRequests b')
                         (gobreaker.Requests (gobreaker.counts b'))) as [Hle | Hgt];
      [| discriminate].
    intros H. injection H as <- _ <-. right. auto.
  - intros H. injection H as <- _ <-. left. auto.
Qed.

Lemma Execute_denied {S R : Type} (b b1 : gobreaker.CircuitBreaker)
  (req : S -> (option R * option error) * S) (tb ta : Time) (s : S)
  (gen : Z) (e : error) :
  gobreaker.beforeRequest b tb = (b1, (gen, Some e)) ->
  gobreaker.Execute b req tb ta s = ((None, Some e), b1, s).
Proof. intros H. unfold gobreaker.Execute. rewrite H. reflexivity. Qed.

Lemma Execute_admitted {S R : Type} (b b1 : gobreaker.CircuitBreaker)
  (req : S -> (option R * option error) * S) (tb ta : Time) (s : S) (gen : Z) :
  gobreaker.beforeRequest b tb = (b1, (gen, None)) ->
  gobreaker.Execute b req tb ta s =
  ((req s).1,
   gobreaker.afterRequest b1 gen (gobreaker.isSuccessful (req s).1.2) ta,
   (req s).2).
Proof.
  intros H. unfold gobreaker.Execute. rewrite H.
  destruct (req s) as [[result err] s']. reflexivity.
Qed.

(** The reply and the new world, from what [Execute] returned. *)
Lemma handleCheckout_unfold (req : CheckoutRequest) (get : GetResult)
  (clk : Clock) (w : World) :
  let x := gobreaker.Execute (cb w) (callPaymentService get)
             (t_before clk) (t_after clk) (calls w) in
  let err := x.1.1.2 in
  let bs := gobreaker.CircuitBreaker_State x.1.2 (t_state clk) in
  let hm := updateMetrics err (elapsed clk) bs.2 (heap w) (metrics w) in
  handleCheckout (Some req) get clk w =
  (match err with
   | Some e =>
       if error_eqb e ErrOpenState then FastFail (elapsed clk)
       else PaymentFailed e (elapsed clk)
   | None => Confirmed (Item req) (Price req) (elapsed clk)
   end,
   mkWorld hm.1 hm.2 bs.1 x.2).
Proof.
  cbv zeta. unfold handleCheckout.
  destruct (gobreaker.Execute _ _ _ _ _) as [[[result err] b1] sent].
  cbn [fst snd].
  destruct (gobreaker.CircuitBreaker_State b1 (t_state clk)) as [b2 st].
  cbn [fst snd].
  destruct (updateMetrics err (elapsed clk) st (heap w) (metrics w)) as [h' m'].
  cbn [fst snd].
  destruct err as [e |]; [destruct (error_eqb e ErrOpenState) |]; reflexivity.
Qed.

(** The errors of the downstream call are not the breaker's. *)
Lemma callPaymentService_error (get : GetResult) (sent : Z) (e : error) :
  (callPaymentService get sent).1.2 = Some e ->
  e <> ErrOpenState /\ e <> ErrTooManyRequests /\ error_eqb e ErrOpenState = false.
Proof.
  unfold callPaymentService.
  destruct get as [msg | code status]; [| destruct (negb (code =? StatusOK))];
    cbn [fst snd]; intros H; try discriminate; injection H as <-;
    repeat split; discriminate.
Qed.

(** C7, as the program has it. [callPaymentService] sends one request and
    returns the response with a [nil] error exactly when the status code is
    200; any other status code, 2xx ones included, and any transport failure
    come back as an error. *)
Theorem callPaymentService_classifies (get : GetResult) (sent : Z) :
  (callPaymentService get sent).2 = sent + 1 /\
  ((callPaymentService get sent).1.2 = None <->
   exists status, get = GetResponse 200 status) /\
  ((callPaymentService get sent).1.2 = None ->
   (callPaymentService get sent).1.1 = Some get) /\
  (forall msg, get = GetError msg ->
   (callPaymentService get sent).1 = (None, Some (TransportError msg))) /\
  (forall code status, get = GetResponse code status -> code <> 200 ->
   (callPaymentService get sent).1 = (None, Some (ServiceError code status))).
Proof.
  unfold callPaymentService, StatusOK.
  destruct get as [msg | code status].
  - cbn [fst snd]. repeat split; try discriminate.
    + intros [status H]. discriminate.
    + intros msg' H. injection H as <-. reflexivity.
  - destruct (Z.eqb_spec code 200) as [-> | Hne]; cbn [negb fst snd].
    + repeat split; try discriminate.
      * exists status. reflexivity.
      * intros code' status' H Hc. injection H as <- <-. congruence.
    + repeat split; try discriminate.
      * intros [status' H]. injection H as -> _. congruence.
      * intros code' status' H Hc. injection H as <- <-. reflexivity.
Qed.

(** C7 as stated fails: a 204 response is in the 2xx class and is returned
    as an error. *)
Lemma status_204_is_failure :
  (callPaymentService (GetResponse 204 "204 No Content") 0).1
  = (None, Some (ServiceError 204 "204 No Content")).
Proof. reflexivity. Qed.

(** A checkout that reaches an open breaker before its timeout. *)
Lemma handleCheckout_open (w : World) (req : CheckoutRequest)
  (get : GetResult) (clk : Clock) (e : Time) :
  gobreaker.state (cb w) = gobreaker.StateOpen ->
  gobreaker.expiry (cb w) = Some e ->
  t_before clk <= e ->
  handleCheckout (Some req) get clk w =
  (FastFail (elapsed clk),
   let bs := gobreaker.CircuitBreaker_State (cb w) (t_state clk) in
   let hm := updateMetrics (Some ErrOpenState) (elapsed clk) bs.2
               (heap w) (metrics w) in
   mkWorld hm.1 hm.2 bs.1 (calls w)).
Proof.
  intros Hs He Hle.
  pose proof (due_open (cb w) e (t_before clk) Hs He Hle) as Hd.
  rewrite handleCheckout_unfold. cbv zeta.
  rewrite (Execute_open (cb w) (callPaymentService get) _ _ _ Hs Hd).
  reflexivity.
Qed.

(** As long as every clock reading stays within the timeout, the breaker
    stays as it is and nothing is sent downstream. *)
Lemma serve_open (l : list (CheckoutRequest * GetResult * Clock)) (w : World)
  (e : Time) :
  gobreaker.state (cb w) = gobreaker.StateOpen ->
  gobreaker.expiry (cb w) = Some e ->
  Forall (fun x => t_before x.2 <= e /\ t_state x.2 <= e) l ->
  calls (serve l w).2 = calls w /\
  cb (serve l w).2 = cb w /\
  (serve l w).1 = map (fun x => FastFail (elapsed x.2)) l.
Proof.
  revert w. induction l as [| [[req get] clk] l IH]; intros w Hs He Hall.
  - repeat split.
  - inversion Hall as [| x l' [Hb Ht] Hall']; subst. cbn [snd] in Hb, Ht.
    cbn [serve]. rewrite (handleCheckout_open w req get clk e Hs He Hb).
    cbv zeta.
    rewrite (State_not_due _ _ (due_open (cb w) e (t_state clk) Hs He Ht)).
    cbn [fst snd].
    set (w1 := mkWorld _ _ (cb w) (calls w)).
    destruct (IH w1 Hs He Hall') as (Hc & Hcb & Hr).
    destruct (serve l w1) as [rs w2]. cbn [fst snd map] in *.
    rewrite Hc, Hcb, Hr. repeat split.
Qed.

(** Entering OPEN arms the timer: entry time plus [Timeout]. *)
Lemma setState_open (b : gobreaker.CircuitBreaker) (now : Time) :
  gobreaker.state b <> gobreaker.StateOpen ->
  gobreaker.state (gobreaker.setState b gobreaker.StateOpen now)
    = gobreaker.StateOpen /\
  gobreaker.expiry (gobreaker.setState b gobreaker.StateOpen now)
    = Some (now + gobreaker.timeout b).
Proof.
  intros Hs. unfold gobreaker.setState.
  destruct (gobreaker.state b); [| | congruence]; split; reflexivity.
Qed.

(** C6. While the breaker is OPEN and its timeout has not elapsed at the
    admission check (the clock reading is not after the expiry, which
    entering OPEN sets to the entry time plus [Timeout]), [Execute] returns
    [ErrOpenState] without running the request function: the result is the
    same for every request function, and the state the function runs on
    comes back as it was, the breaker too. Through [handleCheckout] the count
    of requests sent to the payment service stays the same and the reply is
    the 503 fast fail; and so for any number of checkouts served in sequence
    while every clock reading stays within the timeout. *)
Theorem Execute_open_never_calls (w : World) (req : CheckoutRequest)
  (get : GetResult) (clk : Clock) (e : Time) :
  gobreaker.state (cb w) = gobreaker.StateOpen ->
  gobreaker.expiry (cb w) = Some e ->
  t_before clk <= e ->
  (forall (S R : Type) (rq : S -> (option R * option error) * S) (s : S),
     gobreaker.Execute (cb w) rq (t_before clk) (t_after clk) s
     = ((None, Some ErrOpenState), cb w, s)) /\
  calls (handleCheckout (Some req) get clk w).2 = calls w /\
  (handleCheckout (Some req) get clk w).1 = FastFail (elapsed clk) /\
  statusCode (handleCheckout (Some req) get clk w).1 = StatusServiceUnavailable /\
  (forall l : list (CheckoutRequest * GetResult * Clock),
     Forall (fun x => t_before x.2 <= e /\ t_state x.2 <= e) l ->
     calls (serve l w).2 = calls w /\
     cb (serve l w).2 = cb w /\
     (serve l w).1 = map (fun x => FastFail (elapsed x.2)) l) /\
  (forall (b : gobreaker.CircuitBreaker) (t : Time),
     gobreaker.state b <> gobreaker.StateOpen ->
     gobreaker.state (gobreaker.setState b gobreaker.StateOpen t)
       = gobreaker.StateOpen /\
     gobreaker.expiry (gobreaker.setState b gobreaker.StateOpen t)
       = Some (t + gobreaker.timeout b)).
Proof.
  intros Hs He Hle.
  pose proof (due_open (cb w) e (t_before clk) Hs He Hle) as Hd.
  assert (Hx : forall (S R : Type) (rq : S -> (option R * option error) * S) (s : S),
             gobreaker.Execute (cb w) rq (t_before clk) (t_after clk) s
             = ((None, Some ErrOpenState), cb w, s))
    by (intros; apply Execute_open; assumption).
  split; [exact Hx |].
  rewrite handleCheckout_unfold. cbv zeta. rewrite Hx. cbn [fst snd calls error_eqb].
  split; [reflexivity |]. split; [reflexivity |]. split; [reflexivity |].
  split; [| exact setState_open].
  intros l Hall. apply (serve_open l w e); assumption.
Qed.

(** The fourth checkout, one second after the breaker tripped. *)
Lemma Execute_open_never_calls_witness :
  calls (handleCheckout (Some a_request) healthy (clock_at (4 * Second))
           tripped_world).2 = calls tripped_world.
Proof.
  assert (Hle : t_before (clock_at (4 * Second))
                <= 3 * Second + Millisecond + 10 * Second)
    by (vm_compute; discriminate).
  destruct (Execute_open_never_calls tripped_world a_request healthy
              (clock_at (4 * Second)) (3 * Second + Millisecond + 10 * Second)
              eq_refl eq_refl Hle) as (_ & H & _).
  exact H.
Defined.

(** C3, as the program has it. A checkout rejected by an open breaker is
    recorded like any failed attempt: [TotalRequests] and [FailedRequests]
    grow by one, the handler's elapsed time is added to [TotalLatency] and
    appended to [LatencyHistory], [SuccessfulRequests] stays; and
    [CircuitOpenRejects] grows by one when the breaker still reports OPEN at
    the time [updateMetrics] reads its state. The payment service is not
    called. *)
Theorem rejected_attempt_recorded (w : World) (req : CheckoutRequest)
  (get : GetResult) (clk : Clock) (e : Time) :
  gobreaker.state (cb w) = gobreaker.StateOpen ->
  gobreaker.expiry (cb w) = Some e ->
  t_before clk <= e ->
  let w' := (handleCheckout (Some req) get clk w).2 in
  (handleCheckout (Some req) get clk w).1 = FastFail (elapsed clk) /\
  calls w' = calls w /\
  TotalRequests (metrics w') = GoInt.wrap64 (TotalRequests (metrics w) + 1) /\
  SuccessfulRequests (metrics w') = SuccessfulRequests (metrics w) /\
  FailedRequests (metrics w') = GoInt.wrap64 (FailedRequests (metrics w) + 1) /\
  TotalLatency (metrics w')
    = GoInt.wrap64 (TotalLatency (metrics w) + elapsed clk) /\
  elems (heap w') (LatencyHistory (metrics w'))
    = elems (heap w) (LatencyHistory (metrics w)) ++ [elapsed clk] /\
  (t_state clk <= e ->
   CircuitOpenRejects (metrics w')
     = GoInt.wrap64 (CircuitOpenRejects (metrics w) + 1) /\
   cb w' = cb w).
Proof.
  intros Hs He Hle w'. subst w'.
  pose proof (due_open (cb w) e (t_before clk) Hs He Hle) as Hd.
  rewrite handleCheckout_unfold. cbv zeta.
  rewrite (Execute_open (cb w) (callPaymentService get) _ _ _ Hs Hd).
  cbn [fst snd calls metrics heap cb error_eqb].
  destruct (updateMetrics_fields (Some ErrOpenState) (elapsed clk)
              (gobreaker.CircuitBreaker_State (cb w) (t_state clk)).2
              (heap w) (metrics w)) as (HT & HS & HF & HR & HL & HE).
  unfold is_reject, is_failure, is_success in HS, HF, HR.
  cbn [a_err a_state negb andb] in HS, HF, HR.
  split; [reflexivity |]. split; [reflexivity |].
  split; [exact HT |]. split; [exact HS |]. split; [exact HF |].
  split; [exact HL |]. split; [exact HE |].
  intros Hst.
  pose proof (due_open (cb w) e (t_state clk) Hs He Hst) as Hd'.
  rewrite (State_not_due _ _ Hd') in *. cbn [fst snd] in *.
  rewrite Hs in HR |- *. cbn [gobreaker.State_eqb] in HR.
  split; [exact HR | reflexivity].
Qed.

Lemma rejected_attempt_recorded_witness :
  (handleCheckout (Some a_request) healthy (clock_at (4 * Second))
     tripped_world).1 = FastFail (5 * Millisecond).
Proof.
  apply (rejected_attempt_recorded tripped_world a_request healthy
           (clock_at (4 * Second)) (3 * Second + Millisecond + 10 * Second)).
  - reflexivity.
  - reflexivity.
  - vm_compute. discriminate.
Defined.

(** C3 as stated fails: the rejected checkout adds its 5 ms to
    [TotalLatency] and a fourth entry to [LatencyHistory]. *)
Lemma rejection_changes_latency :
  (handleCheckout (Some a_request) healthy (clock_at (4 * Second))
     tripped_world).1 = FastFail (5 * Millisecond) /\
  TotalLatency (metrics tripped_world) = 15 * Millisecond /\
  TotalLatency (metrics (handleCheckout (Some a_request) healthy
                           (clock_at (4 * Second)) tripped_world).2)
    = 20 * Millisecond /\
  length (elems (heap tripped_world) (LatencyHistory (metrics tripped_world)))
    = 3%nat /\
  length (elems (heap (handleCheckout (Some a_request) healthy
                         (clock_at (4 * Second)) tripped_world).2)
            (LatencyHistory
               (metrics (handleCheckout (Some a_request) healthy
                           (clock_at (4 * Second)) tripped_world).2)))
    = 4%nat.
Proof. vm_compute. repeat split. Qed.

Lemma beforeRequest_open (b : gobreaker.CircuitBreaker) (now : Time) :
  gobreaker.state b = gobreaker.StateOpen -> due b now = false ->
  gobreaker.beforeRequest b now = (b, (gobreaker.generation b, Some ErrOpenState)).
Proof.
  intros Hs Hd. unfold gobreaker.beforeRequest.
  rewrite currentState_not_due by exact Hd. rewrite Hs. reflexivity.
Qed.

(** What a denied call returns. A call denied admission does not run the
    request function and returns one of the breaker's two errors, which no
    downstream failure produces: [ErrOpenState] when the breaker is OPEN,
    [ErrTooManyRequests] when it is HALF_OPEN with its probe budget used up.
    [handleCheckout] answers [ErrOpenState] with the 503 fast fail and a
    failure of an admitted downstream call with the 502 reply; the payment
    service is not called on a denied checkout. *)
Theorem denied_admission_errors (w : World) (req : CheckoutRequest)
  (get : GetResult) (clk : Clock) (b1 : gobreaker.CircuitBreaker) (gen : Z)
  (e : error) :
  gobreaker.beforeRequest (cb w) (t_before clk) = (b1, (gen, Some e)) ->
  (forall (S R : Type) (rq : S -> (option R * option error) * S) (s : S),
     gobreaker.Execute (cb w) rq (t_before clk) (t_after clk) s
     = ((None, Some e), b1, s)) /\
  calls (handleCheckout (Some req) get clk w).2 = calls w /\
  ((gobreaker.state b1 = gobreaker.StateOpen /\ e = ErrOpenState /\
    (handleCheckout (Some req) get clk w).1 = FastFail (elapsed clk) /\
    statusCode (handleCheckout (Some req) get clk w).1 = StatusServiceUnavailable)
   \/
   (gobreaker.state b1 = gobreaker.StateHalfOpen /\
    gobreaker.maxRequests b1 <= gobreaker.Requests (gobreaker.counts b1) /\
    e = ErrTooManyRequests)) /\
  (forall get' sent e',
     (callPaymentService get' sent).1.2 = Some e' ->
     e' <> ErrOpenState /\ e' <> ErrTooManyRequests) /\
  (forall w' req' get' clk' b' gen' e',
     gobreaker.beforeRequest (cb w') (t_before clk') = (b', (gen', None)) ->
     (callPaymentService get' (calls w')).1.2 = Some e' ->
     (handleCheckout (Some req') get' clk' w').1 = PaymentFailed e' (elapsed clk') /\
     statusCode (handleCheckout (Some req') get' clk' w').1 = StatusBadGateway).
Proof.
  intros Hb.
  assert (Hx : forall (S R : Type) (rq : S -> (option R * option error) * S) (s : S),
             gobreaker.Execute (cb w) rq (t_before clk) (t_after clk) s
             = ((None, Some e), b1, s))
    by (intros; eapply Execute_denied; exact Hb).
  split; [exact Hx |].
  split; [rewrite handleCheckout_unfold; cbv zeta; rewrite Hx; reflexivity |].
  split.
  - destruct (beforeRequest_denied _ _ _ _ _ Hb) as [[Hs ->] | (Hs & Hm & ->)].
    + left. rewrite handleCheckout_unfold. cbv zeta. rewrite Hx.
      cbn [fst snd error_eqb]. repeat split; assumption.
    + right. repeat split; assumption.
  - split.
    + intros get' sent e' He'.
      destruct (callPaymentService_error get' sent e' He') as (H1 & H2 & _).
      split; assumption.
    + intros w' req' get' clk' b' gen' e' Hb' He'.
      rewrite handleCheckout_unfold. cbv zeta.
      rewrite (Execute_admitted _ _ _ _ _ _ _ Hb'). cbn [fst snd].
      rewrite He'.
      destruct (callPaymentService_error _ _ _ He') as (_ & _ & ->).
      split; reflexivity.
Qed.

Lemma denied_admission_errors_witness :
  calls (handleCheckout (Some a_request) healthy (clock_at (4 * Second))
           tripped_world).2 = calls tripped_world.
Proof.
  assert (Hb : gobreaker.beforeRequest (cb tripped_world)
                 (t_before (clock_at (4 * Second)))
               = (cb tripped_world,
                  (gobreaker.generation (cb tripped_world), Some ErrOpenState))).
  { apply beforeRequest_open; [reflexivity | vm_compute; reflexivity]. }
  destruct (denied_admission_errors tripped_world a_request healthy
              (clock_at (4 * Second)) _ _ _ Hb) as (_ & H & _).
  exact H.
Defined.

(** C4. The handler misses the breaker's second rejection. With two
    probes in flight a third checkout is denied admission with
    [ErrTooManyRequests]; the handler tests for [ErrOpenState] alone, so it
    answers this rejection as a failure of the payment service, with the 502
    reply, although the payment service was not called. The sibling
    rejection, by the open breaker of [tripped_world], gets the 503 fast
    fail. *)
Lemma probe_budget_exhausted_is_502 :
  statusCode
    (handleCheckout (Some a_request) healthy (clock_at (4 * Second))
       tripped_world).1 = StatusServiceUnavailable /\
  gobreaker.state (cb probing_world) = gobreaker.StateHalfOpen /\
  (gobreaker.beforeRequest (cb probing_world) (14 * Second + 2)).2.2
    = Some ErrTooManyRequests /\
  (handleCheckout (Some a_request) healthy
     (mkClock (14 * Second + 2) (14 * Second + 3) (5 * Millisecond)
        (14 * Second + 4)) probing_world).1
    = PaymentFailed ErrTooManyRequests (5 * Millisecond) /\
  statusCode
    (handleCheckout (Some a_request) healthy
       (mkClock (14 * Second + 2) (14 * Second + 3) (5 * Millisecond)
          (14 * Second + 4)) probing_world).1 = StatusBadGateway /\
  calls
    (handleCheckout (Some a_request) healthy
       (mkClock (14 * Second + 2) (14 * Second + 3) (5 * Millisecond)
          (14 * Second + 4)) probing_world).2 = calls probing_world.
Proof. vm_compute. repeat split. Qed.

(** ** The trip condition in the breaker *)

Lemma wrap32_range (z : Z) : GoInt.in_uint32 (GoInt.wrap32 z).
Proof. unfold GoInt.in_uint32, GoInt.wrap32. apply Z.mod_pos_bound. lia. Qed.





(** ** Requests through the server *)

Lemma error_eqb_breaker (e : error) :
  e <> ErrOpenState -> e <> ErrTooManyRequests ->
  error_eqb e ErrOpenState = false /\ error_eqb e ErrTooManyRequests = false.
Proof. destruct e; intros H1 H2; try congruence; split; reflexivity. Qed.

(** [Execute] around [callPaymentService]: either admission is denied, with
    one of the breaker's errors and nothing sent, or the call is made and
    its result is what comes back. *)
Lemma Execute_callPaymentService (b : gobreaker.CircuitBreaker)
  (get : GetResult) (tb ta : Time) (sent : Z) :
  let x := gobreaker.Execute b (callPaymentService get) tb ta sent in
  (exists e, x.1.1.2 = Some e /\ (e = ErrOpenState \/ e = ErrTooManyRequests) /\
             x.2 = sent) \/
  (x.1.1.2 = (callPaymentService get sent).1.2 /\ x.2 = sent + 1).
Proof.
  cbv zeta.
  destruct (gobreaker.beforeRequest b tb) as [b1 [gen [e |]]] eqn:Hb.
  - left. exists e. rewrite (Execute_denied _ _ _ _ _ _ _ _ Hb). cbn [fst snd].
    split; [reflexivity |]. split; [| reflexivity].
    destruct (beforeRequest_denied _ _ _ _ _ Hb) as [[_ ->] | (_ & _ & ->)]; auto.
  - right. rewrite (Execute_admitted _ _ _ _ _ _ _ Hb). cbn [fst snd].
    split; [reflexivity |].
    unfold callPaymentService.
    destruct get as [msg | code status]; [| destruct (negb (code =? StatusOK))];
      reflexivity.
Qed.

(** What one decoded checkout does to the world, read off its reply. *)
Lemma handleCheckout_effect (req : CheckoutRequest) (get : GetResult)
  (clk : Clock) (w : World) :
  let r := (handleCheckout (Some req) get clk w).1 in
  let w' := (handleCheckout (Some req) get clk w).2 in
  let ok := statusCode r =? StatusOK in
  reply_latency r = [elapsed clk] /\
  (statusCode r = StatusOK \/ statusCode r = StatusBadGateway \/
   statusCode r = StatusServiceUnavailable) /\
  calls w' = calls w + (if reached_downstream r then 1 else 0) /\
  (ok = true -> reached_downstream r = true) /\
  TotalRequests (metrics w') = GoInt.wrap64 (TotalRequests (metrics w) + 1) /\
  SuccessfulRequests (metrics w') =
    (if ok then GoInt.wrap64 (SuccessfulRequests (metrics w) + 1)
     else SuccessfulRequests (metrics w)) /\
  FailedRequests (metrics w') =
    (if ok then FailedRequests (metrics w)
     else GoInt.wrap64 (FailedRequests (metrics w) + 1)) /\
  (CircuitOpenRejects (metrics w') = CircuitOpenRejects (metrics w) \/
   ok = false /\
   CircuitOpenRejects (metrics w') =
     GoInt.wrap64 (CircuitOpenRejects (metrics w) + 1)) /\
  TotalLatency (metrics w') =
    GoInt.wrap64 (TotalLatency (metrics w) + elapsed clk) /\
  elems (heap w') (LatencyHistory (metrics w')) =
    elems (heap w) (LatencyHistory (metrics w)) ++ [elapsed clk].
Proof.
  cbv zeta. rewrite handleCheckout_unfold. cbv zeta. cbn [fst snd].
  set (x := gobreaker.Execute _ _ _ _ _).
  set (st := (gobreaker.CircuitBreaker_State x.1.2 (t_state clk)).2).
  destruct (updateMetrics_fields x.1.1.2 (elapsed clk) st (heap w) (metrics w))
    as (HT & HS & HF & HR & HL & HE).
  cbn [metrics heap calls]. rewrite HT, HS, HF, HR, HL, HE.
  unfold is_reject, is_failure, is_success. cbn [a_err a_state].
  destruct (Execute_callPaymentService (cb w) get (t_before clk) (t_after clk)
              (calls w)) as [(e & He & Hor & Hc) | (He & Hc)];
    fold x in He, Hc; rewrite Hc, He; clearbody st; clear HT HS HF HR HL HE;
    clearbody x.
  - destruct Hor as [-> | ->];
      cbn [error_eqb reply_latency statusCode reached_downstream negb andb];
      (repeat split; try reflexivity; try lia; try (intros; discriminate);
        try (left; reflexivity); try (right; left; reflexivity);
        try (right; right; reflexivity);
        try (destruct (gobreaker.State_eqb st gobreaker.StateOpen);
             [right; split; reflexivity | left; reflexivity])).
  - destruct ((callPaymentService get (calls w)).1.2) as [e |] eqn:Hcp.
    + destruct (callPaymentService_error _ _ _ Hcp) as (H1 & H2 & _).
      destruct (error_eqb_breaker e H1 H2) as [E1 E2].
      rewrite E1. cbn [reply_latency statusCode reached_downstream negb andb].
      rewrite E1, E2. cbn [negb andb].
      repeat split; try reflexivity; try lia; try (intros; discriminate);
        try (left; reflexivity); try (right; left; reflexivity);
        try (right; right; reflexivity);
        try (destruct (gobreaker.State_eqb st gobreaker.StateOpen);
             [right; split; reflexivity | left; reflexivity]).
    + cbn [reply_latency statusCode reached_downstream negb andb].
      repeat split; try reflexivity; try lia; try (intros; discriminate);
        try (left; reflexivity); try (right; left; reflexivity);
        try (right; right; reflexivity);
        try (destruct (gobreaker.State_eqb st gobreaker.StateOpen);
             [right; split; reflexivity | left; reflexivity]).
Qed.

Lemma count_status_cons (code : Z) (r : Reply) (rs : list Reply) :
  count_status code (r :: rs) =
  (if statusCode r =? code then 1 else 0) + count_status code rs.
Proof.
  unfold count_status. rewrite filter_cons.
  destruct (Z.eqb_spec (statusCode r) code) as [E | E].
  - rewrite decide_True by exact E. cbn [length]. lia.
  - rewrite decide_False by exact E. lia.
Qed.

Lemma count_status_bounds (code : Z) (rs : list Reply) :
  0 <= count_status code rs <= Z.of_nat (length rs).
Proof.
  unfold count_status.
  pose proof (length_filter (fun r => statusCode r = code) rs). lia.
Qed.

Lemma run_cons (rq : Request) (l : list Request) (w : World) :
  run (rq :: l) w =
  ((route rq w).1 :: (run l (route rq w).2).1, (run l (route rq w).2).2).
Proof.
  cbn [run]. destruct (route rq w) as [r w1]. cbn [fst snd].
  destruct (run l w1) as [rs w2]. reflexivity.
Qed.

Lemma handleCircuitState_unfold (now : Time) (w : World) :
  handleCircuitState now w =
  (mkStateInfo (gobreaker.CircuitBreaker_State (cb w) now).2
     (gobreaker.CircuitBreaker_Counts (cb w)),
   mkWorld (heap w) (metrics w) (gobreaker.CircuitBreaker_State (cb w) now).1
     (calls w)).
Proof.
  unfold handleCircuitState.
  destruct (gobreaker.CircuitBreaker_State (cb w) now) as [b st]. reflexivity.
Qed.

Lemma wrap64_range (z : Z) : GoInt.in_int64 (GoInt.wrap64 z).
Proof.
  unfold GoInt.in_int64, GoInt.wrap64, GoInt.minInt64, GoInt.maxInt64.
  Z.div_mod_to_equations. lia.
Qed.

Lemma checkout_replies_cons (r : Response) (rs : list Response) :
  checkout_replies (r :: rs) = checkout_replies [r] ++ checkout_replies rs.
Proof. unfold checkout_replies. cbn [flat_map]. rewrite app_nil_r. reflexivity. Qed.

Lemma count_status_nil (code : Z) : count_status code [] = 0.
Proof. reflexivity. Qed.

(** The accounts of a run, relative to the world it starts from. *)
Lemma run_accounts (l : list Request) (w : World) :
  0 <= SuccessfulRequests (metrics w) <= TotalRequests (metrics w) ->
  0 <= FailedRequests (metrics w) <= TotalRequests (metrics w) ->
  0 <= CircuitOpenRejects (metrics w) <= FailedRequests (metrics w) ->
  GoInt.in_int64 (TotalLatency (metrics w)) ->
  TotalRequests (metrics w) + Z.of_nat (length l) <= GoInt.maxInt64 ->
  let rs := checkout_replies (run l w).1 in
  let w' := (run l w).2 in
  let reached := Z.of_nat (length (filter (fun r => reached_downstream r = true) rs)) in
  TotalRequests (metrics w') =
    TotalRequests (metrics w) + Z.of_nat (length rs) - count_status StatusBadRequest rs /\
  SuccessfulRequests (metrics w') =
    SuccessfulRequests (metrics w) + count_status StatusOK rs /\
  FailedRequests (metrics w') =
    FailedRequests (metrics w) + count_status StatusBadGateway rs
    + count_status StatusServiceUnavailable rs /\
  CircuitOpenRejects (metrics w) <= CircuitOpenRejects (metrics w')
    <= CircuitOpenRejects (metrics w) + count_status StatusBadGateway rs
       + count_status StatusServiceUnavailable rs /\
  TotalLatency (metrics w') =
    GoInt.wrap64 (TotalLatency (metrics w) + sum (flat_map reply_latency rs)) /\
  elems (heap w') (LatencyHistory (metrics w')) =
    elems (heap w) (LatencyHistory (metrics w)) ++ flat_map reply_latency rs /\
  calls w' = calls w + reached /\
  Z.of_nat (length rs) = count_status StatusOK rs + count_status StatusBadRequest rs
    + count_status StatusBadGateway rs + count_status StatusServiceUnavailable rs /\
  count_status StatusOK rs <= reached
    <= count_status StatusOK rs + count_status StatusBadGateway rs /\
  Z.of_nat (length rs) <= Z.of_nat (length l).
Proof.
  revert w. induction l as [| rq l IH]; intros w HS HF HR HL HT; cbv zeta.
  - cbn [run fst snd checkout_replies flat_map length filter].
    rewrite !count_status_nil, app_nil_r. unfold sum. cbn [fold_right].
    rewrite !Z.add_0_r, (wrap64_small _ HL), filter_nil. cbn [length].
    repeat split; lia.
  - rewrite run_cons. cbn [fst snd]. rewrite checkout_replies_cons.
    cbn [length] in HT.
    assert (Hw : forall z, 0 <= z <= TotalRequests (metrics w) ->
                           GoInt.wrap64 (z + 1) = z + 1).
    { intros z Hz. apply wrap64_small.
      unfold GoInt.in_int64, GoInt.minInt64, GoInt.maxInt64 in *. lia. }
    assert (Hstep :
      let r1 := checkout_replies [(route rq w).1] in
      let w1 := (route rq w).2 in
      (r1 = [] \/ r1 = [InvalidRequest]) /\ metrics w1 = metrics w /\
        calls w1 = calls w /\
        elems (heap w1) (LatencyHistory (metrics w))
          = elems (heap w) (LatencyHistory (metrics w)) \/
      exists req get clk, rq = ReqCheckout (Some req) get clk /\
        r1 = [(handleCheckout (Some req) get clk w).1] /\
        w1 = (handleCheckout (Some req) get clk w).2).
    { cbv zeta. destruct rq as [| [req |] get clk | now | now |]; cbn [route].
      - left. cbn. auto.
      - right. exists req, get, clk.
        destruct (handleCheckout (Some req) get clk w) as [r w1]. auto.
      - left. cbn. auto.
      - left. pose proof (handleMetrics_world now w) as Hw'.
        destruct (handleMetrics now w) as [r w1]. cbn [fst snd] in *. subst w1.
        cbn [metrics calls heap]. rewrite after_percentiles_elems. cbn. auto.
      - left. rewrite handleCircuitState_unfold. cbn. auto.
      - left. cbn. auto. }
    cbv zeta in Hstep.
    set (r1 := checkout_replies [(route rq w).1]) in *.
    set (w1 := (route rq w).2) in *.
    destruct Hstep as [(Hr1 & Hm & Hc & He) | (req & get & clk & -> & Hr1 & Hw1)].
    + specialize (IH w1). rewrite Hm in IH.
      cbv zeta in IH.
      destruct IH as (IT & IS & IF & IR & IL & IE & IC & IN & IB & ILen);
        try assumption; [lia |].
      rewrite IT, IS, IF, IL, IE, IC, He, Hc.
      destruct Hr1 as [-> | ->]; cbn [app flat_map reply_latency length filter].
      * repeat split; try lia.
      * rewrite !count_status_cons. cbn [statusCode].
        rewrite filter_cons. rewrite decide_False by (cbn; discriminate).
        cbn [length].
        change (StatusBadRequest =? StatusBadRequest) with true.
        change (StatusBadRequest =? StatusOK) with false.
        change (StatusBadRequest =? StatusBadGateway) with false.
        change (StatusBadRequest =? StatusServiceUnavailable) with false.
        cbv iota. repeat split; try lia.
    + rewrite Hr1, Hw1.
      destruct (handleCheckout_effect req get clk w)
        as (Hlat & Hst & Hc & Hok & HT' & HS' & HF' & HR' & HL' & HE').
      cbv zeta in Hlat, Hst, Hc, Hok, HT', HS', HF', HR', HL', HE'.
      set (r := (handleCheckout (Some req) get clk w).1) in *.
      set (w2 := (handleCheckout (Some req) get clk w).2) in *.
      rewrite (Hw (TotalRequests (metrics w))) in HT' by lia.
      assert (HS2 : 0 <= SuccessfulRequests (metrics w2) <= TotalRequests (metrics w2)).
      { rewrite HS', HT'. destruct (statusCode r =? StatusOK);
          [rewrite Hw by lia |]; lia. }
      assert (HF2 : 0 <= FailedRequests (metrics w2) <= TotalRequests (metrics w2)).
      { rewrite HF', HT'. destruct (statusCode r =? StatusOK);
          [| rewrite Hw by lia]; lia. }
      assert (HR2 : 0 <= CircuitOpenRejects (metrics w2) <= FailedRequests (metrics w2)).
      { rewrite HF'. destruct HR' as [-> | [-> ->]];
          [destruct (statusCode r =? StatusOK); [| rewrite Hw by lia]; lia |].
        rewrite !Hw by lia. lia. }
      assert (HL2 : GoInt.in_int64 (TotalLatency (metrics w2)))
        by (rewrite HL'; apply wrap64_range).
      destruct (IH w2 HS2 HF2 HR2 HL2 ltac:(lia))
        as (IT & IS & IF & IR & IL & IE & IC & IN & IB & ILen).
      cbv zeta in IT, IS, IF, IR, IL, IE, IC, IN, IB, ILen.
      rewrite IT, IS, IF, IL, IE, IC, HT', HS', HF', HL', HE', Hc.
      cbn [app flat_map length]. rewrite Hlat. cbn [app].
      rewrite !count_status_cons, filter_cons.
      rewrite wrap64_add_l. cbn [sum fold_right].
      fold (sum (flat_map reply_latency
                   (checkout_replies (run l w2).1))).
      rewrite <- app_assoc. cbn [app].
      assert (Hst' : (statusCode r =? StatusOK) = true /\ reached_downstream r = true /\
                     (statusCode r =? StatusBadRequest) = false /\
                     (statusCode r =? StatusBadGateway) = false /\
                     (statusCode r =? StatusServiceUnavailable) = false \/
                     (statusCode r =? StatusOK) = false /\
                     (statusCode r =? StatusBadRequest) = false /\
                     (statusCode r =? StatusBadGateway) = true /\
                     (statusCode r =? StatusServiceUnavailable) = false \/
                     (statusCode r =? StatusOK) = false /\
                     reached_downstream r = false /\
                     (statusCode r =? StatusBadRequest) = false /\
                     (statusCode r =? StatusBadGateway) = false /\
                     (statusCode r =? StatusServiceUnavailable) = true).
      { clear - Hst. destruct r; cbn in *.
        - destruct Hst as [? | [? | ?]]; discriminate.
        - right; right. repeat split.
        - right; left. repeat split.
        - left. repeat split. }
      destruct Hst' as [(E1 & E2 & E3 & E4 & E5)
                        | [(E1 & E3 & E4 & E5) | (E1 & E2 & E3 & E4 & E5)]];
        rewrite E1, E3, E4, E5 in *; cbv iota in *.
      * rewrite E2. rewrite decide_True by reflexivity. cbn [length].
        rewrite Hw by lia. destruct HR' as [HR' | [? _]]; [| discriminate].
        rewrite HR' in IR.
        repeat split; try lia. f_equal. lia.
      * rewrite Hw by lia.
        assert (HR3 : CircuitOpenRejects (metrics w) <= CircuitOpenRejects (metrics w2)
                      <= CircuitOpenRejects (metrics w) + 1).
        { destruct HR' as [-> | [_ ->]]; [lia | rewrite Hw by lia; lia]. }
        destruct (reached_downstream r);
          [rewrite decide_True by reflexivity | rewrite decide_False by discriminate];
          cbn [length]; repeat split; try lia; f_equal; lia.
      * rewrite Hw by lia. rewrite E2. rewrite decide_False by discriminate.
        assert (HR3 : CircuitOpenRejects (metrics w) <= CircuitOpenRejects (metrics w2)
                      <= CircuitOpenRejects (metrics w) + 1).
        { destruct HR' as [-> | [_ ->]]; [lia | rewrite Hw by lia; lia]. }
        repeat split; try lia. f_equal. lia.
Qed.
Lemma reply_latency_length (rs : list Reply) :
  Z.of_nat (length (flat_map reply_latency rs))
  = Z.of_nat (length rs) - count_status StatusBadRequest rs.
Proof.
  induction rs as [| r rs IH]; [reflexivity |].
  cbn [flat_map]. rewrite length_app, Nat2Z.inj_add, IH, count_status_cons.
  cbn [length]. destruct r; cbn; lia.
Qed.

(** X1. Bookkeeping of the protected gateway. After any sequence of requests
    to any of its endpoints, served from start-up, the metrics agree with the
    replies the checkout clients received: [SuccessfulRequests] is the number
    of 200 replies, [FailedRequests] the number of 502 and 503 replies,
    [TotalRequests] the number of checkouts that could be decoded (a 400
    reply leaves no trace), the latency history lists the latencies the
    replies report, in order, and [TotalLatency] is their sum. The invariant
    of the metrics holds of every world reached. *)
Theorem run_metrics_match_replies (t0 : Time) (l : list Request) :
  Z.of_nat (length l) <= GoInt.maxInt64 ->
  let rs := checkout_replies (run l (initWorld t0)).1 in
  let w := (run l (initWorld t0)).2 in
  SuccessfulRequests (metrics w) = count_status StatusOK rs /\
  FailedRequests (metrics w) =
    count_status StatusBadGateway rs + count_status StatusServiceUnavailable rs /\
  TotalRequests (metrics w) =
    Z.of_nat (length rs) - count_status StatusBadRequest rs /\
  elems (heap w) (LatencyHistory (metrics w)) = flat_map reply_latency rs /\
  TotalLatency (metrics w) = GoInt.wrap64 (sum (flat_map reply_latency rs)) /\
  MetricsInv (heap w) (metrics w).
Proof.
  intros Hlen.
  destruct (run_accounts l (initWorld t0))
    as (HT & HS & HF & HR & HL & HE & _ & HN & _ & _);
    try (cbn; lia); [cbn; unfold GoInt.in_int64, GoInt.minInt64, GoInt.maxInt64; lia |].
  cbv zeta in *. cbn [initWorld metrics heap zeroMetrics TotalRequests
    SuccessfulRequests FailedRequests CircuitOpenRejects TotalLatency
    LatencyHistory elems] in *.
  rewrite !Z.add_0_l in *. cbn [app] in HE.
  set (rs := checkout_replies (run l (initWorld t0)).1) in *.
  pose proof (count_status_bounds StatusOK rs).
  pose proof (count_status_bounds StatusBadGateway rs).
  pose proof (count_status_bounds StatusServiceUnavailable rs).
  split; [exact HS |]. split; [exact HF |]. split; [exact HT |].
  split; [exact HE |]. split; [exact HL |].
  unfold MetricsInv, len. rewrite HE, reply_latency_length, HS, HF, HT.
  repeat split; lia.
Qed.

Lemma run_metrics_match_replies_witness :
  TotalRequests (metrics (run example_requests (initWorld 0)).2)
  = Z.of_nat (length (checkout_replies (run example_requests (initWorld 0)).1))
    - count_status StatusBadRequest
        (checkout_replies (run example_requests (initWorld 0)).1).
Proof.
  assert (Hlen : Z.of_nat (length example_requests) <= GoInt.maxInt64)
    by (vm_compute; discriminate).
  destruct (run_metrics_match_replies 0 example_requests Hlen)
    as (_ & _ & H & _).
  exact H.
Defined.

Lemma callPaymentService_sent_eq (get : GetResult) (sent : Z) :
  (callPaymentService get sent).2 = sent + 1.
Proof.
  unfold callPaymentService.
  destruct get as [msg | code status]; [| destruct (negb (code =? StatusOK))];
    reflexivity.
Qed.

(** ** The breaker over a run *)

Lemma follows_app (s : gobreaker.State)
  (l : list (gobreaker.State * gobreaker.State)) (f t : gobreaker.State) :
  follows s l = Some f -> follows s (l ++ [(f, t)]) = Some t.
Proof.
  revert s. induction l as [| [f' t'] l IH]; intros s H; cbn [follows app] in *.
  - injection H as ->. destruct f; reflexivity.
  - destruct (gobreaker.State_eqb f' s); [apply IH; exact H | discriminate].
Qed.

Lemma forallb_allowed_app (l : list (gobreaker.State * gobreaker.State))
  (ft : gobreaker.State * gobreaker.State) :
  forallb allowed l = true -> allowed ft = true ->
  forallb allowed (l ++ [ft]) = true.
Proof.
  intros Hl Hft. rewrite forallb_app, Hl. cbn [forallb]. rewrite Hft. reflexivity.
Qed.

(** A state change keeps the invariant when it is an allowed one. *)
Lemma setState_inv (b : gobreaker.CircuitBreaker) (st : gobreaker.State)
  (now : Time) :
  configured b ->
  follows gobreaker.StateClosed (gobreaker.notified b) = Some (gobreaker.state b) ->
  forallb allowed (gobreaker.notified b) = true ->
  allowed (gobreaker.state b, st) = true ->
  BreakerInv (gobreaker.setState b st now) /\
  gobreaker.state (gobreaker.setState b st now) = st.
Proof.
  intros Hc Hf Ha Hst. unfold gobreaker.setState.
  destruct (gobreaker.State_eqb (gobreaker.state b) st) eqn:E.
  - destruct (gobreaker.state b), st; discriminate.
  - unfold gobreaker.toNewGeneration, BreakerInv, configured in *.
    cbn [gobreaker.state gobreaker.notified gobreaker.counts
         gobreaker.maxRequests gobreaker.interval gobreaker.timeout
         gobreaker.readyToTrip gobreaker.Counts_clear].
    split; [| reflexivity].
    split; [exact Hc |].
    split; [apply follows_app; exact Hf |].
    split; [apply forallb_allowed_app; assumption |].
    split; intros _; [reflexivity | left; reflexivity].
Qed.

Lemma with_counts_inv (b : gobreaker.CircuitBreaker) (c : gobreaker.Counts) :
  configured b ->
  follows gobreaker.StateClosed (gobreaker.notified b) = Some (gobreaker.state b) ->
  forallb allowed (gobreaker.notified b) = true ->
  (gobreaker.state b = gobreaker.StateOpen -> c = gobreaker.zeroCounts) ->
  (gobreaker.state b = gobreaker.StateHalfOpen ->
   c = gobreaker.zeroCounts \/ c = gobreaker.mkCounts 1 1 0 1 0) ->
  BreakerInv (gobreaker.with_counts b c).
Proof.
  intros Hc Hf Ha Ho Hh.
  unfold BreakerInv, configured, gobreaker.with_counts in *.
  cbn [gobreaker.state gobreaker.notified gobreaker.counts
       gobreaker.maxRequests gobreaker.interval gobreaker.timeout
       gobreaker.readyToTrip].
  repeat split; try tauto.
Qed.

Lemma toNewGeneration_inv (b : gobreaker.CircuitBreaker) (now : Time) :
  BreakerInv b ->
  BreakerInv (gobreaker.toNewGeneration b now) /\
  gobreaker.state (gobreaker.toNewGeneration b now) = gobreaker.state b.
Proof.
  intros (Hc & Hf & Ha & _ & _).
  unfold BreakerInv, configured, gobreaker.toNewGeneration in *.
  cbn [gobreaker.state gobreaker.notified gobreaker.counts
       gobreaker.maxRequests gobreaker.interval gobreaker.timeout
       gobreaker.readyToTrip gobreaker.Counts_clear].
  repeat split; try tauto.
Qed.

Lemma currentState_inv (b : gobreaker.CircuitBreaker) (now : Time) :
  BreakerInv b -> BreakerInv (gobreaker.currentState b now).1.
Proof.
  intros Hinv. unfold gobreaker.currentState. cbn [fst].
  destruct (gobreaker.state b) eqn:Hs.
  - destruct (_ && _); [apply toNewGeneration_inv |]; exact Hinv.
  - exact Hinv.
  - destruct (gobreaker.Before _ _); [| exact Hinv].
    destruct Hinv as (Hc & Hf & Ha & _).
    apply setState_inv; try assumption. rewrite Hs. reflexivity.
Qed.

Lemma State_inv (b : gobreaker.CircuitBreaker) (now : Time) :
  BreakerInv b -> BreakerInv (gobreaker.CircuitBreaker_State b now).1.
Proof.
  intros Hinv. unfold gobreaker.CircuitBreaker_State.
  pose proof (currentState_inv b now Hinv) as H.
  destruct (gobreaker.currentState b now) as [b1 [st g]]. exact H.
Qed.

(** One request through the breaker, start to finish, keeps the invariant;
    and between requests the breaker never answers
    [ErrTooManyRequests]. *)
Lemma Execute_inv {S R : Type} (b : gobreaker.CircuitBreaker)
  (req : S -> (option R * option error) * S) (tb ta : Time) (s : S) :
  BreakerInv b ->
  let x := gobreaker.Execute b req tb ta s in
  BreakerInv x.1.2 /\
  (x.1.1.2 = Some ErrOpenState /\ x.2 = s \/
   x.1.1.2 = (req s).1.2 /\ x.2 = (req s).2).
Proof.
  intros Hinv. cbv zeta. unfold gobreaker.Execute, gobreaker.beforeRequest.
  pose proof (currentState_inv b tb Hinv) as H1.
  pose proof (currentState_state b tb) as Hst.
  destruct (gobreaker.currentState b tb) as [b1 [st g]].
  cbn [fst snd] in *. injection Hst as -> ->.
  destruct H1 as (Hc & Hf & Ha & Ho & Hh).
  assert (Hinv1 : BreakerInv b1) by (unfold BreakerInv; tauto).
  destruct (gobreaker.state b1) eqn:Hs1.
  - (* closed *)
    rewrite <- Hs1 in Hf.
    destruct (req s) as [[result err] s'] eqn:Hreq. cbn [fst snd].
    split; [| right; split; reflexivity].
    set (b2 := gobreaker.with_counts b1 _).
    assert (Hinv2 : BreakerInv b2)
      by (apply with_counts_inv; try assumption; congruence).
    assert (Hs2 : gobreaker.state b2 = gobreaker.StateClosed) by exact Hs1.
    unfold gobreaker.afterRequest.
    pose proof (currentState_inv b2 ta Hinv2) as H3.
    pose proof (currentState_state b2 ta) as Hst3.
    assert (Hs3 : gobreaker.state (gobreaker.currentState b2 ta).1
                  = gobreaker.StateClosed).
    { unfold gobreaker.currentState. cbn [fst]. rewrite Hs2.
      destruct (_ && _); [| exact Hs2].
      destruct (toNewGeneration_inv b2 ta Hinv2) as [_ ->]. exact Hs2. }
    destruct (gobreaker.currentState b2 ta) as [b3 [st3 g3]].
    cbn [fst snd] in *. injection Hst3 as -> ->.
    destruct (negb (_ =? _)); [exact H3 |]. rewrite Hs3.
    destruct (gobreaker.isSuccessful err);
      cbn [gobreaker.onSuccess gobreaker.onFailure].
    + destruct H3 as (Hc3 & Hf3 & Ha3 & _).
      apply with_counts_inv; try assumption; congruence.
    + set (b4 := gobreaker.with_counts b3 _).
      assert (Hinv4 : BreakerInv b4).
      { destruct H3 as (Hc3 & Hf3 & Ha3 & _).
        apply with_counts_inv; try assumption; congruence. }
      destruct (gobreaker.readyToTrip b4 (gobreaker.counts b4)); [| exact Hinv4].
      destruct Hinv4 as (Hc4 & Hf4 & Ha4 & _).
      apply setState_inv; try assumption.
      change (gobreaker.state b4) with (gobreaker.state b3). rewrite Hs3.
      reflexivity.
  - (* half-open *)
    rewrite <- Hs1 in Hf. specialize (Hh eq_refl).
    assert (Hmax : gobreaker.maxRequests b1 = 2) by (destruct Hc; assumption).
    rewrite Hmax.
    assert (Hlt : (2 <=? gobreaker.Requests (gobreaker.counts b1)) = false)
      by (destruct Hh as [-> | ->]; reflexivity).
    rewrite Hlt.
    destruct (req s) as [[result err] s'] eqn:Hreq. cbn [fst snd].
    split; [| right; split; reflexivity].
    set (b2 := gobreaker.with_counts b1 _).
    assert (Hs2 : gobreaker.state b2 = gobreaker.StateHalfOpen) by exact Hs1.
    unfold gobreaker.afterRequest, gobreaker.currentState. rewrite Hs2.
    cbn [fst snd]. rewrite Z.eqb_refl. cbn [negb]. rewrite Hs2.
    destruct (gobreaker.isSuccessful err);
      cbn [gobreaker.onSuccess gobreaker.onFailure].
    + change (gobreaker.maxRequests (gobreaker.with_counts b2 _))
        with (gobreaker.maxRequests b1). rewrite Hmax.
      destruct Hh as [Hz | Hone].
      * subst b2. rewrite Hz.
        cbn [gobreaker.with_counts gobreaker.counts gobreaker.Counts_onRequest
             gobreaker.Counts_onSuccess gobreaker.zeroCounts
             gobreaker.Requests gobreaker.TotalSuccesses
             gobreaker.TotalFailures gobreaker.ConsecutiveSuccesses
             gobreaker.ConsecutiveFailures].
        change (2 <=? GoInt.wrap32 (0 + 1)) with false. cbv iota.
        apply with_counts_inv;
          [exact Hc | exact Hf | exact Ha | intros H'; exfalso; congruence |].
        intros _. right. reflexivity.
      * subst b2. rewrite Hone.
        cbn [gobreaker.with_counts gobreaker.counts gobreaker.Counts_onRequest
             gobreaker.Counts_onSuccess
             gobreaker.Requests gobreaker.TotalSuccesses
             gobreaker.TotalFailures gobreaker.ConsecutiveSuccesses
             gobreaker.ConsecutiveFailures].
        change (2 <=? GoInt.wrap32 (1 + 1)) with true. cbv iota.
        apply setState_inv; [exact Hc | exact Hf | exact Ha |].
        cbn [gobreaker.with_counts gobreaker.state]. rewrite Hs1. reflexivity.
    + apply setState_inv; [exact Hc | exact Hf | exact Ha |].
      rewrite Hs2. reflexivity.
  - (* open *)
    cbn [fst snd]. split; [exact Hinv1 | left; split; reflexivity].
Qed.

(** A checkout served between two others keeps the invariant, and its reply
    tells whether the payment service was called: it was, unless the reply
    is the 503 fast fail. *)
Lemma handleCheckout_inv (req : CheckoutRequest) (get : GetResult)
  (clk : Clock) (w : World) :
  BreakerInv (cb w) ->
  BreakerInv (cb (handleCheckout (Some req) get clk w).2) /\
  (reached_downstream (handleCheckout (Some req) get clk w).1 = true \/
   statusCode (handleCheckout (Some req) get clk w).1 = StatusServiceUnavailable).
Proof.
  intros Hinv. rewrite handleCheckout_unfold. cbv zeta. cbn [fst snd cb].
  destruct (Execute_inv (cb w) (callPaymentService get) (t_before clk)
              (t_after clk) (calls w) Hinv) as [Hx Herr].
  cbv zeta in Hx, Herr.
  split; [apply State_inv; exact Hx |].
  destruct Herr as [[-> _] | [-> _]].
  - right. reflexivity.
  - left. destruct ((callPaymentService get (calls w)).1.2) as [e |] eqn:He;
      [| reflexivity].
    destruct (callPaymentService_error _ _ _ He) as (H1 & H2 & _).
    destruct (error_eqb_breaker e H1 H2) as [E1 E2].
    rewrite E1. cbn [reached_downstream]. rewrite E1, E2. reflexivity.
Qed.

Lemma route_inv (rq : Request) (w : World) :
  BreakerInv (cb w) ->
  BreakerInv (cb (route rq w).2) /\
  Forall (fun r => reached_downstream r = true \/
                   statusCode r = StatusServiceUnavailable \/
                   statusCode r = StatusBadRequest)
         (checkout_replies [(route rq w).1]).
Proof.
  intros Hinv. destruct rq as [| [req |] get clk | now | now |]; cbn [route].
  - split; [exact Hinv | constructor].
  - destruct (handleCheckout_inv req get clk w Hinv) as [H1 H2].
    destruct (handleCheckout (Some req) get clk w) as [r w1].
    cbn [fst snd] in *. split; [exact H1 |].
    constructor; [tauto | constructor].
  - cbn. split; [exact Hinv |]. constructor; [| constructor].
    right; right. reflexivity.
  - pose proof (handleMetrics_world now w) as Hw.
    destruct (handleMetrics now w) as [r w1]. cbn [fst snd] in *. subst w1.
    cbn [cb]. split; [apply State_inv; exact Hinv | constructor].
  - rewrite handleCircuitState_unfold. cbn [fst snd cb].
    split; [apply State_inv; exact Hinv | constructor].
  - split; [exact Hinv | constructor].
Qed.

Lemma run_inv (l : list Request) (w : World) :
  BreakerInv (cb w) ->
  BreakerInv (cb (run l w).2) /\
  Forall (fun r => reached_downstream r = true \/
                   statusCode r = StatusServiceUnavailable \/
                   statusCode r = StatusBadRequest)
         (checkout_replies (run l w).1).
Proof.
  revert w. induction l as [| rq l IH]; intros w Hinv.
  - split; [exact Hinv | constructor].
  - rewrite run_cons. cbn [fst snd]. rewrite checkout_replies_cons.
    destruct (route_inv rq w Hinv) as [H1 H2].
    destruct (IH _ H1) as [H3 H4].
    split; [exact H3 |]. apply Forall_app. split; assumption.
Qed.

Lemma initWorld_inv (t0 : Time) : BreakerInv (cb (initWorld t0)).
Proof.
  unfold BreakerInv, configured. cbn. repeat split; discriminate.
Qed.

Lemma reached_count (rs : list Reply) :
  Forall (fun r => reached_downstream r = true \/
                   statusCode r = StatusServiceUnavailable \/
                   statusCode r = StatusBadRequest) rs ->
  Z.of_nat (length (filter (fun r => reached_downstream r = true) rs))
  = count_status StatusOK rs + count_status StatusBadGateway rs.
Proof.
  induction 1 as [| r rs Hr Hrs IH]; [reflexivity |].
  rewrite filter_cons, !count_status_cons.
  destruct r as [| d | e d | i c d]; cbn [reached_downstream statusCode] in *.
  - rewrite decide_False by discriminate. exact IH.
  - rewrite decide_False by discriminate. exact IH.
  - destruct Hr as [Hr | [Hr | Hr]]; try discriminate.
    rewrite decide_True by exact Hr. cbn [length].
    change (StatusBadGateway =? StatusOK) with false.
    change (StatusBadGateway =? StatusBadGateway) with true. lia.
  - rewrite decide_True by reflexivity. cbn [length].
    change (StatusOK =? StatusOK) with true.
    change (StatusOK =? StatusBadGateway) with false. lia.
Qed.

Lemma allowed_recovery (ft : gobreaker.State * gobreaker.State) :
  allowed ft = true ->
  gobreaker.State_eqb ft.2 gobreaker.StateHalfOpen
  = gobreaker.State_eqb ft.1 gobreaker.StateOpen.
Proof. destruct ft as [[] []]; cbn; congruence. Qed.

(** X2. The state machine of the breaker, as the program drives it. After
    any sequence of requests to any endpoint, served one after the other
    from start-up: the breaker still carries the settings of [main]; the
    state changes it has notified start from CLOSED, each starts where the
    one before ended, the last one ends in the current state, and each is one
    of CLOSED to OPEN, OPEN to HALF_OPEN, HALF_OPEN to CLOSED, HALF_OPEN to
    OPEN; the log shows the recovery notice after each change out of OPEN
    and nowhere else; and while the breaker is OPEN its counts are zero. *)
Theorem run_breaker_transitions (t0 : Time) (l : list Request) :
  let b := cb (run l (initWorld t0)).2 in
  configured b /\
  follows gobreaker.StateClosed (gobreaker.notified b)
    = Some (gobreaker.state b) /\
  forallb allowed (gobreaker.notified b) = true /\
  state_log b =
    flat_map (fun ft => StateChange ft.1 ft.2 ::
                        (if gobreaker.State_eqb ft.1 gobreaker.StateOpen
                         then [AttemptingRecovery] else []))
             (gobreaker.notified b) /\
  (gobreaker.state b = gobreaker.StateOpen ->
   gobreaker.counts b = gobreaker.zeroCounts).
Proof.
  intros b.
  destruct (run_inv l (initWorld t0) (initWorld_inv t0))
    as [(Hc & Hf & Ha & Ho & _) _].
  fold b in Hc, Hf, Ha, Ho.
  repeat split; try assumption; try apply Hc.
  unfold state_log. clear Hf. induction (gobreaker.notified b) as [| ft n IH];
    [reflexivity |].
  cbn [forallb] in Ha. apply andb_true_iff in Ha. destruct Ha as [Hft Hn].
  cbn [flat_map]. rewrite (IH Hn). unfold OnStateChange.
  rewrite (allowed_recovery ft Hft). reflexivity.
Qed.

(** X3. Bookkeeping of the calls sent downstream. After any sequence of
    requests served one after the other from start-up, the number of
    requests sent to the payment service is the number of 200 and 502
    replies: every checkout that was recorded and not answered with the 503
    fast fail was sent downstream, exactly once, and no 503 reply cost a
    call. No checkout is refused for the probe budget of HALF_OPEN, which
    only requests in flight at the same time can exhaust. *)
Theorem run_calls_match_replies (t0 : Time) (l : list Request) :
  Z.of_nat (length l) <= GoInt.maxInt64 ->
  let rs := checkout_replies (run l (initWorld t0)).1 in
  let w := (run l (initWorld t0)).2 in
  calls w = count_status StatusOK rs + count_status StatusBadGateway rs /\
  calls w = TotalRequests (metrics w) - count_status StatusServiceUnavailable rs /\
  SuccessfulRequests (metrics w) <= calls w /\
  Forall (fun r => forall e d, r = PaymentFailed e d ->
                   e <> ErrOpenState /\ e <> ErrTooManyRequests) rs.
Proof.
  intros Hlen.
  destruct (run_accounts l (initWorld t0))
    as (HT & HS & _ & _ & _ & _ & HC & HN & _ & _);
    try (cbn; lia); [cbn; unfold GoInt.in_int64, GoInt.minInt64, GoInt.maxInt64; lia |].
  destruct (run_inv l (initWorld t0) (initWorld_inv t0)) as [_ Hall].
  cbv zeta in *. cbn [initWorld metrics heap calls zeroMetrics TotalRequests
    SuccessfulRequests] in *.
  rewrite !Z.add_0_l in *.
  set (rs := checkout_replies (run l (initWorld t0)).1) in *.
  rewrite (reached_count rs Hall) in HC.
  pose proof (count_status_bounds StatusBadGateway rs).
  split; [exact HC |]. split; [lia |]. split; [lia |].
  eapply Forall_impl; [exact Hall |].
  intros r Hr e d ->. cbn [reached_downstream statusCode] in Hr.
  destruct Hr as [Hr | [Hr | Hr]]; try discriminate.
  apply andb_true_iff in Hr. destruct Hr as [H1 H2].
  split; intros ->; discriminate.
Qed.

Lemma run_calls_match_replies_witness :
  calls (run example_requests (initWorld 0)).2
  = count_status StatusOK
      (checkout_replies (run example_requests (initWorld 0)).1)
    + count_status StatusBadGateway
        (checkout_replies (run example_requests (initWorld 0)).1).
Proof.
  assert (Hlen : Z.of_nat (length example_requests) <= GoInt.maxInt64)
    by (vm_compute; discriminate).
  destruct (run_calls_match_replies 0 example_requests Hlen) as (H & _).
  exact H.
Defined.

(** ** The average latency *)

Lemma sum_bounds (l : list Z) (lo hi : Z) :
  (forall x, In x l -> lo <= x <= hi) ->
  Z.of_nat (length l) * lo <= sum l <= Z.of_nat (length l) * hi.
Proof.
  unfold sum. induction l as [| y l IH]; intros H; [cbn; lia |].
  cbn [fold_right length].
  pose proof (H y (or_introl eq_refl)).
  specialize (IH (fun x Hx => H x (or_intror Hx))). lia.
Qed.

Lemma quot_bounds (s n lo hi : Z) :
  0 < n -> n * lo <= s <= n * hi -> lo <= Z.quot s n <= hi.
Proof. intros Hn Hs. Z.quot_rem_to_equations. nia. Qed.

(** X4. The average the snapshot reports, after any sequence of requests
    served from start-up in which at least one checkout was decoded and the
    latencies add up to an [int64]: it is the sum of the latencies the
    replies report divided by their number (Go's integer division), and it
    lies between the smallest and the largest of them. *)
Theorem run_average_latency (t0 now : Time) (l : list Request) :
  Z.of_nat (length l) <= GoInt.maxInt64 ->
  let w := (run l (initWorld t0)).2 in
  let lat := flat_map reply_latency (checkout_replies (run l (initWorld t0)).1) in
  lat <> [] ->
  GoInt.in_int64 (sum lat) ->
  let avg := AvgLatency (handleMetrics now w).1 in
  avg = Z.quot (sum lat) (Z.of_nat (length lat)) /\
  (forall lo hi, (forall x, In x lat -> lo <= x <= hi) -> lo <= avg <= hi).
Proof.
  intros Hlen w lat Hne Hsum avg.
  destruct (run_accounts l (initWorld t0))
    as (HT & _ & _ & _ & HL & _);
    try (cbn; lia); [cbn; unfold GoInt.in_int64, GoInt.minInt64, GoInt.maxInt64; lia |].
  cbv zeta in HT, HL. fold w in HT, HL.
  cbn [initWorld metrics zeroMetrics TotalRequests TotalLatency] in HT, HL.
  rewrite Z.add_0_l in HT, HL. fold lat in HL.
  rewrite <- reply_latency_length in HT. fold lat in HT.
  rewrite (wrap64_small _ Hsum) in HL.
  assert (Hpos : 0 < Z.of_nat (length lat))
    by (destruct lat; [congruence | cbn [length]; lia]).
  assert (Havg : avg = Z.quot (sum lat) (Z.of_nat (length lat))).
  { subst avg. pose proof (handleMetrics_derived now w) as Hd.
    unfold derived, view in Hd. injection Hd as _ _ _ _ _ _ Ha _ _ _.
    rewrite Ha, HT, HL.
    replace (0 <? Z.of_nat (length lat)) with true
      by (symmetry; apply Z.ltb_lt; exact Hpos).
    apply quot_in_int64; assumption. }
  split; [exact Havg |].
  intros lo hi Hb. rewrite Havg. apply quot_bounds; [exact Hpos |].
  apply sum_bounds. exact Hb.
Qed.

Lemma run_average_latency_witness :
  AvgLatency
    (handleMetrics (6 * Second) (run example_requests (initWorld 0)).2).1
  = Z.quot
      (sum (flat_map reply_latency
              (checkout_replies (run example_requests (initWorld 0)).1)))
      (Z.of_nat
         (length (flat_map reply_latency
                    (checkout_replies
                       (run example_requests (initWorld 0)).1)))).
Proof.
  assert (Hlen : Z.of_nat (length example_requests) <= GoInt.maxInt64)
    by (vm_compute; discriminate).
  assert (Hne : flat_map reply_latency
                  (checkout_replies (run example_requests (initWorld 0)).1)
                <> [])
    by (vm_compute; discriminate).
  assert (Hsum : GoInt.in_int64
                   (sum (flat_map reply_latency
                           (checkout_replies
                              (run example_requests (initWorld 0)).1))))
    by (vm_compute; split; discriminate).
  destruct (run_average_latency 0 (6 * Second) example_requests Hlen Hne Hsum)
    as (H & _).
  exact H.
Defined.

(** ** Percentiles, further *)

Lemma sorted_nth_le (l : list Z) (i j : nat) :
  Sorted Z.le l -> (i <= j < length l)%nat -> nth i l 0 <= nth j l 0.
Proof.
  intros Hs. apply Sorted_StronglySorted in Hs; [| intros x y z; lia].
  revert i j. induction Hs as [| a l Hs IH Hall]; intros i j Hij.
  - cbn in Hij. lia.
  - destruct i as [| i], j as [| j]; cbn [nth length] in *; try lia.
    + rewrite List.Forall_forall in Hall. apply Hall, nth_In. lia.
    + apply IH. lia.
Qed.

(** The index [calculatePercentile] computes stays below the length: the
    clamp to [n - 1] is never needed for the three percentiles of the
    program. *)
Lemma index_in_range (n p : Z) (lit : Float64.float64) :
  percentile_literal p = Some lit -> 0 < n < maxLen ->
  percentile_index n lit = n * p / 100 /\ 0 <= percentile_index n lit < n.
Proof.
  intros Hlit Hn.
  pose proof (percentile_literal_range p lit Hlit) as Hp.
  assert (Hi : 0 <= n * p / 100 < n) by (Z.div_mod_to_equations; nia).
  unfold percentile_index. rewrite (index_exact n p lit Hlit Hn).
  replace (n <=? n * p / 100) with false by (symmetry; apply Z.leb_gt; lia).
  split; [reflexivity | exact Hi].
Qed.

(** The value [calculatePercentile] returns for one of the program's three
    percentiles, as an element of the ascending arrangement. *)
Lemma percentile_of_nth (p : Z) (lit : Float64.float64) (l : list Z) :
  percentile_literal p = Some lit -> l <> [] ->
  Z.of_nat (length l) < maxLen ->
  let n := Z.of_nat (length l) in
  percentile_index n lit = n * p / 100 /\
  0 <= n * p / 100 < n /\
  percentile_of lit l = nth (Z.to_nat (n * p / 100)) (sorted_list l) 0.
Proof.
  intros Hlit Hne Hlen n.
  assert (Hn : 0 < n) by (subst n; destruct l; [congruence | cbn [length]; lia]).
  pose proof (percentile_literal_range p lit Hlit) as Hp.
  destruct (index_in_range n p lit Hlit (conj Hn Hlen)) as [Hx Hi].
  rewrite Hx in Hi.
  split; [exact Hx |].
  - split; [exact Hi |].
    rewrite (percentile_of_spec p lit l Hlit Hlen). unfold percentile_spec.
    destruct l as [| x l]; [congruence |]. fold n.
    rewrite Z.min_l by lia. reflexivity.
Qed.

Lemma calculatePercentile_index (h : gmap loc (list Z)) (s : Slice)
  (percentile : Float64.float64) :
  elems h s <> [] ->
  (calculatePercentile h s percentile).1 =
  index (calculatePercentile h s percentile).2 (Some (fresh (dom h)))
    (percentile_index (len h s) percentile).
Proof.
  intros Hne. unfold calculatePercentile, percentile_index.
  destruct (len h s =? 0) eqn:Hlen;
    [apply len_0_elems in Hlen; congruence |].
  pose proof (sorted_copy h s Hne) as Hc. cbv zeta in Hc.
  unfold make in *. cbn [fst snd] in *. rewrite Hc.
  rewrite !len_insert_eq, sorted_list_length. reflexivity.
Qed.

(** X5. The index [calculatePercentile] reads is inside the sorted copy, for
    each of the three percentiles the program asks for and every non-empty
    history of fewer than [maxLen] latencies: [sorted[index]] cannot be out
    of range. The value returned is one of the recorded latencies. *)
Theorem calculatePercentile_index_in_range (h : gmap loc (list Z)) (history : Slice) (p : Z)
  (lit : Float64.float64) :
  percentile_literal p = Some lit ->
  0 < len h history < maxLen ->
  let i := percentile_index (len h history) lit in
  let sorted := Some (fresh (dom h)) in
  let h' := (calculatePercentile h history lit).2 in
  0 <= i < len h' sorted /\
  (calculatePercentile h history lit).1 = index h' sorted i /\
  (calculatePercentile h history lit).1 = nth (Z.to_nat i) (elems h' sorted) 0 /\
  In (calculatePercentile h history lit).1 (elems h history).
Proof.
  intros Hlit [Hpos Hlen]. cbv zeta.
  assert (Hne : elems h history <> []).
  { intros He. unfold len in Hpos. rewrite He in Hpos. cbn in Hpos. lia. }
  destruct (percentile_of_nth p lit (elems h history) Hlit Hne Hlen)
    as (Hi & Hr & Hv).
  cbv zeta in Hi, Hr, Hv. fold (len h history) in Hi, Hr, Hv.
  rewrite calculatePercentile_store.
  replace (len h history =? 0) with false by (symmetry; apply Z.eqb_neq; lia).
  rewrite len_insert_eq, elems_insert_eq, sorted_list_length.
  fold (len h history). rewrite Hi.
  assert (Hval : (calculatePercentile h history lit).1
                 = nth (Z.to_nat (len h history * p / 100))
                       (sorted_list (elems h history)) 0).
  { rewrite calculatePercentile_value. exact Hv. }
  split; [exact Hr |]. split.
  - rewrite Hval. unfold index. rewrite len_insert_eq, sorted_list_length.
    fold (len h history).
    replace (0 <=? len h history * p / 100) with true
      by (symmetry; apply Z.leb_le; lia).
    replace (len h history * p / 100 <? len h history) with true
      by (symmetry; apply Z.ltb_lt; lia).
    cbn [andb]. rewrite elems_insert_eq. reflexivity.
  - split; [exact Hval |].
    rewrite Hval. apply (Permutation_in _ (sorted_list_perm (elems h history))).
    apply nth_In. rewrite sorted_list_length. unfold len in *. lia.
Qed.

Lemma calculatePercentile_index_in_range_witness :
  0 <= percentile_index (len example_store (Some 1%positive)) Float64.lit_0_95
    < len (calculatePercentile example_store (Some 1%positive)
             Float64.lit_0_95).2
          (Some (fresh (dom example_store))).
Proof.
  assert (Hlen : 0 < len example_store (Some 1%positive) < maxLen)
    by (vm_compute; split; reflexivity).
  destruct (calculatePercentile_index_in_range example_store (Some 1%positive)
              95 Float64.lit_0_95 eq_refl Hlen) as (H & _).
  exact H.
Defined.

(** X6. The percentiles of one snapshot are ordered: the median is at most
    the 95th percentile, which is at most the 99th, for every world whose
    history has fewer than [maxLen] latencies. *)
Theorem handleMetrics_percentiles_ordered (now : Time) (w : World) :
  len (heap w) (LatencyHistory (metrics w)) < maxLen ->
  let r := (handleMetrics now w).1 in
  MedianLatency r <= P95Latency r /\ P95Latency r <= P99Latency r.
Proof.
  intros Hlen r.
  pose proof (handleMetrics_derived now w) as Hd. fold r in Hd.
  unfold derived, view in Hd. injection Hd as _ _ _ _ _ _ _ H50 H95 H99.
  rewrite H50, H95, H99.
  set (l := elems (heap w) (LatencyHistory (metrics w))) in *.
  destruct l as [| x l'] eqn:El;
    [unfold percentile_of; cbn [length];
     change (Z.of_nat 0 =? 0) with true; cbv iota; lia |].
  assert (Hne : l <> []) by (rewrite El; discriminate). rewrite <- El.
  assert (Hl : Z.of_nat (length l) < maxLen) by exact Hlen.
  destruct (percentile_of_nth 50 Float64.lit_0_50 l eq_refl Hne Hl) as (_ & R50 & ->).
  destruct (percentile_of_nth 95 Float64.lit_0_95 l eq_refl Hne Hl) as (_ & R95 & ->).
  destruct (percentile_of_nth 99 Float64.lit_0_99 l eq_refl Hne Hl) as (_ & R99 & ->).
  cbv zeta in *.
  split; apply sorted_nth_le; try apply sorted_list_sorted;
    rewrite sorted_list_length; split; try lia;
    apply Z2Nat.inj_le; try lia; Z.div_mod_to_equations; lia.
Qed.

Lemma handleMetrics_percentiles_ordered_witness :
  MedianLatency (handleMetrics 1 example_world).1
    <= P95Latency (handleMetrics 1 example_world).1 /\
  P95Latency (handleMetrics 1 example_world).1
    <= P99Latency (handleMetrics 1 example_world).1.
Proof.
  apply (handleMetrics_percentiles_ordered 1 example_world).
  vm_compute. reflexivity.
Defined.

(** X7. A percentile depends on the latencies recorded, not on the order
    they were recorded in nor on where the history lives: two histories that
    are permutations of each other have the same percentile, whatever
    [percentile] is passed. *)
Theorem calculatePercentile_permutation
  (h1 h2 : gmap loc (list Z)) (s1 s2 : Slice) (percentile : Float64.float64) :
  Permutation (elems h1 s1) (elems h2 s2) ->
  (calculatePercentile h1 s1 percentile).1 =
  (calculatePercentile h2 s2 percentile).1.
Proof.
  intros Hp. rewrite !calculatePercentile_value. unfold percentile_of.
  rewrite (Permutation_length Hp).
  replace (sorted_list (elems h1 s1)) with (sorted_list (elems h2 s2));
    [reflexivity |].
  symmetry. apply sorted_unique; [apply sorted_list_sorted |].
  rewrite sorted_list_perm. exact Hp.
Qed.

Lemma calculatePercentile_permutation_witness :
  (calculatePercentile example_store (Some 1%positive) Float64.lit_0_95).1
  = (calculatePercentile swapped_store (Some 2%positive) Float64.lit_0_95).1.
Proof.
  apply (calculatePercentile_permutation example_store swapped_store
           (Some 1%positive) (Some 2%positive) Float64.lit_0_95).
  vm_compute. apply perm_swap.
Defined.

Lemma sorted_list_last_max (l : list Z) (x : Z) :
  In x l -> x <= nth (length l - 1) (sorted_list l) 0.
Proof.
  intros Hx.
  apply (Permutation_in _ (Permutation_sym (sorted_list_perm l))) in Hx.
  destruct (In_nth _ _ 0 Hx) as (j & Hj & <-).
  rewrite sorted_list_length in Hj.
  apply sorted_nth_le; [apply sorted_list_sorted |].
  rewrite sorted_list_length. lia.
Qed.

(** X8. On small samples the high percentiles are the maximum. For [p]
    among 50, 95 and 99 and a non-empty history of at most [100 / (100 - p)]
    latencies (100 for the 99th percentile, 20 for the 95th, 2 for the
    median: of two latencies the median reported is the larger one), the
    value returned is one of the latencies and none of them is larger. *)
Theorem calculatePercentile_small_sample
  (h : gmap loc (list Z)) (history : Slice) (p : Z) (lit : Float64.float64) :
  percentile_literal p = Some lit ->
  0 < len h history <= 100 / (100 - p) ->
  In (calculatePercentile h history lit).1 (elems h history) /\
  (forall x, In x (elems h history) -> x <= (calculatePercentile h history lit).1).
Proof.
  intros Hlit [Hpos Hn].
  pose proof (percentile_literal_range p lit Hlit) as Hp.
  assert (Hlen : len h history < maxLen).
  { unfold maxLen. assert (100 / (100 - p) <= 100) by (Z.div_mod_to_equations; nia).
    lia. }
  assert (Hne : elems h history <> []).
  { intros He. unfold len in Hpos. rewrite He in Hpos. cbn in Hpos. lia. }
  destruct (percentile_of_nth p lit (elems h history) Hlit Hne Hlen)
    as (_ & Hr & Hv).
  cbv zeta in Hr, Hv. fold (len h history) in Hr, Hv.
  assert (Hi : len h history * p / 100 = len h history - 1)
    by (Z.div_mod_to_equations; nia).
  rewrite calculatePercentile_value, Hv, Hi.
  replace (Z.to_nat (len h history - 1)) with (length (elems h history) - 1)%nat
    by (unfold len; lia).
  split; [| apply sorted_list_last_max].
  apply (Permutation_in _ (sorted_list_perm (elems h history))).
  apply nth_In. rewrite sorted_list_length. unfold len in Hpos. lia.
Qed.

Lemma calculatePercentile_small_sample_witness :
  In (calculatePercentile example_store (Some 1%positive) Float64.lit_0_99).1
     (elems example_store (Some 1%positive)) /\
  (forall x, In x (elems example_store (Some 1%positive)) ->
   x <= (calculatePercentile example_store (Some 1%positive)
           Float64.lit_0_99).1).
Proof.
  apply (calculatePercentile_small_sample example_store (Some 1%positive)
           99 Float64.lit_0_99).
  - reflexivity.
  - vm_compute. split; [reflexivity | discriminate].
Defined.

Lemma count_le_perm (v : Z) (l l' : list Z) :
  Permutation l l' -> count_le v l = count_le v l'.
Proof.
  intros Hp. unfold count_le. f_equal. apply Permutation_length.
  apply filter_Permutation. exact Hp.
Qed.

Lemma count_ge_perm (v : Z) (l l' : list Z) :
  Permutation l l' -> count_ge v l = count_ge v l'.
Proof.
  intros Hp. unfold count_ge. f_equal. apply Permutation_length.
  apply filter_Permutation. exact Hp.
Qed.

Lemma filter_all_length (P : Z -> Prop) `{!forall x, Decision (P x)} (l : list Z) :
  List.Forall P l -> length (filter P l) = length l.
Proof.
  induction 1 as [| x l Hx Hl IH]; [reflexivity |].
  rewrite filter_cons, decide_True by exact Hx. cbn [length]. lia.
Qed.

(** In an ascending list, the elements up to position [i] are at most the
    one at [i], and those from [i] on are at least it. *)
Lemma sorted_rank (l : list Z) (i : nat) :
  Sorted Z.le l -> (i < length l)%nat ->
  Z.of_nat i + 1 <= count_le (nth i l 0) l /\
  Z.of_nat (length l) - Z.of_nat i <= count_ge (nth i l 0) l.
Proof.
  intros Hs Hi. unfold count_le, count_ge.
  assert (H1 : length (filter (fun x => x <= nth i l 0) (take (S i) l)) = S i).
  { rewrite filter_all_length; [rewrite length_take; lia |].
    apply List.Forall_forall. intros x Hx.
    destruct (In_nth _ _ 0 Hx) as (j & Hj & <-).
    rewrite length_take in Hj.
    replace (nth j (take (S i) l) 0) with (nth j l 0).
    - apply sorted_nth_le; [exact Hs | lia].
    - rewrite <- (take_drop (S i) l) at 1.
      rewrite app_nth1 by (rewrite length_take; lia). reflexivity. }
  assert (H2 : length (filter (fun x => nth i l 0 <= x) (drop i l))
               = (length l - i)%nat).
  { rewrite filter_all_length; [apply length_drop |].
    apply List.Forall_forall. intros x Hx.
    destruct (In_nth _ _ 0 Hx) as (j & Hj & <-).
    rewrite length_drop in Hj.
    replace (nth j (drop i l) 0) with (nth (i + j) l 0).
    - apply sorted_nth_le; [exact Hs | lia].
    - rewrite <- (take_drop i l) at 1.
      rewrite app_nth2 by (rewrite length_take; lia).
      rewrite length_take. f_equal. lia. }
  set (v := nth i l 0) in *. clearbody v.
  split.
  - rewrite <- (take_drop (S i) l), filter_app, length_app, H1. lia.
  - rewrite <- (take_drop i l) at 2. rewrite filter_app, length_app, H2. lia.
Qed.

(** X9. What makes the value a percentile: for [p] among 50, 95 and 99 and a
    non-empty history of [n < maxLen] latencies, more than [p] percent of
    the latencies are at most the value returned, and at least [100 - p]
    percent of them are at least it. *)
Theorem calculatePercentile_rank
  (h : gmap loc (list Z)) (history : Slice) (p : Z) (lit : Float64.float64) :
  percentile_literal p = Some lit ->
  0 < len h history < maxLen ->
  let v := (calculatePercentile h history lit).1 in
  let n := len h history in
  n * p < 100 * count_le v (elems h history) /\
  n * (100 - p) <= 100 * count_ge v (elems h history).
Proof.
  intros Hlit [Hpos Hlen] v n. subst v.
  assert (Hne : elems h history <> []).
  { intros He. unfold len in Hpos. rewrite He in Hpos. cbn in Hpos. lia. }
  destruct (percentile_of_nth p lit (elems h history) Hlit Hne Hlen)
    as (_ & Hr & Hv).
  cbv zeta in Hr, Hv. fold (len h history) in Hr, Hv. fold n in Hr, Hv.
  rewrite calculatePercentile_value, Hv.
  rewrite (count_le_perm _ _ _ (Permutation_sym (sorted_list_perm (elems h history)))).
  rewrite (count_ge_perm _ _ _ (Permutation_sym (sorted_list_perm (elems h history)))).
  destruct (sorted_rank (sorted_list (elems h history)) (Z.to_nat (n * p / 100)))
    as [H1 H2]; [apply sorted_list_sorted | |].
  - rewrite sorted_list_length. subst n. unfold len in *. lia.
  - rewrite sorted_list_length in H2. fold (len h history) in H2. fold n in H2.
    rewrite Z2Nat.id in H1, H2 by lia.
    split; Z.div_mod_to_equations; lia.
Qed.

Lemma calculatePercentile_rank_witness :
  len example_store (Some 1%positive) * 50
    < 100 * count_le
              (calculatePercentile example_store (Some 1%positive)
                 Float64.lit_0_50).1
              (elems example_store (Some 1%positive)) /\
  len example_store (Some 1%positive) * (100 - 50)
    <= 100 * count_ge
               (calculatePercentile example_store (Some 1%positive)
                  Float64.lit_0_50).1
               (elems example_store (Some 1%positive)).
Proof.
  apply (calculatePercentile_rank example_store (Some 1%positive)
           50 Float64.lit_0_50).
  - reflexivity.
  - vm_compute. split; reflexivity.
Defined.

(** ** The rates of the snapshot *)

(** A positive normalised number divided by itself is exactly 1. *)
Lemma div_self (m : positive) (e : Z) :
  2 ^ 52 <= Zpos m < 2 ^ 53 ->
  Float64.div (S754_finite false m e) (S754_finite false m e)
  = S754_finite false (Z.to_pos (2 ^ 52)) (-52).
Proof.
  intros Hm.
  unfold Float64.div, SFdiv, SFdiv_core_binary. cbn [xorb].
  rewrite (Zdigits2_unique (Zpos m) 53) by (cbn in *; lia).
  unfold Float64.prec, Float64.emax.
  rewrite fexp_normal by lia.
  replace (Z.min (53 + e - (53 + e) - 53) (e - e)) with (-53) by lia.
  replace (e - e - -53) with 53 by lia.
  cbv iota beta. rewrite Z.shiftl_mul_pow2 by lia.
  assert (Hq : Z.div_eucl (Zpos m * 2 ^ 53) (Zpos m) = (2 ^ 53, 0)).
  { pose proof (Z.div_eucl_eq (Zpos m * 2 ^ 53) (Zpos m) ltac:(lia)) as Heq.
    pose proof (Z.mod_pos_bound (Zpos m * 2 ^ 53) (Zpos m) ltac:(lia)) as Hmod.
    unfold Z.modulo in Hmod.
    destruct (Z.div_eucl (Zpos m * 2 ^ 53) (Zpos m)) as [q r].
    assert (q = 2 ^ 53) by nia. subst q. f_equal. lia. }
  rewrite Hq.
  assert (Hl : new_location (Zpos m) 0 = loc_Exact).
  { unfold new_location, new_location_even, new_location_odd.
    destruct (Z.even (Zpos m)); reflexivity. }
  rewrite Hl. reflexivity.
Qed.

Lemma of_int_div_self (t : Z) :
  0 < t < 2 ^ 53 ->
  Float64.div (Float64.of_int t) (Float64.of_int t)
  = S754_finite false (Z.to_pos (2 ^ 52)) (-52).
Proof.
  intros Ht.
  pose proof (Zdigits2_le t 53 ltac:(lia) ltac:(lia) ltac:(lia)) as Hd.
  pose proof (norm_m_range t ltac:(lia) Hd) as Hn.
  rewrite (of_int_pos t) by lia.
  apply div_self. rewrite Z2Pos.id by lia. exact Hn.
Qed.

(** X10. The rates at the extremes are exact. With no request recorded the
    snapshot reports a success rate and an error rate of 0 both. With [n > 0]
    requests recorded ([n < 2^53]), all of them successes, it reports exactly
    100 and 0; none of them a success, exactly 0 and 100. *)
Theorem handleMetrics_rate_extremes (now : Time) (w : World) :
  let m := metrics w in
  let r := (handleMetrics now w).1 in
  (TotalRequests m <= 0 ->
   SuccessRate r = Float64.lit_0 /\ ErrorRate r = Float64.lit_0) /\
  (0 < TotalRequests m < 2 ^ 53 -> SuccessfulRequests m = TotalRequests m ->
   SuccessRate r = Float64.lit_100 /\ ErrorRate r = Float64.lit_0) /\
  (0 < TotalRequests m < 2 ^ 53 -> SuccessfulRequests m = 0 ->
   SuccessRate r = Float64.lit_0 /\ ErrorRate r = Float64.lit_100).
Proof.
  intros m r.
  pose proof (handleMetrics_derived now w) as Hd. fold r in Hd.
  unfold derived, view in Hd. fold m in Hd.
  injection Hd as _ _ _ _ Hsr Her _ _ _ _.
  rewrite Hsr, Her. split; [| split].
  - intros Ht. replace (0 <? TotalRequests m) with false
      by (symmetry; apply Z.ltb_ge; exact Ht).
    split; reflexivity.
  - intros Ht ->. replace (0 <? TotalRequests m) with true
      by (symmetry; apply Z.ltb_lt; lia).
    rewrite of_int_div_self by exact Ht. split; vm_compute; reflexivity.
  - intros Ht ->. replace (0 <? TotalRequests m) with true
      by (symmetry; apply Z.ltb_lt; lia).
    rewrite of_int_0.
    pose proof (Zdigits2_le (TotalRequests m) 53 ltac:(lia) ltac:(lia) ltac:(lia)).
    rewrite (of_int_pos (TotalRequests m)) by lia.
    split; reflexivity.
Qed.

(** Rounding a positive integer mantissa to binary64, away from the
    subnormal range and from overflow: short mantissas are exact, long ones
    are rounded to 53 digits. *)
Lemma binary_round_pos (p : positive) (e : Z) :
  let d := Zdigits2 (Zpos p) in
  -1074 <= e + (d - 53) -> e + (d - 53) + 1 <= 971 ->
  binary_round 53 1024 false p e =
  if d <? 53
  then S754_finite false (Z.to_pos (Zpos p * 2 ^ (53 - d))) (e - (53 - d))
  else renorm false (rne (Zpos p) (d - 53)) (e + (d - 53)).
Proof.
  intros d Hlo Hhi.
  destruct (Zdigits2_bounds (Zpos p) ltac:(lia)) as [Hd0 [Hb1 Hb2]]. fold d in Hd0, Hb1, Hb2.
  unfold binary_round. change (Z.pos (digits2_pos p)) with d.
  rewrite fexp_normal by lia. unfold shl_align.
  replace (d + e - 53 - e) with (d - 53) by lia.
  destruct (Z.ltb_spec d 53) as [Hlt | Hge].
  - destruct (d - 53) as [| k | k] eqn:Hk; try lia.
    assert (Hk' : 53 - d = Z.pos k) by lia.
    assert (Hm : Zpos (Pos.iter xO p k) = Zpos p * 2 ^ (53 - d))
      by (rewrite Hk'; apply iter_xO).
    assert (Hr : 2 ^ 52 <= Zpos p * 2 ^ (53 - d) < 2 ^ 53).
    { assert (0 < 2 ^ (53 - d)) by (apply Z.pow_pos_nonneg; lia).
      split.
      - replace 52 with ((d - 1) + (53 - d)) by lia. rewrite Z.pow_add_r by lia.
        apply Z.mul_le_mono_nonneg_r; lia.
      - replace 53 with (d + (53 - d)) at 2 by lia. rewrite Z.pow_add_r by lia.
        apply Z.mul_lt_mono_pos_r; lia. }
    assert (Hdig : Zdigits2 (Zpos (Pos.iter xO p k)) = 53)
      by (apply Zdigits2_unique; [lia | rewrite Hm; cbn in Hr |- *; lia]).
    rewrite binary_round_aux_exact; rewrite ?Hdig; try lia.
    rewrite Z.sub_diag, rne_0, Z.add_0_r. unfold renorm. rewrite Hm.
    replace (Zpos p * 2 ^ (53 - d) =? 2 ^ 53) with false
      by (symmetry; apply Z.eqb_neq; lia).
    f_equal. lia.
  - destruct (d - 53) as [| k | k] eqn:Hk; try lia;
      rewrite binary_round_aux_exact; fold d; rewrite ?Hk; try lia; reflexivity.
Qed.

Lemma Zdigits2_mono (a b : Z) : 0 < a <= b -> Zdigits2 a <= Zdigits2 b.
Proof.
  intros Hab.
  destruct (Zdigits2_bounds a ltac:(lia)) as [Ha0 [Ha1 Ha2]].
  destruct (Zdigits2_bounds b ltac:(lia)) as [Hb0 [Hb1 Hb2]].
  destruct (Z.le_gt_cases (Zdigits2 a) (Zdigits2 b)) as [H | H]; [exact H |].
  assert (2 ^ Zdigits2 b <= 2 ^ (Zdigits2 a - 1)) by (apply Z.pow_le_mono_r; lia).
  lia.
Qed.

(** [100], as mantissa and exponent. *)
Lemma lit_100_eq : Float64.lit_100 = S754_finite false (Z.to_pos (25 * 2 ^ 48)) (-46).
Proof. reflexivity. Qed.

Lemma at_most_100_leb (lo : Z) (x : spec_float) :
  at_most_100 lo x ->
  Float64.geb x Float64.lit_0 = true /\ Float64.geb Float64.lit_100 x = true.
Proof.
  destruct x as [[] | | | [] m e]; cbn [at_most_100];
    try (intros []; fail).
  - intros _. split; reflexivity.
  - intros (Hm & _ & He). split; [reflexivity |].
    unfold Float64.geb, Float64.lit_100, SFleb, SFcompare.
    destruct (Z.compare_spec e (-46)) as [Heq | Hlt | Hgt].
    + destruct He as [He | [_ He]]; [exfalso; lia |].
      destruct (Pos.compare_cont Eq m 7036874417766400) eqn:Hcmp;
        try reflexivity.
      exfalso. apply Pos.compare_gt_iff in Hcmp.
      apply Pos2Z.pos_lt_pos in Hcmp.
      change (25 * 2 ^ 48) with 7036874417766400 in He. lia.
    + reflexivity.
    + exfalso. lia.
Qed.

(** Rounding a mantissa below [100 * 2^j] at exponent [-46 - j]. *)
Lemma renorm_at_most_100 (lo M k j e : Z) :
  0 <= k <= j -> 2 ^ (52 + k) <= M < 2 ^ (53 + k) ->
  M < 25 * 2 ^ 48 * 2 ^ j ->
  lo <= e -> e + j = -46 ->
  at_most_100 lo (renorm false (rne M k) (e + k)).
Proof.
  intros Hk HM HM' He Hej.
  pose proof (rne_bounds M k ltac:(lia)) as Hb.
  assert (Hp : 0 < 2 ^ k) by (apply Z.pow_pos_nonneg; lia).
  rewrite !Z.pow_add_r in HM by lia.
  assert (Hq : 2 ^ 52 <= M / 2 ^ k < 2 ^ 53).
  { split; [apply Z.div_le_lower_bound | apply Z.div_lt_upper_bound]; lia. }
  assert (Hj : k = j -> M / 2 ^ k < 25 * 2 ^ 48).
  { intros ->. apply Z.div_lt_upper_bound; lia. }
  change (2 ^ 52) with 4503599627370496 in *.
  change (2 ^ 53) with 9007199254740992 in *.
  change (25 * 2 ^ 48) with 7036874417766400 in *.
  unfold renorm. change (2 ^ 53) with 9007199254740992.
  destruct (Z.eqb_spec (rne M k) 9007199254740992) as [Heq | Hne];
    cbn [at_most_100].
  - change (Z.pos (Z.to_pos (2 ^ 52))) with 4503599627370496.
    change (2 ^ 52) with 4503599627370496.
    change (2 ^ 53) with 9007199254740992.
    change (25 * 2 ^ 48) with 7036874417766400.
    split; [lia |]. split; [lia |].
    destruct (Z.eq_dec k j) as [Hkj | Hkj]; [specialize (Hj Hkj); lia |].
    destruct (Z.eq_dec (e + k + 1) (-46)); [right | left]; lia.
  - rewrite Z2Pos.id by lia.
    change (2 ^ 52) with 4503599627370496.
    change (2 ^ 53) with 9007199254740992.
    change (25 * 2 ^ 48) with 7036874417766400.
    split; [lia |]. split; [lia |].
    destruct (Z.eq_dec k j) as [Hkj | Hkj]; [specialize (Hj Hkj); right | left]; lia.
Qed.

(** The success rate of [s] successes out of [t] attempts, [0 < s < t]. *)
Lemma success_rate_at_most_100 (s t : Z) :
  0 < s < t -> t < 2 ^ 53 ->
  at_most_100 (-200)
    (Float64.mul (Float64.div (Float64.of_int s) (Float64.of_int t))
                 Float64.lit_100).
Proof.
  intros Hs Ht.
  pose proof (Zdigits2_le t 53 ltac:(lia) ltac:(lia) ltac:(lia)) as Hdt.
  pose proof (Zdigits2_le s 53 ltac:(lia) ltac:(lia) ltac:(lia)) as Hds.
  destruct (Zdigits2_bounds t ltac:(lia)) as [Hdt0 [Ht1 Ht2]].
  destruct (Zdigits2_bounds s ltac:(lia)) as [Hds0 [Hs1 Hs2]].
  pose proof (Zdigits2_mono s t ltac:(lia)) as Hmono.
  pose proof (norm_m_range t ltac:(lia) ltac:(lia)) as Hnt.
  pose proof (norm_m_range s ltac:(lia) ltac:(lia)) as Hns.
  rewrite (of_int_pos t), (of_int_pos s) by lia.
  destruct (div_finite (Z.to_pos (norm_m s)) (Z.to_pos (norm_m t))
              (Zdigits2 s - 53) (Zdigits2 t - 53))
    as [m' [Heq Hm']]; rewrite ?Z2Pos.id; try lia.
  rewrite Heq. rewrite !Z2Pos.id by lia.
  set (e' := if norm_m t <=? norm_m s
             then Zdigits2 s - 53 - (Zdigits2 t - 53) - 52
             else Zdigits2 s - 53 - (Zdigits2 t - 53) - 53).
  assert (He' : -105 <= e' <= -53).
  { subst e'. destruct (Z.leb_spec (norm_m t) (norm_m s)) as [Hle | Hgt]; [| lia].
    split; [lia |].
    destruct (Z.eq_dec (Zdigits2 s) (Zdigits2 t)) as [E | E]; [| lia].
    exfalso. unfold norm_m in Hle. rewrite E in Hle.
    assert (0 < 2 ^ (53 - Zdigits2 t)) by (apply Z.pow_pos_nonneg; lia).
    nia. }
  clearbody e'.
  rewrite lit_100_eq.
  rewrite mul_finite;
    [| exact Hm' | rewrite Z2Pos.id by lia; cbn; lia | lia].
  cbv zeta. rewrite Z2Pos.id by lia.
  set (M := Zpos m' * (25 * 2 ^ 48)).
  assert (HM : 0 < M) by (subst M; lia).
  destruct (Zdigits2_bounds M HM) as [HdM0 [HM1 HM2]].
  assert (HdM : 105 <= Zdigits2 M <= 106).
  { assert (2 ^ 104 < M < 2 ^ 106).
    { subst M. change (2 ^ 104) with (2 ^ 52 * 2 ^ 52).
      change (2 ^ 106) with (2 ^ 53 * 2 ^ 53). cbn in Hm' |- *. nia. }
    split.
    - destruct (Z.le_gt_cases 105 (Zdigits2 M)) as [H' | H']; [exact H' |].
      assert (2 ^ Zdigits2 M <= 2 ^ 104) by (apply Z.pow_le_mono_r; lia). lia.
    - destruct (Z.le_gt_cases (Zdigits2 M) 106) as [H' | H']; [exact H' |].
      assert (2 ^ 106 <= 2 ^ (Zdigits2 M - 1)) by (apply Z.pow_le_mono_r; lia).
      lia. }
  replace (e' + -46 + (Zdigits2 M - 53))
    with ((e' - 46) + (Zdigits2 M - 53)) by lia.
  apply (renorm_at_most_100 (-200) M (Zdigits2 M - 53) (- e') (e' - 46)).
  - lia.
  - replace (52 + (Zdigits2 M - 53)) with (Zdigits2 M - 1) by lia.
    replace (53 + (Zdigits2 M - 53)) with (Zdigits2 M) by lia. lia.
  - subst M. assert (2 ^ 53 <= 2 ^ (- e')) by (apply Z.pow_le_mono_r; lia).
    cbn in Hm'. nia.
  - lia.
  - lia.
Qed.

(** [100 - x] for [x] at most [100]. *)
Lemma sub_100_at_most_100 (x : spec_float) :
  at_most_100 (-200) x -> at_most_100 (-300) (Float64.sub Float64.lit_100 x).
Proof.
  destruct x as [[] | | | [] m e]; cbn [at_most_100]; try tauto.
  - intros _. cbn. lia.
  - intros (Hm & Hlo & He).
    rewrite lit_100_eq. unfold Float64.sub, SFsub. cbn [cond_Zopp].
    replace (Z.min (-46) e) with e by lia.
    unfold shl_align at 2. rewrite Z.sub_diag. cbn [fst].
    set (j := -46 - e).
    assert (Hj : 0 <= j) by lia.
    assert (Hx : Zpos (shl_align (Z.to_pos (25 * 2 ^ 48)) (-46) e).1
                 = 25 * 2 ^ 48 * 2 ^ j).
    { unfold shl_align. destruct (e - -46) as [| d | d] eqn:Hd; try lia.
      - replace j with 0 by lia. cbn [fst]. rewrite Z2Pos.id by lia. lia.
      - cbn [fst]. rewrite iter_xO, Z2Pos.id by lia. f_equal. f_equal. lia. }
    rewrite Hx.
    assert (Hp : 0 < 2 ^ j) by (apply Z.pow_pos_nonneg; lia).
    assert (Hd : 0 <= 25 * 2 ^ 48 * 2 ^ j - Zpos m < 25 * 2 ^ 48 * 2 ^ j).
    { split; [| lia]. destruct He as [He | [He Hle]].
      - assert (2 <= 2 ^ j).
        { change 2 with (2 ^ 1) at 1. apply Z.pow_le_mono_r; lia. }
        cbn in Hm |- *. nia.
      - replace j with 0 by lia. lia. }
    destruct (25 * 2 ^ 48 * 2 ^ j - Zpos m) as [| p | p] eqn:Hdp; try lia.
    + cbn. exact I.
    + unfold binary_normalize, Float64.prec, Float64.emax.
      destruct (Zdigits2_bounds (Zpos p) ltac:(lia)) as [Hd0 [Hb1 Hb2]].
      assert (Hdd : Zdigits2 (Zpos p) <= 53 + j).
      { destruct (Z.le_gt_cases (Zdigits2 (Zpos p)) (53 + j)) as [H' | H'];
          [exact H' |].
        assert (2 ^ (53 + j) <= 2 ^ (Zdigits2 (Zpos p) - 1))
          by (apply Z.pow_le_mono_r; lia).
        rewrite Z.pow_add_r in H by lia. cbn in Hd |- *. nia. }
      rewrite binary_round_pos by lia.
      destruct (Z.ltb_spec (Zdigits2 (Zpos p)) 53) as [Hlt | Hge].
      * cbn [at_most_100].
        assert (0 < 2 ^ (53 - Zdigits2 (Zpos p))) by (apply Z.pow_pos_nonneg; lia).
        rewrite Z2Pos.id by lia.
        split; [| split; [lia | left; lia]].
        split.
        -- replace 52 with ((Zdigits2 (Zpos p) - 1) + (53 - Zdigits2 (Zpos p))) by lia.
           rewrite Z.pow_add_r by lia. apply Z.mul_le_mono_nonneg_r; lia.
        -- replace 53 with (Zdigits2 (Zpos p) + (53 - Zdigits2 (Zpos p))) at 2 by lia.
           rewrite Z.pow_add_r by lia. apply Z.mul_lt_mono_pos_r; lia.
      * apply (renorm_at_most_100 (-300) (Zpos p) (Zdigits2 (Zpos p) - 53) j e).
        -- lia.
        -- replace (52 + (Zdigits2 (Zpos p) - 53)) with (Zdigits2 (Zpos p) - 1) by lia.
           replace (53 + (Zdigits2 (Zpos p) - 53)) with (Zdigits2 (Zpos p)) by lia.
           lia.
        -- lia.
        -- lia.
        -- lia.
Qed.

(** X11. The rates are percentages: with fewer than [2^53] requests
    recorded, of which the successes are a part, the success rate and the
    error rate of the snapshot are numbers between 0 and 100, both bounds
    included. *)
Theorem handleMetrics_rates_bounded (now : Time) (w : World) :
  0 <= SuccessfulRequests (metrics w) <= TotalRequests (metrics w) ->
  TotalRequests (metrics w) < 2 ^ 53 ->
  let r := (handleMetrics now w).1 in
  Float64.geb (SuccessRate r) Float64.lit_0 = true /\
  Float64.geb Float64.lit_100 (SuccessRate r) = true /\
  Float64.geb (ErrorRate r) Float64.lit_0 = true /\
  Float64.geb Float64.lit_100 (ErrorRate r) = true.
Proof.
  intros HS HT r.
  pose proof (handleMetrics_derived now w) as Hd. fold r in Hd.
  unfold derived, view in Hd.
  injection Hd as _ _ _ _ Hsr Her _ _ _ _.
  rewrite Hsr, Her.
  destruct (Z.ltb_spec 0 (TotalRequests (metrics w))) as [Hpos | Hle];
    [| repeat split].
  set (s := SuccessfulRequests (metrics w)) in *.
  set (t := TotalRequests (metrics w)) in *.
  assert (Hsr' : at_most_100 (-200)
            (Float64.mul (Float64.div (Float64.of_int s) (Float64.of_int t))
                         Float64.lit_100)).
  { destruct (Z.eq_dec s 0) as [-> | Hs0].
    - rewrite of_int_0.
      pose proof (Zdigits2_le t 53 ltac:(lia) ltac:(lia) ltac:(lia)).
      rewrite (of_int_pos t) by lia. cbn. exact I.
    - destruct (Z.eq_dec s t) as [-> | Hst].
      + rewrite of_int_div_self by lia. vm_compute.
        split; [split; [discriminate | reflexivity] |].
        split; [discriminate | right; split; [reflexivity | discriminate]].
      + apply success_rate_at_most_100; lia. }
  pose proof (sub_100_at_most_100 _ Hsr') as Her'.
  destruct (at_most_100_leb _ _ Hsr') as [H1 H2].
  destruct (at_most_100_leb _ _ Her') as [H3 H4].
  repeat split; assumption.
Qed.

Lemma handleMetrics_rates_bounded_witness :
  Float64.geb (SuccessRate (handleMetrics 1 example_world).1) Float64.lit_0
    = true /\
  Float64.geb Float64.lit_100 (SuccessRate (handleMetrics 1 example_world).1)
    = true /\
  Float64.geb (ErrorRate (handleMetrics 1 example_world).1) Float64.lit_0
    = true /\
  Float64.geb Float64.lit_100 (ErrorRate (handleMetrics 1 example_world).1)
    = true.
Proof.
  apply (handleMetrics_rates_bounded 1 example_world).
  - vm_compute. split; discriminate.
  - vm_compute. reflexivity.
Defined.

(** ** Configuration *)

(** X12. [getFlakyServiceURL] never returns the empty string: it returns
    the value of [FLAKY_SERVICE_URL] when the variable is set to a non-empty
    string, and the default address when it is not set or set to the empty
    string, which it cannot tell apart. No other variable matters. *)
Theorem getFlakyServiceURL_default (env : gmap string string) :
  getFlakyServiceURL env <> EmptyString /\
  (env !! "FLAKY_SERVICE_URL"%string = None ->
   getFlakyServiceURL env = "http://flaky-service:8081"%string) /\
  (env !! "FLAKY_SERVICE_URL"%string = Some EmptyString ->
   getFlakyServiceURL env = "http://flaky-service:8081"%string) /\
  (forall url, env !! "FLAKY_SERVICE_URL"%string = Some url ->
   url <> EmptyString -> getFlakyServiceURL env = url) /\
  (forall k v, k <> "FLAKY_SERVICE_URL"%string ->
   getFlakyServiceURL (<[k := v]> env) = getFlakyServiceURL env).
Proof.
  unfold getFlakyServiceURL, Getenv. split; [| split; [| split; [| split]]].
  - destruct (env !! "FLAKY_SERVICE_URL"%string) as [url |];
      cbn [default from_option id]; [| discriminate].
    destruct (String.eqb_spec url EmptyString) as [-> | Hne]; cbn [negb];
      [discriminate | exact Hne].
  - intros ->. reflexivity.
  - intros ->. reflexivity.
  - intros url -> Hne. cbn [default from_option id].
    destruct (String.eqb_spec url EmptyString) as [-> | _]; [congruence |].
    reflexivity.
  - intros k v Hk. rewrite lookup_insert_ne by exact Hk. reflexivity.
Qed.

(** ** The [/circuit-state] endpoint *)

Lemma currentState_due (b : gobreaker.CircuitBreaker) (now : Time) :
  due b now = true ->
  gobreaker.counts (gobreaker.currentState b now).1 = gobreaker.zeroCounts /\
  gobreaker.generation (gobreaker.currentState b now).1
    = GoInt.wrapu64 (gobreaker.generation b + 1) /\
  gobreaker.state (gobreaker.currentState b now).1
    = match gobreaker.state b with
      | gobreaker.StateOpen => gobreaker.StateHalfOpen
      | s => s
      end.
Proof.
  unfold due, gobreaker.currentState. intros Hd.
  destruct (gobreaker.state b) eqn:Hs; try discriminate; rewrite Hd; cbn [fst].
  - unfold gobreaker.toNewGeneration. cbn. rewrite Hs. repeat split.
  - unfold gobreaker.setState. rewrite Hs. cbn. repeat split.
Qed.

(** X13. Asking for the circuit state is not a plain read. The handler of
    [/circuit-state] leaves the metrics, the store and the count of calls
    alone and reports what [/metrics] reports for the breaker at the same
    clock reading; the state it reports is the breaker's state after the
    call, the counts are those from before it. When no timer of the breaker
    is due the breaker is unchanged; when one is due the call itself starts
    a new generation (OPEN becomes HALF_OPEN, CLOSED opens a new window) and
    the breaker's counts are zero afterwards, whatever counts the body
    shows. *)
Theorem handleCircuitState_reads (now : Time) (w : World) :
  let r := (handleCircuitState now w).1 in
  let w' := (handleCircuitState now w).2 in
  heap w' = heap w /\ metrics w' = metrics w /\ calls w' = calls w /\
  State r = gobreaker.state (cb w') /\
  Counts r = gobreaker.counts (cb w) /\
  State r = CircuitState (handleMetrics now w).1 /\
  Counts r = CircuitCounts (handleMetrics now w).1 /\
  cb w' = cb (handleMetrics now w).2 /\
  (due (cb w) now = false -> cb w' = cb w) /\
  (due (cb w) now = true ->
   gobreaker.counts (cb w') = gobreaker.zeroCounts /\
   gobreaker.generation (cb w')
     = GoInt.wrapu64 (gobreaker.generation (cb w) + 1) /\
   State r = match gobreaker.state (cb w) with
             | gobreaker.StateOpen => gobreaker.StateHalfOpen
             | s => s
             end).
Proof.
  cbv zeta. rewrite handleCircuitState_unfold, handleMetrics_unfold.
  cbv zeta.
  destruct (view _ _) as [[[[[[[[[tr sc] fc] ff] sr] er] avg] p50] p95] p99].
  cbn [fst snd heap metrics calls cb State Counts CircuitState CircuitCounts].
  unfold gobreaker.CircuitBreaker_State, gobreaker.CircuitBreaker_Counts.
  pose proof (currentState_state (cb w) now) as Hc.
  destruct (gobreaker.currentState (cb w) now) as [b' [st g]] eqn:Hcs.
  cbn [fst snd] in *. injection Hc as -> ->.
  do 8 (split; [reflexivity |]). split.
  - intros Hd. rewrite (currentState_not_due _ _ Hd) in Hcs. congruence.
  - intros Hd. destruct (currentState_due _ _ Hd) as (H1 & H2 & H3).
    rewrite Hcs in H1, H2, H3. cbn [fst] in *. repeat split; assumption.
Qed.

(** ** Recovery *)

(** The first request after the timeout of an open breaker is let through
    as a probe. *)
Lemma Execute_probe (b : gobreaker.CircuitBreaker) (get : GetResult)
  (tb ta : Time) (sent : Z) (e : Time) :
  configured b -> gobreaker.state b = gobreaker.StateOpen ->
  gobreaker.expiry b = Some e -> e < tb ->
  gobreaker.Execute b (callPaymentService get) tb ta sent =
  ((callPaymentService get sent).1,
   (let b1 := gobreaker.setState b gobreaker.StateHalfOpen tb in
    if gobreaker.isSuccessful (callPaymentService get sent).1.2
    then gobreaker.with_counts b1 (gobreaker.mkCounts 1 1 0 1 0)
    else gobreaker.setState
           (gobreaker.with_counts b1 (gobreaker.mkCounts 1 0 0 0 0))
           gobreaker.StateOpen ta),
   sent + 1).
Proof.
  intros (Hmax & _) Hs He Hlt.
  destruct b as [mr iv to rt st gen c ex nt]. cbn in Hmax, Hs, He. subst mr st ex.
  unfold gobreaker.Execute, gobreaker.beforeRequest, gobreaker.currentState.
  cbn [gobreaker.state gobreaker.expiry gobreaker.Before].
  replace (e <? tb) with true by (symmetry; apply Z.ltb_lt; exact Hlt).
  cbn [gobreaker.setState gobreaker.state gobreaker.State_eqb fst snd
       gobreaker.toNewGeneration gobreaker.generation gobreaker.counts
       gobreaker.maxRequests gobreaker.interval gobreaker.timeout
       gobreaker.readyToTrip gobreaker.notified gobreaker.expiry
       gobreaker.Counts_clear gobreaker.zeroCounts gobreaker.Requests
       gobreaker.with_counts gobreaker.Counts_onRequest
       gobreaker.TotalSuccesses gobreaker.TotalFailures
       gobreaker.ConsecutiveSuccesses gobreaker.ConsecutiveFailures].
  change (2 <=? 0) with false. cbv iota.
  rewrite <- (callPaymentService_sent_eq get sent).
  destruct (callPaymentService get sent) as [[result err] s'].
  cbn [fst snd].
  unfold gobreaker.afterRequest, gobreaker.currentState.
  cbn [gobreaker.state gobreaker.generation fst snd].
  rewrite Z.eqb_refl. cbn [negb].
  destruct err as [err |]; cbn [gobreaker.isSuccessful];
    cbn [gobreaker.onSuccess gobreaker.onFailure gobreaker.with_counts
         gobreaker.counts gobreaker.Counts_onSuccess gobreaker.maxRequests
         gobreaker.Requests gobreaker.TotalSuccesses gobreaker.TotalFailures
         gobreaker.ConsecutiveSuccesses gobreaker.ConsecutiveFailures
         gobreaker.state gobreaker.generation gobreaker.expiry
         gobreaker.notified gobreaker.interval gobreaker.timeout
         gobreaker.readyToTrip];
    reflexivity.
Qed.

(** The second probe in a row. *)
Lemma Execute_second_probe (b : gobreaker.CircuitBreaker) (get : GetResult)
  (tb ta : Time) (sent : Z) :
  configured b -> gobreaker.state b = gobreaker.StateHalfOpen ->
  gobreaker.counts b = gobreaker.mkCounts 1 1 0 1 0 ->
  gobreaker.Execute b (callPaymentService get) tb ta sent =
  ((callPaymentService get sent).1,
   (if gobreaker.isSuccessful (callPaymentService get sent).1.2
    then gobreaker.setState
           (gobreaker.with_counts b (gobreaker.mkCounts 2 2 0 2 0))
           gobreaker.StateClosed ta
    else gobreaker.setState
           (gobreaker.with_counts b (gobreaker.mkCounts 2 1 0 1 0))
           gobreaker.StateOpen ta),
   sent + 1).
Proof.
  intros (Hmax & _) Hs Hc.
  destruct b as [mr iv to rt st gen c ex nt]. cbn in Hmax, Hs, Hc. subst mr st c.
  unfold gobreaker.Execute, gobreaker.beforeRequest, gobreaker.currentState.
  cbn [gobreaker.state gobreaker.generation gobreaker.counts fst snd
       gobreaker.maxRequests gobreaker.Requests].
  change (2 <=? 1) with false. cbv iota.
  rewrite <- (callPaymentService_sent_eq get sent).
  destruct (callPaymentService get sent) as [[result err] s'].
  cbn [fst snd].
  unfold gobreaker.afterRequest, gobreaker.currentState.
  cbn [gobreaker.state gobreaker.generation gobreaker.with_counts fst snd].
  rewrite Z.eqb_refl. cbn [negb].
  destruct err as [err |]; cbn [gobreaker.isSuccessful];
    cbn [gobreaker.onSuccess gobreaker.onFailure gobreaker.with_counts
         gobreaker.counts gobreaker.Counts_onSuccess gobreaker.Counts_onRequest
         gobreaker.maxRequests
         gobreaker.Requests gobreaker.TotalSuccesses gobreaker.TotalFailures
         gobreaker.ConsecutiveSuccesses gobreaker.ConsecutiveFailures
         gobreaker.state gobreaker.generation gobreaker.expiry
         gobreaker.notified gobreaker.interval gobreaker.timeout
         gobreaker.readyToTrip];
    reflexivity.
Qed.

Lemma setState_state (b : gobreaker.CircuitBreaker) (st : gobreaker.State)
  (now : Time) : gobreaker.state (gobreaker.setState b st now) = st.
Proof.
  unfold gobreaker.setState.
  destruct (gobreaker.State_eqb (gobreaker.state b) st) eqn:E; [| reflexivity].
  destruct (gobreaker.state b), st; try discriminate; reflexivity.
Qed.

Lemma with_counts_state (b : gobreaker.CircuitBreaker) (c : gobreaker.Counts) :
  gobreaker.state (gobreaker.with_counts b c) = gobreaker.state b.
Proof. reflexivity. Qed.

Lemma configured_setState (b : gobreaker.CircuitBreaker) (st : gobreaker.State)
  (now : Time) : configured b -> configured (gobreaker.setState b st now).
Proof.
  unfold configured, gobreaker.setState.
  destruct (gobreaker.State_eqb (gobreaker.state b) st); [tauto |].
  cbn. tauto.
Qed.

(** What [State()] leaves of a breaker that has just closed. *)
Lemma State_closed (b : gobreaker.CircuitBreaker) (now : Time) :
  gobreaker.state b = gobreaker.StateClosed ->
  gobreaker.counts b = gobreaker.zeroCounts ->
  let b' := (gobreaker.CircuitBreaker_State b now).1 in
  gobreaker.state b' = gobreaker.StateClosed /\
  gobreaker.counts b' = gobreaker.zeroCounts /\
  gobreaker.notified b' = gobreaker.notified b.
Proof.
  intros Hs Hc. cbv zeta.
  unfold gobreaker.CircuitBreaker_State, gobreaker.currentState. rewrite Hs.
  destruct (_ && _); cbn [fst]; [| tauto].
  unfold gobreaker.toNewGeneration. cbn. rewrite Hs. repeat split.
Qed.

Lemma callPaymentService_ok (status : string) (sent : Z) :
  (callPaymentService (GetResponse StatusOK status) sent).1
  = (Some (GetResponse StatusOK status), None).
Proof. reflexivity. Qed.

(** X14. Recovery takes two probes. Once the timeout of an open breaker has
    elapsed, the next checkout is sent to the payment service as a probe and
    the breaker turns HALF_OPEN. One successful probe is confirmed to its
    client and leaves the breaker HALF_OPEN; only the second successful
    probe in a row ([MaxRequests] is 2) closes it, with zero counts. The two
    state changes are notified in that order. *)
Theorem half_open_recovery (w : World) (req1 req2 : CheckoutRequest)
  (status1 status2 : string) (clk1 clk2 : Clock) (e : Time) :
  configured (cb w) ->
  gobreaker.state (cb w) = gobreaker.StateOpen ->
  gobreaker.expiry (cb w) = Some e ->
  e < t_before clk1 ->
  let p1 := handleCheckout (Some req1) (GetResponse StatusOK status1) clk1 w in
  let p2 := handleCheckout (Some req2) (GetResponse StatusOK status2) clk2 p1.2 in
  p1.1 = Confirmed (Item req1) (Price req1) (elapsed clk1) /\
  calls p1.2 = calls w + 1 /\
  gobreaker.state (cb p1.2) = gobreaker.StateHalfOpen /\
  gobreaker.notified (cb p1.2)
    = gobreaker.notified (cb w)
      ++ [(gobreaker.StateOpen, gobreaker.StateHalfOpen)] /\
  p2.1 = Confirmed (Item req2) (Price req2) (elapsed clk2) /\
  calls p2.2 = calls w + 2 /\
  gobreaker.state (cb p2.2) = gobreaker.StateClosed /\
  gobreaker.counts (cb p2.2) = gobreaker.zeroCounts /\
  gobreaker.notified (cb p2.2)
    = gobreaker.notified (cb w)
      ++ [(gobreaker.StateOpen, gobreaker.StateHalfOpen);
          (gobreaker.StateHalfOpen, gobreaker.StateClosed)].
Proof.
  intros Hc Hs He Hlt p1 p2.
  assert (H1 : p1 =
    (Confirmed (Item req1) (Price req1) (elapsed clk1),
     let b := gobreaker.with_counts
                (gobreaker.setState (cb w) gobreaker.StateHalfOpen (t_before clk1))
                (gobreaker.mkCounts 1 1 0 1 0) in
     let hm := updateMetrics None (elapsed clk1) gobreaker.StateHalfOpen
                 (heap w) (metrics w) in
     mkWorld hm.1 hm.2 b (calls w + 1))).
  { subst p1. rewrite handleCheckout_unfold. cbv zeta.
    rewrite (Execute_probe (cb w) _ _ _ _ e Hc Hs He Hlt).
    rewrite callPaymentService_ok. cbn [fst snd gobreaker.isSuccessful].
    rewrite State_not_due.
    2:{ unfold due. rewrite with_counts_state, setState_state. reflexivity. }
    cbn [fst snd]. rewrite with_counts_state, setState_state. reflexivity. }
  assert (Hb1 : gobreaker.state (cb p1.2) = gobreaker.StateHalfOpen /\
                gobreaker.counts (cb p1.2) = gobreaker.mkCounts 1 1 0 1 0 /\
                configured (cb p1.2) /\
                gobreaker.notified (cb p1.2)
                  = gobreaker.notified (cb w)
                    ++ [(gobreaker.StateOpen, gobreaker.StateHalfOpen)]).
  { rewrite H1. cbv zeta. cbn [snd cb].
    unfold gobreaker.setState, configured in *. rewrite Hs. cbn. tauto. }
  destruct Hb1 as (Hs1 & Hc1 & Hcf1 & Hn1).
  assert (H2 : p2.1 = Confirmed (Item req2) (Price req2) (elapsed clk2) /\
               calls p2.2 = calls p1.2 + 1 /\
               cb p2.2 =
                 (gobreaker.CircuitBreaker_State
                    (gobreaker.setState
                       (gobreaker.with_counts (cb p1.2) (gobreaker.mkCounts 2 2 0 2 0))
                       gobreaker.StateClosed (t_after clk2))
                    (t_state clk2)).1).
  { subst p2. rewrite handleCheckout_unfold. cbv zeta.
    rewrite (Execute_second_probe (cb p1.2) _ _ _ _ Hcf1 Hs1 Hc1).
    rewrite callPaymentService_ok. cbn [fst snd gobreaker.isSuccessful calls cb].
    repeat split. }
  destruct H2 as (Hr2 & Hcalls2 & Hcb2).
  set (bc := gobreaker.setState
               (gobreaker.with_counts (cb p1.2) (gobreaker.mkCounts 2 2 0 2 0))
               gobreaker.StateClosed (t_after clk2)) in *.
  assert (Hbc : gobreaker.state bc = gobreaker.StateClosed /\
                gobreaker.counts bc = gobreaker.zeroCounts /\
                gobreaker.notified bc
                  = gobreaker.notified (cb p1.2)
                    ++ [(gobreaker.StateHalfOpen, gobreaker.StateClosed)]).
  { subst bc. unfold gobreaker.setState.
    cbn [gobreaker.with_counts gobreaker.state]. rewrite Hs1. cbn. tauto. }
  destruct Hbc as (Hsc & Hcc & Hnc).
  destruct (State_closed bc (t_state clk2) Hsc Hcc) as (F1 & F2 & F3).
  cbv zeta in F1, F2, F3. rewrite <- Hcb2 in F1, F2, F3.
  split; [rewrite H1; reflexivity |].
  split; [rewrite H1; reflexivity |].
  split; [exact Hs1 |]. split; [exact Hn1 |]. split; [exact Hr2 |].
  split; [rewrite Hcalls2, H1; cbn [snd calls]; lia |].
  split; [exact F1 |]. split; [exact F2 |].
  rewrite F3, Hnc, Hn1, <- app_assoc. reflexivity.
Qed.

Lemma half_open_recovery_witness :
  gobreaker.state
    (cb (handleCheckout (Some a_request) healthy (clock_at (15 * Second))
           (handleCheckout (Some a_request) healthy (clock_at (14 * Second))
              tripped_world).2).2)
  = gobreaker.StateClosed.
Proof.
  assert (Hc : configured (cb tripped_world))
    by (repeat split; reflexivity).
  assert (Ht : tripped_until < t_before (clock_at (14 * Second)))
    by (vm_compute; reflexivity).
  destruct (half_open_recovery tripped_world a_request a_request
              "200 OK" "200 OK" (clock_at (14 * Second))
              (clock_at (15 * Second)) tripped_until Hc eq_refl eq_refl Ht)
    as (_ & _ & _ & _ & _ & _ & H & _).
  exact H.
Defined.

(** X15. A failed probe reopens the breaker. Once the timeout of an open
    breaker has elapsed, a checkout whose call to the payment service fails
    is answered 502 with the downstream error, the breaker is OPEN again with
    a fresh timeout of 10 seconds counted from the end of the call, the two
    state changes are notified, and the failure is counted among the
    circuit-open rejections although the payment service was called. *)
Theorem failed_probe_reopens (w : World) (req : CheckoutRequest)
  (get : GetResult) (clk : Clock) (e : Time) (err : error) :
  configured (cb w) ->
  gobreaker.state (cb w) = gobreaker.StateOpen ->
  gobreaker.expiry (cb w) = Some e ->
  e < t_before clk ->
  (callPaymentService get (calls w)).1.2 = Some err ->
  t_state clk <= t_after clk + 10 * Second ->
  let p := handleCheckout (Some req) get clk w in
  p.1 = PaymentFailed err (elapsed clk) /\
  statusCode p.1 = StatusBadGateway /\
  calls p.2 = calls w + 1 /\
  gobreaker.state (cb p.2) = gobreaker.StateOpen /\
  gobreaker.expiry (cb p.2) = Some (t_after clk + 10 * Second) /\
  gobreaker.counts (cb p.2) = gobreaker.zeroCounts /\
  gobreaker.notified (cb p.2)
    = gobreaker.notified (cb w)
      ++ [(gobreaker.StateOpen, gobreaker.StateHalfOpen);
          (gobreaker.StateHalfOpen, gobreaker.StateOpen)] /\
  CircuitOpenRejects (metrics p.2)
    = GoInt.wrap64 (CircuitOpenRejects (metrics w) + 1).
Proof.
  intros Hc Hs He Hlt Herr Hst p. subst p.
  rewrite handleCheckout_unfold. cbv zeta.
  rewrite (Execute_probe (cb w) _ _ _ _ e Hc Hs He Hlt).
  cbn [fst snd]. rewrite Herr. cbn [gobreaker.isSuccessful].
  destruct (callPaymentService_error _ _ _ Herr) as (_ & _ & ->).
  set (b1 := gobreaker.with_counts
               (gobreaker.setState (cb w) gobreaker.StateHalfOpen (t_before clk))
               (gobreaker.mkCounts 1 0 0 0 0)).
  assert (Hb1 : gobreaker.state b1 = gobreaker.StateHalfOpen /\
                gobreaker.timeout b1 = 10 * Second /\
                gobreaker.notified b1
                  = gobreaker.notified (cb w)
                    ++ [(gobreaker.StateOpen, gobreaker.StateHalfOpen)]).
  { subst b1. destruct Hc as (_ & _ & Hto & _).
    unfold gobreaker.setState. rewrite Hs. cbn. rewrite ?Hs. tauto. }
  destruct Hb1 as (Hs1 & Hto1 & Hn1). clearbody b1.
  set (b2 := gobreaker.setState b1 gobreaker.StateOpen (t_after clk)).
  assert (Hb2 : gobreaker.state b2 = gobreaker.StateOpen /\
                gobreaker.expiry b2 = Some (t_after clk + 10 * Second) /\
                gobreaker.counts b2 = gobreaker.zeroCounts /\
                gobreaker.notified b2
                  = gobreaker.notified b1
                    ++ [(gobreaker.StateHalfOpen, gobreaker.StateOpen)]).
  { subst b2. unfold gobreaker.setState. rewrite Hs1. cbn. rewrite Hto1. tauto. }
  destruct Hb2 as (Hs2 & He2 & Hc2 & Hn2). clearbody b2.
  rewrite (State_not_due b2 (t_state clk)
             (due_open b2 _ _ Hs2 He2 Hst)).
  cbn [fst snd cb calls metrics]. rewrite Hs2.
  destruct (updateMetrics_fields (Some err) (elapsed clk) gobreaker.StateOpen
              (heap w) (metrics w)) as (_ & _ & _ & HR & _).
  cbv zeta in HR.
  split; [reflexivity |]. split; [reflexivity |]. split; [reflexivity |].
  split; [reflexivity |]. split; [exact He2 |]. split; [exact Hc2 |].
  split; [rewrite Hn2, Hn1, <- app_assoc; reflexivity | exact HR].
Qed.

Lemma failed_probe_reopens_witness :
  gobreaker.expiry
    (cb (handleCheckout (Some a_request) failing (clock_at (14 * Second))
           tripped_world).2)
  = Some (t_after (clock_at (14 * Second)) + 10 * Second).
Proof.
  assert (Hc : configured (cb tripped_world))
    by (repeat split; reflexivity).
  assert (Ht : tripped_until < t_before (clock_at (14 * Second)))
    by (vm_compute; reflexivity).
  assert (Hs : t_state (clock_at (14 * Second))
               <= t_after (clock_at (14 * Second)) + 10 * Second)
    by (vm_compute; discriminate).
  destruct (failed_probe_reopens tripped_world a_request failing
              (clock_at (14 * Second)) tripped_until
              (ServiceError 500 "500 Internal Server Error")
              Hc eq_refl eq_refl Ht eq_refl Hs)
    as (_ & _ & _ & _ & H & _).
  exact H.
Defined.

(** A call through a closed breaker whose window is open at both clock
    readings. *)
Lemma Execute_closed_call (b : gobreaker.CircuitBreaker) (get : GetResult)
  (tb ta : Time) (sent : Z) :
  gobreaker.state b = gobreaker.StateClosed ->
  due b tb = false -> due b ta = false ->
  gobreaker.Execute b (callPaymentService get) tb ta sent =
  ((callPaymentService get sent).1,
   (let ok := gobreaker.isSuccessful (callPaymentService get sent).1.2 in
    let b1 := gobreaker.with_counts b (counts_after ok (gobreaker.counts b)) in
    if ok then b1
    else if gobreaker.readyToTrip b (gobreaker.counts b1)
         then gobreaker.setState b1 gobreaker.StateOpen ta else b1),
   sent + 1).
Proof.
  intros Hs Hb Ha. unfold gobreaker.Execute, gobreaker.beforeRequest.
  rewrite currentState_not_due by exact Hb. rewrite Hs.
  rewrite <- (callPaymentService_sent_eq get sent).
  destruct (callPaymentService get sent) as [[result err] s']. cbn [fst snd].
  unfold gobreaker.afterRequest.
  rewrite currentState_not_due by (rewrite due_with_counts; exact Ha).
  cbn [gobreaker.generation gobreaker.with_counts gobreaker.state].
  rewrite Z.eqb_refl. cbn [negb]. rewrite Hs.
  destruct err; reflexivity.
Qed.

(** X16. What [fast_fails] counts, first part. The failure that trips the
    breaker is counted as a circuit-open rejection: a checkout admitted by
    the closed breaker, sent to the payment service and failed, whose
    failure makes the trip condition hold, is answered 502, and
    [CircuitOpenRejects] grows by one with [FailedRequests], because the
    breaker reports OPEN by the time the metrics are updated. *)
Theorem tripping_failure_counted_as_reject (w : World) (req : CheckoutRequest)
  (get : GetResult) (clk : Clock) (x : Time) (err : error) :
  configured (cb w) ->
  gobreaker.state (cb w) = gobreaker.StateClosed ->
  gobreaker.expiry (cb w) = Some x ->
  t_before clk <= x -> t_after clk <= x ->
  t_state clk <= t_after clk + 10 * Second ->
  (callPaymentService get (calls w)).1.2 = Some err ->
  ReadyToTrip (counts_after false (gobreaker.counts (cb w))) = true ->
  let p := handleCheckout (Some req) get clk w in
  p.1 = PaymentFailed err (elapsed clk) /\
  statusCode p.1 = StatusBadGateway /\
  calls p.2 = calls w + 1 /\
  gobreaker.state (cb p.2) = gobreaker.StateOpen /\
  FailedRequests (metrics p.2) = GoInt.wrap64 (FailedRequests (metrics w) + 1) /\
  CircuitOpenRejects (metrics p.2)
    = GoInt.wrap64 (CircuitOpenRejects (metrics w) + 1).
Proof.
  intros Hc Hs He Hb Ha Hst Herr Htrip p. subst p.
  rewrite handleCheckout_unfold. cbv zeta.
  rewrite (Execute_closed_call (cb w) get _ _ _ Hs
             (due_closed _ _ _ Hs He Hb) (due_closed _ _ _ Hs He Ha)).
  cbv zeta. cbn [fst snd]. rewrite Herr. cbn [gobreaker.isSuccessful].
  destruct (callPaymentService_error _ _ _ Herr) as (_ & _ & ->).
  destruct Hc as (_ & _ & Hto & Hrt).
  rewrite Hrt.
  change (gobreaker.counts (gobreaker.with_counts (cb w)
            (counts_after false (gobreaker.counts (cb w)))))
    with (counts_after false (gobreaker.counts (cb w))).
  rewrite Htrip.
  set (b1 := gobreaker.with_counts (cb w) _).
  assert (Hs1 : gobreaker.state b1 <> gobreaker.StateOpen)
    by (subst b1; rewrite with_counts_state, Hs; discriminate).
  destruct (setState_open b1 (t_after clk) Hs1) as [Hs2 He2].
  assert (Hto1 : gobreaker.timeout b1 = 10 * Second) by exact Hto.
  rewrite Hto1 in He2.
  rewrite (State_not_due _ (t_state clk) (due_open _ _ _ Hs2 He2 Hst)).
  cbn [fst snd cb calls metrics]. rewrite Hs2.
  destruct (updateMetrics_fields (Some err) (elapsed clk) gobreaker.StateOpen
              (heap w) (metrics w)) as (_ & _ & HF & HR & _).
  cbv zeta in HF, HR.
  split; [reflexivity |]. split; [reflexivity |]. split; [reflexivity |].
  split; [reflexivity |]. split; [exact HF | exact HR].
Qed.

Lemma tripping_failure_counted_as_reject_witness :
  CircuitOpenRejects
    (metrics (handleCheckout (Some a_request) failing (clock_at (3 * Second))
                two_failures_world).2)
  = GoInt.wrap64 (CircuitOpenRejects (metrics two_failures_world) + 1).
Proof.
  assert (Hc : configured (cb two_failures_world))
    by (repeat split; reflexivity).
  assert (H1 : t_before (clock_at (3 * Second)) <= 20 * Second)
    by (vm_compute; discriminate).
  assert (H2 : t_after (clock_at (3 * Second)) <= 20 * Second)
    by (vm_compute; discriminate).
  assert (H3 : t_state (clock_at (3 * Second))
               <= t_after (clock_at (3 * Second)) + 10 * Second)
    by (vm_compute; discriminate).
  destruct (tripping_failure_counted_as_reject two_failures_world a_request
              failing (clock_at (3 * Second)) (20 * Second)
              (ServiceError 500 "500 Internal Server Error")
              Hc eq_refl eq_refl H1 H2 H3 eq_refl eq_refl)
    as (_ & _ & _ & _ & _ & H).
  exact H.
Defined.

(** X17. What [fast_fails] counts, second part. A rejection at the edge of
    the timeout is not counted: when the breaker is still OPEN as the
    checkout asks for admission and its timeout elapses before the handler
    reads the state for the metrics, the checkout is answered with the 503
    fast fail without a call to the payment service, [FailedRequests] grows
    by one and [CircuitOpenRejects] does not: the handler's own read of the
    state has turned the breaker HALF_OPEN. *)
Theorem edge_rejection_not_counted (w : World) (req : CheckoutRequest)
  (get : GetResult) (clk : Clock) (e : Time) :
  gobreaker.state (cb w) = gobreaker.StateOpen ->
  gobreaker.expiry (cb w) = Some e ->
  t_before clk <= e -> e < t_state clk ->
  let p := handleCheckout (Some req) get clk w in
  p.1 = FastFail (elapsed clk) /\
  statusCode p.1 = StatusServiceUnavailable /\
  calls p.2 = calls w /\
  gobreaker.state (cb p.2) = gobreaker.StateHalfOpen /\
  FailedRequests (metrics p.2) = GoInt.wrap64 (FailedRequests (metrics w) + 1) /\
  CircuitOpenRejects (metrics p.2) = CircuitOpenRejects (metrics w).
Proof.
  intros Hs He Hb Hst p. subst p.
  rewrite (handleCheckout_open w req get clk e Hs He Hb). cbv zeta.
  assert (Hcs : gobreaker.CircuitBreaker_State (cb w) (t_state clk)
                = (gobreaker.setState (cb w) gobreaker.StateHalfOpen (t_state clk),
                   gobreaker.StateHalfOpen)).
  { unfold gobreaker.CircuitBreaker_State, gobreaker.currentState.
    rewrite Hs, He. cbn [gobreaker.Before].
    replace (e <? t_state clk) with true by (symmetry; apply Z.ltb_lt; exact Hst).
    cbn [fst snd]. rewrite setState_state. reflexivity. }
  rewrite Hcs. cbn [fst snd cb calls metrics].
  destruct (updateMetrics_fields (Some ErrOpenState) (elapsed clk)
              gobreaker.StateHalfOpen (heap w) (metrics w))
    as (_ & _ & HF & HR & _).
  cbv zeta in HF, HR.
  split; [reflexivity |]. split; [reflexivity |]. split; [reflexivity |].
  split; [apply setState_state |]. split; [exact HF | exact HR].
Qed.

Lemma edge_rejection_not_counted_witness :
  CircuitOpenRejects
    (metrics (handleCheckout (Some a_request) healthy edge_clock
                tripped_world).2)
  = CircuitOpenRejects (metrics tripped_world).
Proof.
  assert (H1 : t_before edge_clock <= tripped_until)
    by (vm_compute; discriminate).
  assert (H2 : tripped_until < t_state edge_clock)
    by (vm_compute; reflexivity).
  destruct (edge_rejection_not_counted tripped_world a_request healthy
              edge_clock tripped_until eq_refl eq_refl H1 H2)
    as (_ & _ & _ & _ & _ & H).
  exact H.
Defined.

(** X18. Counts do not outlive their window. When the 20 second window of
    the closed breaker has expired, the next checkout opens a new window
    before it is counted: whatever the counts were, a failed call leaves the
    breaker CLOSED with the counts of that one failure, and a window that
    ends 20 seconds after the request was admitted. *)
Theorem window_expiry_resets_counts (w : World) (req : CheckoutRequest)
  (get : GetResult) (clk : Clock) (x : Time) (err : error) :
  configured (cb w) ->
  gobreaker.state (cb w) = gobreaker.StateClosed ->
  gobreaker.expiry (cb w) = Some x ->
  x < t_before clk ->
  t_after clk <= t_before clk + 20 * Second ->
  t_state clk <= t_before clk + 20 * Second ->
  (callPaymentService get (calls w)).1.2 = Some err ->
  let p := handleCheckout (Some req) get clk w in
  p.1 = PaymentFailed err (elapsed clk) /\
  calls p.2 = calls w + 1 /\
  gobreaker.state (cb p.2) = gobreaker.StateClosed /\
  gobreaker.counts (cb p.2) = gobreaker.mkCounts 1 0 1 0 1 /\
  gobreaker.expiry (cb p.2) = Some (t_before clk + 20 * Second) /\
  gobreaker.notified (cb p.2) = gobreaker.notified (cb w).
Proof.
  intros Hc Hs He Hlt Ha Hst Herr p. subst p.
  rewrite handleCheckout_unfold. cbv zeta.
  destruct Hc as (Hmax & Hiv & Hto & Hrt).
  set (b0 := gobreaker.toNewGeneration (cb w) (t_before clk)).
  assert (Hb0 : gobreaker.state b0 = gobreaker.StateClosed /\
                gobreaker.expiry b0 = Some (t_before clk + 20 * Second) /\
                gobreaker.counts b0 = gobreaker.zeroCounts /\
                gobreaker.readyToTrip b0 = ReadyToTrip /\
                gobreaker.notified b0 = gobreaker.notified (cb w)).
  { subst b0. unfold gobreaker.toNewGeneration. cbn. rewrite Hs, Hiv. tauto. }
  destruct Hb0 as (Hs0 & He0 & Hc0 & Hrt0 & Hn0).
  assert (Hx : gobreaker.Execute (cb w) (callPaymentService get)
                 (t_before clk) (t_after clk) (calls w)
               = gobreaker.Execute b0 (callPaymentService get)
                   (t_before clk) (t_after clk) (calls w)).
  { unfold gobreaker.Execute, gobreaker.beforeRequest.
    assert (Hcs : gobreaker.currentState (cb w) (t_before clk)
                  = gobreaker.currentState b0 (t_before clk)).
    { rewrite (currentState_not_due b0) by
        (apply (due_closed _ _ _ Hs0 He0); unfold Second; lia).
      unfold gobreaker.currentState. rewrite Hs, He.
      cbn [gobreaker.IsZero gobreaker.Before negb andb].
      replace (x <? t_before clk) with true
        by (symmetry; apply Z.ltb_lt; exact Hlt).
      reflexivity. }
    rewrite Hcs. reflexivity. }
  rewrite Hx.
  assert (Hd0 : t_before clk <= t_before clk + 20 * Second)
    by (unfold Second; lia).
  rewrite (Execute_closed_call b0 get _ _ _ Hs0
             (due_closed _ _ _ Hs0 He0 Hd0) (due_closed _ _ _ Hs0 He0 Ha)).
  cbv zeta. cbn [fst snd]. rewrite Herr. cbn [gobreaker.isSuccessful].
  destruct (callPaymentService_error _ _ _ Herr) as (_ & _ & ->).
  rewrite Hrt0, Hc0.
  change (gobreaker.counts (gobreaker.with_counts b0
            (counts_after false gobreaker.zeroCounts)))
    with (gobreaker.mkCounts 1 0 1 0 1).
  change (ReadyToTrip (gobreaker.mkCounts 1 0 1 0 1)) with false.
  cbv iota.
  set (b1 := gobreaker.with_counts b0 _).
  assert (Hb1 : gobreaker.state b1 = gobreaker.StateClosed /\
                gobreaker.expiry b1 = Some (t_before clk + 20 * Second) /\
                gobreaker.counts b1 = gobreaker.mkCounts 1 0 1 0 1 /\
                gobreaker.notified b1 = gobreaker.notified (cb w)).
  { subst b1. cbn [gobreaker.with_counts gobreaker.state gobreaker.expiry
                   gobreaker.counts gobreaker.notified].
    repeat split; assumption. }
  destruct Hb1 as (Hs1 & He1 & Hc1 & Hn1). clearbody b1.
  rewrite (State_not_due b1 (t_state clk) (due_closed _ _ _ Hs1 He1 Hst)).
  cbn [fst snd cb calls].
  repeat split; assumption.
Qed.

Lemma window_expiry_resets_counts_witness :
  gobreaker.counts
    (cb (handleCheckout (Some a_request) failing (clock_at (21 * Second))
           two_failures_world).2)
  = gobreaker.mkCounts 1 0 1 0 1.
Proof.
  assert (Hc : configured (cb two_failures_world))
    by (repeat split; reflexivity).
  assert (H1 : 20 * Second < t_before (clock_at (21 * Second)))
    by (vm_compute; reflexivity).
  assert (H2 : t_after (clock_at (21 * Second))
               <= t_before (clock_at (21 * Second)) + 20 * Second)
    by (vm_compute; discriminate).
  assert (H3 : t_state (clock_at (21 * Second))
               <= t_before (clock_at (21 * Second)) + 20 * Second)
    by (vm_compute; discriminate).
  destruct (window_expiry_resets_counts two_failures_world a_request failing
              (clock_at (21 * Second)) (20 * Second)
              (ServiceError 500 "500 Internal Server Error")
              Hc eq_refl eq_refl H1 H2 H3 eq_refl)
    as (_ & _ & _ & H & _).
  exact H.
Defined.

(** ** The unprotected service *)

Lemma Unprotected_updateMetrics_sim (err : option error) (latency : Duration)
  (st : gobreaker.State) (h : gmap loc (list Z)) (m : Metrics) :
  Unprotected.updateMetrics err latency h (without_rejects m) =
  ((updateMetrics err latency st h m).1,
   without_rejects (updateMetrics err latency st h m).2).
Proof.
  unfold Unprotected.updateMetrics, updateMetrics, without_rejects.
  cbn [Unprotected.TotalRequests Unprotected.SuccessfulRequests
       Unprotected.FailedRequests Unprotected.TotalLatency
       Unprotected.LatencyHistory].
  destruct (append h (LatencyHistory m) latency) as [h' hist].
  destruct err; reflexivity.
Qed.

Lemma Unprotected_handleCheckout_unfold (req : CheckoutRequest)
  (get : GetResult) (d : Duration) (w : Unprotected.World) :
  let x := callPaymentService get (Unprotected.calls w) in
  let hm := Unprotected.updateMetrics x.1.2 d (Unprotected.heap w)
              (Unprotected.metrics w) in
  Unprotected.handleCheckout (Some req) get d w =
  (match x.1.2 with
   | Some e => PaymentFailed e d
   | None => Confirmed (Item req) (Price req) d
   end,
   Unprotected.mkWorld hm.1 hm.2 x.2).
Proof.
  cbv zeta. unfold Unprotected.handleCheckout.
  destruct (callPaymentService get (Unprotected.calls w)) as [[resp err] sent].
  cbn [fst snd].
  destruct (Unprotected.updateMetrics err d (Unprotected.heap w)
              (Unprotected.metrics w)) as [h' m'].
  destruct err; reflexivity.
Qed.

(** The two [/metrics] handlers compute the fields they share alike. *)
Lemma Unprotected_handleMetrics_sim (now : Time) (w : World) :
  unprotected_fields (Unprotected.handleMetrics (without_breaker w)).1
    = shared_fields (handleMetrics now w).1 /\
  Unprotected.heap (Unprotected.handleMetrics (without_breaker w)).2
    = heap (handleMetrics now w).2.
Proof.
  unfold Unprotected.handleMetrics, handleMetrics, without_breaker,
    without_rejects.
  cbn [Unprotected.metrics Unprotected.heap Unprotected.calls
       Unprotected.TotalRequests Unprotected.SuccessfulRequests
       Unprotected.FailedRequests Unprotected.TotalLatency
       Unprotected.LatencyHistory].
  destruct (0 <? TotalRequests (metrics w));
    destruct (calculatePercentile (heap w) (LatencyHistory (metrics w))
                Float64.lit_0_50) as [p50 h1];
    destruct (calculatePercentile h1 (LatencyHistory (metrics w))
                Float64.lit_0_95) as [p95 h2];
    destruct (calculatePercentile h2 (LatencyHistory (metrics w))
                Float64.lit_0_99) as [p99 h3];
    destruct (gobreaker.CircuitBreaker_State (cb w) now) as [b st];
    split; reflexivity.
Qed.

(** X19. The breaker is transparent while it admits: a checkout the breaker
    admits gets from the protected service the reply the unprotected service
    gives, one request is sent to the payment service by both, the metrics
    the two services share are updated alike, and a snapshot taken next
    reports the same totals, rates, average and percentiles in both. *)
Theorem handleCheckout_admitted_as_unprotected
  (w : World) (req : CheckoutRequest) (get : GetResult) (clk : Clock)
  (b1 : gobreaker.CircuitBreaker) (gen : Z) :
  gobreaker.beforeRequest (cb w) (t_before clk) = (b1, (gen, None)) ->
  let p := handleCheckout (Some req) get clk w in
  let u := Unprotected.handleCheckout (Some req) get (elapsed clk)
             (without_breaker w) in
  p.1 = u.1 /\ without_breaker p.2 = u.2 /\
  calls p.2 = calls w + 1 /\ Unprotected.calls u.2 = calls w + 1 /\
  (forall now,
     unprotected_fields (Unprotected.handleMetrics u.2).1
     = shared_fields (handleMetrics now p.2).1).
Proof.
  intros Hb p u.
  assert (H : p.1 = u.1 /\ without_breaker p.2 = u.2 /\
              calls p.2 = calls w + 1 /\ Unprotected.calls u.2 = calls w + 1).
  { subst p u.
    rewrite handleCheckout_unfold, Unprotected_handleCheckout_unfold. cbv zeta.
    rewrite (Execute_admitted _ _ _ _ _ _ _ Hb). cbn [fst snd].
    cbn [without_breaker Unprotected.calls Unprotected.heap Unprotected.metrics
         heap metrics calls].
    set (x := callPaymentService get (calls w)).
    set (st := (gobreaker.CircuitBreaker_State _ _).2).
    rewrite (Unprotected_updateMetrics_sim x.1.2 (elapsed clk) st).
    unfold without_breaker. cbn [fst snd heap metrics calls].
    subst x. rewrite callPaymentService_sent_eq.
    repeat split.
    destruct ((callPaymentService get (calls w)).1.2) as [e |] eqn:He;
      [| reflexivity].
    destruct (callPaymentService_error _ _ _ He) as (_ & _ & ->). reflexivity. }
  destruct H as (H1 & H2 & H3 & H4).
  repeat split; try assumption.
  intros now. rewrite <- H2. apply Unprotected_handleMetrics_sim.
Qed.

Lemma handleCheckout_admitted_as_unprotected_witness :
  (handleCheckout (Some a_request) healthy (clock_at (1 * Second))
     (initWorld 0)).1
  = (Unprotected.handleCheckout (Some a_request) healthy
       (elapsed (clock_at (1 * Second))) (without_breaker (initWorld 0))).1.
Proof.
  assert (Hb : gobreaker.beforeRequest (cb (initWorld 0))
                 (t_before (clock_at (1 * Second)))
               = ((gobreaker.beforeRequest (cb (initWorld 0))
                     (t_before (clock_at (1 * Second)))).1, (1, None)))
    by reflexivity.
  destruct (handleCheckout_admitted_as_unprotected (initWorld 0) a_request
              healthy (clock_at (1 * Second)) _ 1 Hb) as (H & _).
  exact H.
Defined.

(** What one decoded checkout does to the unprotected world. *)
Lemma Unprotected_handleCheckout_effect (req : CheckoutRequest)
  (get : GetResult) (d : Duration) (w : Unprotected.World) :
  let r := (Unprotected.handleCheckout (Some req) get d w).1 in
  let w' := (Unprotected.handleCheckout (Some req) get d w).2 in
  let ok := statusCode r =? StatusOK in
  reply_latency r = [d] /\
  (statusCode r = StatusOK \/ statusCode r = StatusBadGateway) /\
  Unprotected.calls w' = Unprotected.calls w + 1 /\
  Unprotected.TotalRequests (Unprotected.metrics w') =
    GoInt.wrap64 (Unprotected.TotalRequests (Unprotected.metrics w) + 1) /\
  Unprotected.SuccessfulRequests (Unprotected.metrics w') =
    (if ok
     then GoInt.wrap64 (Unprotected.SuccessfulRequests (Unprotected.metrics w) + 1)
     else Unprotected.SuccessfulRequests (Unprotected.metrics w)) /\
  Unprotected.FailedRequests (Unprotected.metrics w') =
    (if ok then Unprotected.FailedRequests (Unprotected.metrics w)
     else GoInt.wrap64 (Unprotected.FailedRequests (Unprotected.metrics w) + 1)) /\
  Unprotected.TotalLatency (Unprotected.metrics w') =
    GoInt.wrap64 (Unprotected.TotalLatency (Unprotected.metrics w) + d) /\
  elems (Unprotected.heap w')
        (Unprotected.LatencyHistory (Unprotected.metrics w')) =
    elems (Unprotected.heap w)
          (Unprotected.LatencyHistory (Unprotected.metrics w)) ++ [d].
Proof.
  cbv zeta. rewrite Unprotected_handleCheckout_unfold. cbv zeta.
  cbn [fst snd Unprotected.calls Unprotected.metrics Unprotected.heap].
  rewrite callPaymentService_sent_eq.
  unfold Unprotected.updateMetrics.
  pose proof (append_elems (Unprotected.heap w)
                (Unprotected.LatencyHistory (Unprotected.metrics w)) d) as Ha.
  destruct (append (Unprotected.heap w)
              (Unprotected.LatencyHistory (Unprotected.metrics w)) d)
    as [h' hist].
  cbn [fst snd] in Ha.
  destruct ((callPaymentService get (Unprotected.calls w)).1.2) as [e |];
    cbn [fst snd reply_latency statusCode Unprotected.TotalRequests
         Unprotected.SuccessfulRequests Unprotected.FailedRequests
         Unprotected.TotalLatency Unprotected.LatencyHistory];
    repeat split; try reflexivity; try exact Ha;
    try (left; reflexivity); try (right; reflexivity).
Qed.

Lemma Unprotected_serve_cons (body : option CheckoutRequest) (get : GetResult)
  (d : Duration) (l : list (option CheckoutRequest * GetResult * Duration))
  (w : Unprotected.World) :
  Unprotected.serve ((body, get, d) :: l) w =
  ((Unprotected.handleCheckout body get d w).1
     :: (Unprotected.serve l (Unprotected.handleCheckout body get d w).2).1,
   (Unprotected.serve l (Unprotected.handleCheckout body get d w).2).2).
Proof.
  cbn [Unprotected.serve].
  destruct (Unprotected.handleCheckout body get d w) as [r w1]. cbn [fst snd].
  destruct (Unprotected.serve l w1) as [rs w2]. reflexivity.
Qed.

(** The accounts of the unprotected service, relative to the world a run
    starts from. *)
Lemma Unprotected_serve_accounts
  (l : list (option CheckoutRequest * GetResult * Duration))
  (w : Unprotected.World) :
  let m := Unprotected.metrics w in
  0 <= Unprotected.SuccessfulRequests m <= Unprotected.TotalRequests m ->
  0 <= Unprotected.FailedRequests m <= Unprotected.TotalRequests m ->
  Unprotected.TotalRequests m + Z.of_nat (length l) <= GoInt.maxInt64 ->
  let rs := (Unprotected.serve l w).1 in
  let w' := (Unprotected.serve l w).2 in
  let m' := Unprotected.metrics w' in
  let decoded := Z.of_nat (length rs) - count_status StatusBadRequest rs in
  length rs = length l /\
  count_status StatusServiceUnavailable rs = 0 /\
  Unprotected.calls w' = Unprotected.calls w + decoded /\
  Unprotected.TotalRequests m' = Unprotected.TotalRequests m + decoded /\
  Unprotected.SuccessfulRequests m' =
    Unprotected.SuccessfulRequests m + count_status StatusOK rs /\
  Unprotected.FailedRequests m' =
    Unprotected.FailedRequests m + count_status StatusBadGateway rs /\
  decoded = count_status StatusOK rs + count_status StatusBadGateway rs /\
  elems (Unprotected.heap w') (Unprotected.LatencyHistory m') =
    elems (Unprotected.heap w) (Unprotected.LatencyHistory m)
    ++ flat_map reply_latency rs.
Proof.
  revert w. induction l as [| [[body get] d] l IH]; intros w; cbv zeta;
    intros HS HF HT.
  - cbn [Unprotected.serve fst snd length flat_map].
    rewrite !count_status_nil, app_nil_r. repeat split; lia.
  - rewrite Unprotected_serve_cons. cbn [fst snd]. cbn [length] in HT.
    assert (Hw : forall z, 0 <= z <= Unprotected.TotalRequests (Unprotected.metrics w) ->
                           GoInt.wrap64 (z + 1) = z + 1).
    { intros z Hz. apply wrap64_small.
      unfold GoInt.in_int64, GoInt.minInt64, GoInt.maxInt64 in *. lia. }
    destruct body as [req |].
    + destruct (Unprotected_handleCheckout_effect req get d w)
        as (Hlat & Hst & Hc & HT' & HS' & HF' & _ & HE').
      cbv zeta in Hlat, Hst, Hc, HT', HS', HF', HE'.
      set (r := (Unprotected.handleCheckout (Some req) get d w).1) in *.
      set (w1 := (Unprotected.handleCheckout (Some req) get d w).2) in *.
      rewrite (Hw (Unprotected.TotalRequests (Unprotected.metrics w))) in HT' by lia.
      assert (Hok : (statusCode r =? StatusOK) = true /\
                    (statusCode r =? StatusBadRequest) = false /\
                    (statusCode r =? StatusBadGateway) = false /\
                    (statusCode r =? StatusServiceUnavailable) = false \/
                    (statusCode r =? StatusOK) = false /\
                    (statusCode r =? StatusBadRequest) = false /\
                    (statusCode r =? StatusBadGateway) = true /\
                    (statusCode r =? StatusServiceUnavailable) = false).
      { destruct Hst as [-> | ->]; [left | right]; repeat split. }
      destruct (IH w1) as (IL & I503 & IC & IT & IS & IF & ID & IE).
      { rewrite HS', HT'. destruct (statusCode r =? StatusOK);
          [rewrite Hw by lia |]; lia. }
      { rewrite HF', HT'. destruct (statusCode r =? StatusOK);
          [| rewrite Hw by lia]; lia. }
      { rewrite HT'. lia. }
      cbv zeta in IL, I503, IC, IT, IS, IF, ID, IE.
      rewrite IC, IT, IS, IF, IE, Hc, HT', HS', HF', HE'.
      cbn [length flat_map]. rewrite Hlat, !count_status_cons, <- app_assoc.
      cbn [app]. rewrite I503.
      destruct Hok as [(E1 & E2 & E3 & E4) | (E1 & E2 & E3 & E4)];
        rewrite E1, E2, E3, E4 in *; cbv iota; rewrite ?Hw by lia;
        repeat split; lia.
    + cbn [Unprotected.handleCheckout fst snd].
      destruct (IH w) as (IL & I503 & IC & IT & IS & IF & ID & IE);
        try assumption; [lia |].
      cbv zeta in IL, I503, IC, IT, IS, IF, ID, IE.
      rewrite IC, IT, IS, IF, IE. cbn [length flat_map reply_latency app].
      rewrite !count_status_cons. cbn [statusCode].
      change (StatusBadRequest =? StatusBadRequest) with true.
      change (StatusBadRequest =? StatusOK) with false.
      change (StatusBadRequest =? StatusBadGateway) with false.
      change (StatusBadRequest =? StatusServiceUnavailable) with false.
      cbv iota. rewrite I503. repeat split; lia.
Qed.

(** X20. The unprotected service never holds a request back: after any
    sequence of checkouts served from start-up, the payment service was
    called once for every checkout that could be decoded, no reply is the
    503 fast fail, and the metrics agree with the replies: successes are the
    200 replies, failures the 502 replies, they add up to the total, and the
    history holds the latencies the replies report, in order. *)
Theorem Unprotected_serve_always_calls
  (l : list (option CheckoutRequest * GetResult * Duration)) :
  Z.of_nat (length l) <= GoInt.maxInt64 ->
  let rs := (Unprotected.serve l Unprotected.initWorld).1 in
  let w := (Unprotected.serve l Unprotected.initWorld).2 in
  let m := Unprotected.metrics w in
  Unprotected.calls w = Z.of_nat (length rs) - count_status StatusBadRequest rs /\
  Unprotected.calls w = Unprotected.TotalRequests m /\
  count_status StatusServiceUnavailable rs = 0 /\
  Unprotected.SuccessfulRequests m = count_status StatusOK rs /\
  Unprotected.FailedRequests m = count_status StatusBadGateway rs /\
  Unprotected.TotalRequests m =
    Unprotected.SuccessfulRequests m + Unprotected.FailedRequests m /\
  elems (Unprotected.heap w) (Unprotected.LatencyHistory m) =
    flat_map reply_latency rs /\
  len (Unprotected.heap w) (Unprotected.LatencyHistory m) =
    Unprotected.TotalRequests m.
Proof.
  intros Hlen.
  destruct (Unprotected_serve_accounts l Unprotected.initWorld)
    as (IL & I503 & IC & IT & IS & IF & ID & IE); try (cbn; lia).
  cbv zeta in *.
  cbn [Unprotected.initWorld Unprotected.metrics Unprotected.calls
       Unprotected.heap Unprotected.zeroMetrics Unprotected.TotalRequests
       Unprotected.SuccessfulRequests Unprotected.FailedRequests
       Unprotected.LatencyHistory elems app] in *.
  rewrite !Z.add_0_l in *.
  repeat split; try assumption; try lia.
  unfold len. rewrite IE, reply_latency_length. lia.
Qed.

Lemma Unprotected_serve_always_calls_witness :
  Unprotected.calls (Unprotected.serve example_checkouts Unprotected.initWorld).2
  = Unprotected.TotalRequests
      (Unprotected.metrics
         (Unprotected.serve example_checkouts Unprotected.initWorld).2).
Proof.
  assert (Hlen : Z.of_nat (length example_checkouts) <= GoInt.maxInt64)
    by (vm_compute; discriminate).
  destruct (Unprotected_serve_always_calls example_checkouts Hlen)
    as (_ & H & _).
  exact H.
Defined.

(** ** The payment service *)

(** A valid binary32 mantissa has at most 24 digits, and exactly 24 unless
    the exponent is the smallest one. *)
Lemma bounded_binary32 (m : positive) (e : Z) :
  bounded 24 128 m e = true ->
  -149 <= e <= 104 /\ Zpos m < 2 ^ 24 /\ (2 ^ 23 <= Zpos m \/ e = -149).
Proof.
  unfold bounded, canonical_mantissa, fexp, emin.
  intros H. apply andb_true_iff in H. destruct H as [Hc He].
  apply Z.leb_le in He. apply Z.eqb_eq in Hc.
  destruct (Zdigits2_bounds (Zpos m) ltac:(lia)) as [Hd0 [Hb1 Hb2]].
  change (Z.pos (digits2_pos m)) with (Zdigits2 (Zpos m)) in Hc.
  set (d := Zdigits2 (Zpos m)) in *.
  assert (Hd : d <= 24) by lia.
  assert (Hp : 2 ^ d <= 2 ^ 24) by (apply Z.pow_le_mono_r; lia).
  split; [lia |]. split; [lia |].
  destruct (Z.eq_dec e (-149)) as [-> | Hne]; [right; reflexivity | left].
  assert (d = 24) by lia. subst d. rewrite H in Hb1. exact Hb1.
Qed.

Lemma Qlt_pow2 (a k n d : Z) :
  0 < k -> (0 < d)%Z ->
  (a # Z.to_pos (2 ^ k) < n # Z.to_pos d)%Q <-> a * d < n * 2 ^ k.
Proof.
  intros Hk Hd. unfold Qlt. cbn [Qnum Qden].
  assert (0 < 2 ^ k) by (apply Z.pow_pos_nonneg; lia).
  rewrite !Z2Pos.id by lia. reflexivity.
Qed.

(** The comparisons of the handler, on the numbers the floats stand for. *)
Lemma ltb_thresholds (x : Flaky.float32) :
  Flaky.random x ->
  (Flaky.ltb x Flaky.lit_0_3 = true <-> (Flaky.value x < 3 # 10)%Q) /\
  (Flaky.ltb x Flaky.lit_0_5 = true <-> (Flaky.value x < 1 # 2)%Q).
Proof.
  intros [Hv Hs]. destruct x as [s | s | | s m e]; try tauto.
  - split; split; reflexivity.
  - subst s. cbn [valid_binary] in Hv.
    destruct (bounded_binary32 m e Hv) as (He & Hm & Hn).
    unfold Flaky.ltb, Flaky.lit_0_3, Flaky.lit_0_5, SFltb, SFcompare,
      Flaky.value.
    assert (Hpos : forall k, 0 <= k -> 0 < 2 ^ k)
      by (intros; apply Z.pow_pos_nonneg; lia).
    destruct (Z.leb_spec 0 e) as [He0 | He0].
    + (* at least 2^23 *)
      assert (1 <= Zpos m * 2 ^ e) by (specialize (Hpos e He0); nia).
      replace (e ?= -25) with Gt by (symmetry; apply Z.compare_gt_iff; lia).
      replace (e ?= -24) with Gt by (symmetry; apply Z.compare_gt_iff; lia).
      unfold Qlt. cbn [Qnum Qden inject_Z].
      split; (split; [discriminate | intros; exfalso; lia]).
    + change (3 # 10)%Q with (3 # Z.to_pos 10)%Q.
      change (1 # 2)%Q with (1 # Z.to_pos 2)%Q.
      rewrite !Qlt_pow2 by lia.
      assert (Hmono : forall a b, 0 <= a <= b -> 2 ^ a <= 2 ^ b)
        by (intros; apply Z.pow_le_mono_r; lia).
      split.
      * destruct (Z.compare_spec e (-25)) as [-> | Hlt | Hgt].
        -- change (- -25) with 25. change (2 ^ 25) with 33554432.
           destruct (Pos.compare_cont Eq m 10066330) eqn:Hc.
           ++ apply Pos.compare_eq in Hc. subst m.
              split; [discriminate | intros; exfalso; lia].
           ++ apply Pos.compare_lt_iff, Pos2Z.pos_lt_pos in Hc.
              split; [intros _; lia | reflexivity].
           ++ apply Pos.compare_gt_iff, Pos2Z.pos_lt_pos in Hc.
              split; [discriminate | intros; exfalso; lia].
        -- split; [intros _ | reflexivity].
           specialize (Hmono 26 (- e) ltac:(lia)).
           change (2 ^ 26) with 67108864 in Hmono.
           change (2 ^ 24) with 16777216 in Hm. lia.
        -- split; [discriminate | intros Hq; exfalso].
           destruct Hn as [Hn | Hn]; [| lia].
           specialize (Hmono (- e) 24 ltac:(lia)).
           change (2 ^ 24) with 16777216 in Hmono.
           change (2 ^ 23) with 8388608 in Hn. lia.
      * destruct (Z.compare_spec e (-24)) as [-> | Hlt | Hgt].
        -- change (- -24) with 24. change (2 ^ 24) with 16777216 in *.
           destruct Hn as [Hn | Hn]; [| lia].
           change (2 ^ 23) with 8388608 in Hn.
           destruct (Pos.compare_cont Eq m 8388608) eqn:Hc.
           ++ split; [discriminate | intros; exfalso; lia].
           ++ apply Pos.compare_lt_iff, Pos2Z.pos_lt_pos in Hc. exfalso. lia.
           ++ split; [discriminate | intros; exfalso; lia].
        -- split; [intros _ | reflexivity].
           specialize (Hmono 25 (- e) ltac:(lia)).
           change (2 ^ 25) with 33554432 in Hmono.
           change (2 ^ 24) with 16777216 in Hm. lia.
        -- split; [discriminate | intros Hq; exfalso].
           destruct Hn as [Hn | Hn]; [| lia].
           specialize (Hmono (- e) 23 ltac:(lia)).
           change (2 ^ 23) with 8388608 in *. lia.
Qed.

Ltac qabsurd :=
  exfalso;
  match goal with
  | H1 : (?x < ?y)%Q, H2 : (?y <= ?x)%Q |- _ => exact (Qlt_not_le _ _ H1 H2)
  end.

(** The handler of [/process], by the two comparisons it makes. *)
Lemma process_cases (r : Flaky.float32) :
  Flaky.random r ->
  ((Flaky.value r < 3 # 10)%Q /\
   Flaky.process r =
     Flaky.mkServed (5 * Second) Flaky.StatusInternalServerError
       "Service overloaded!") \/
  ((3 # 10 <= Flaky.value r)%Q /\ (Flaky.value r < 1 # 2)%Q /\
   Flaky.process r =
     Flaky.mkServed 0 Flaky.StatusInternalServerError
       "Payment processor error!") \/
  ((1 # 2 <= Flaky.value r)%Q /\
   Flaky.process r = Flaky.mkServed 0 StatusOK "Payment successful!").
Proof.
  intros Hr. destruct (ltb_thresholds r Hr) as [H3 H5].
  unfold Flaky.process.
  destruct (Flaky.ltb r Flaky.lit_0_3) eqn:E3.
  - left. split; [apply H3; reflexivity | reflexivity].
  - right.
    assert (H3' : (3 # 10 <= Flaky.value r)%Q).
    { apply Qnot_lt_le. intros Hlt. apply H3 in Hlt. discriminate. }
    destruct (Flaky.ltb r Flaky.lit_0_5) eqn:E5.
    + left. split; [exact H3' |]. split; [apply H5; reflexivity | reflexivity].
    + right. split; [| reflexivity].
      apply Qnot_lt_le. intros Hlt. apply H5 in Hlt. discriminate.
Qed.

(** X21. The payment service, by the number drawn. For every value
    [rand.Float32()] can return, the handler of [/process] answers 200
    exactly when the value is at least 1/2, and it sleeps its 5 seconds
    exactly when the value is below 3/10: the [float32] the constant [0.3]
    is rounded to lies above 3/10, but no [float32] lies between the two.
    Every other answer is a 500, sent at once when the value is between 3/10
    and 1/2. *)
Theorem process_thresholds (r : Flaky.float32) :
  Flaky.random r ->
  let s := Flaky.process r in
  (Flaky.StatusCode s = StatusOK <-> (1 # 2 <= Flaky.value r)%Q) /\
  (Flaky.slept s = 5 * Second <-> (Flaky.value r < 3 # 10)%Q) /\
  (Flaky.slept s = 0 <-> (3 # 10 <= Flaky.value r)%Q) /\
  (Flaky.StatusCode s = StatusOK \/
   Flaky.StatusCode s = Flaky.StatusInternalServerError) /\
  (Flaky.StatusCode s = StatusOK -> Flaky.slept s = 0).
Proof.
  intros Hr s. subst s.
  unfold Flaky.StatusInternalServerError, StatusOK, Second.
  destruct (process_cases r Hr) as [[H3 ->] | [(H3 & H5 & ->) | [H5 ->]]];
    unfold Flaky.StatusInternalServerError, StatusOK, Second;
    cbn [Flaky.StatusCode Flaky.slept].
  - assert (H5 : (Flaky.value r < 1 # 2)%Q)
      by (eapply Qlt_trans; [exact H3 | reflexivity]).
    split; [split; [discriminate | intros Hq; qabsurd] |].
    split; [split; [intros _; exact H3 | reflexivity] |].
    split; [split; [discriminate | intros Hq; qabsurd] |].
    split; [right; reflexivity | discriminate].
  - split; [split; [discriminate | intros Hq; qabsurd] |].
    split; [split; [discriminate | intros Hq; qabsurd] |].
    split; [split; [intros _; exact H3 | reflexivity] |].
    split; [right; reflexivity | discriminate].
  - assert (H3 : (3 # 10 <= Flaky.value r)%Q)
      by (eapply Qle_trans; [| exact H5]; discriminate).
    split; [split; [intros _; exact H5 | reflexivity] |].
    split; [split; [discriminate | intros Hq; qabsurd] |].
    split; [split; [intros _; exact H3 | reflexivity] |].
    split; [left; reflexivity | reflexivity].
Qed.

Lemma process_thresholds_witness :
  Flaky.slept (Flaky.process a_quarter) = 5 * Second
  <-> (Flaky.value a_quarter < 3 # 10)%Q.
Proof.
  assert (Hr : Flaky.random a_quarter) by (split; reflexivity).
  destruct (process_thresholds a_quarter Hr) as (_ & H & _).
  exact H.
Defined.

(** X22. The gateway against the payment service. Whatever number the
    payment service draws and however long the network takes,
    [callPaymentService] succeeds exactly when the number is at least 1/2 and
    the answer arrives within the client's 3 seconds. When the number is
    below 3/10 the handler's 5 second sleep outlasts the client's timeout:
    the gateway sees a transport error, never that answer's status 500. A
    number between 3/10 and 1/2, answered in time, comes back as the error
    built from status 500. *)
Theorem callPaymentService_against_flaky (r : Flaky.float32)
  (network : Duration) (sent : Z) :
  Flaky.random r -> 0 <= network ->
  let res := (callPaymentService (client_Get network (Flaky.process r)) sent).1 in
  (res.2 = None <-> (1 # 2 <= Flaky.value r)%Q /\ network <= clientTimeout) /\
  ((Flaky.value r < 3 # 10)%Q ->
   exists msg, res = (None, Some (TransportError msg))) /\
  ((3 # 10 <= Flaky.value r)%Q -> (Flaky.value r < 1 # 2)%Q ->
   network <= clientTimeout ->
   res = (None, Some (ServiceError 500 "500 Internal Server Error"))).
Proof.
  intros Hr Hn res. subst res.
  unfold client_Get, clientTimeout.
  destruct (process_cases r Hr) as [[H3 ->] | [(H3 & H5 & ->) | [H5 ->]]];
    unfold Flaky.StatusInternalServerError, statusLine, Second;
    cbn [Flaky.StatusCode Flaky.slept].
  - assert (H5 : (Flaky.value r < 1 # 2)%Q)
      by (eapply Qlt_trans; [exact H3 | reflexivity]).
    replace (3 * 1000000000 <? network + 5 * 1000000000) with true
      by (symmetry; apply Z.ltb_lt; lia).
    cbn [callPaymentService fst snd]. split; [| split].
    + split; [discriminate | intros [Hq _]; qabsurd].
    + intros _. eexists. reflexivity.
    + intros Hq. qabsurd.
  - rewrite Z.add_0_r.
    destruct (Z.ltb_spec (3 * 1000000000) network) as [Hlate | Hintime].
    + cbn [callPaymentService fst snd]. split; [| split].
      * split; [discriminate | intros [_ Hq]; lia].
      * intros Hq. qabsurd.
      * intros _ _ Hq. lia.
    + unfold callPaymentService, StatusOK.
      change (negb (500 =? 200)) with true. cbn [fst snd]. split; [| split].
      * split; [discriminate | intros [Hq _]; qabsurd].
      * intros Hq. qabsurd.
      * intros _ _ _. reflexivity.
  - assert (H3 : (3 # 10 <= Flaky.value r)%Q)
      by (eapply Qle_trans; [| exact H5]; discriminate).
    rewrite Z.add_0_r.
    destruct (Z.ltb_spec (3 * 1000000000) network) as [Hlate | Hintime].
    + cbn [callPaymentService fst snd]. split; [| split].
      * split; [discriminate | intros [_ Hq]; lia].
      * intros Hq. qabsurd.
      * intros _ Hq. qabsurd.
    + unfold callPaymentService, StatusOK.
      change (negb (200 =? 200)) with false. cbn [fst snd]. split; [| split].
      * split; [intros _; split; [exact H5 | lia] | reflexivity].
      * intros Hq. qabsurd.
      * intros _ Hq. qabsurd.
Qed.

Lemma callPaymentService_against_flaky_witness :
  (callPaymentService
     (client_Get (20 * Millisecond) (Flaky.process a_quarter)) 0).1.2 = None
  <-> (1 # 2 <= Flaky.value a_quarter)%Q /\ 20 * Millisecond <= clientTimeout.
Proof.
  assert (Hr : Flaky.random a_quarter) by (split; reflexivity).
  assert (Hn : 0 <= 20 * Millisecond) by (vm_compute; discriminate).
  destruct (callPaymentService_against_flaky a_quarter (20 * Millisecond) 0
              Hr Hn) as (H & _).
  exact H.
Defined.
